(** * MultiTenantSaaS: bias-analysis service and model-update scraper

    A shallow embedding of
      - [server/services/bias_analysis/main.py]  (module [Main]),
      - [server/services/bias_analysis/utils.py] (module [Utils]),
      - [scripts/model_updates_scraper.py]       (module [Scraper]),
    together with the properties of the specification that were checked
    against that code.

    Python floats are IEEE binary64 numbers and are modelled by Rocq's
    primitive floats; Python dictionaries whose order is irrelevant are
    [gmap]s, dictionaries that are iterated are association lists.
    Exceptions are values of type [exn]; a function that may raise
    returns a [result]. *)

From Stdlib Require Import ZArith String List Floats Ascii Lia.
From stdpp Require Import gmap strings list fin_maps.
Import ListNotations.
Open Scope string_scope.
Set Warnings "-register-all,-inexact-float".

(** ** Python runtime *)

Module Py.

(** A table cell.  [CStr] is a Python [str]; [CNum] is a number
    ([np.nan] is [CNum nan]). *)
Inductive cell :=
| CStr (s : string)
| CNum (x : float).

(** The text of an f-string: literal pieces and the formatted holes,
    which are kept symbolic (the rendering of a value is Python's). *)
Inductive frag :=
| Lit (s : string)          (* literal text *)
| FStr (s : string)         (* {s} for a str *)
| FInt (n : Z)              (* {n} for an int *)
| FCell (c : cell)          (* {c} for one value *)
| FCells (l : list cell)    (* {l} for a list or an array of values *)
| FStrs (l : list string)   (* {l} for a list of str *)
| FGroups (l : list (gmap string cell)). (* {l} for a list of dicts *)

Definition message := list frag.

(** Exceptions.  [HTTPException] is FastAPI's; every other exception
    carries its class name and its message. *)
Inductive exn :=
| HTTPException (status_code : Z) (detail : message)
| Exception (class : string) (msg : message).

(** [str(e)].  Starlette's [HTTPException.__str__] renders
    "{status_code}: {detail}"; a plain exception renders its message. *)
Definition str (e : exn) : message :=
  match e with
  | HTTPException c d => FInt c :: Lit ": " :: d
  | Exception _ m => m
  end.

Definition is_HTTPException (e : exn) : bool :=
  match e with HTTPException _ _ => true | Exception _ _ => false end.

Inductive result (A : Type) :=
| Ok (a : A)
| Err (e : exn).
Arguments Ok {A} a.
Arguments Err {A} e.

Definition bind {A B} (m : result A) (k : A -> result B) : result B :=
  match m with
  | Ok a => k a
  | Err e => Err e
  end.

(** [try: m  except Exception as e: h e] *)
Definition try_except {A} (m : result A) (h : exn -> result A) : result A :=
  match m with
  | Ok a => Ok a
  | Err e => h e
  end.

(** [try: m  except HTTPException: raise  except Exception as e: h e] *)
Definition try_except_reraise_http {A} (m : result A) (h : exn -> result A)
  : result A :=
  match m with
  | Ok a => Ok a
  | Err e => if is_HTTPException e then Err e else h e
  end.

(** The run of a handler: it ends, returning or raising, or it never
    ends. *)
Inductive outcome (A : Type) :=
| Ends (r : result A)
| Hangs.
Arguments Ends {A} r.
Arguments Hangs {A}.

Definition KeyError (k : string) : exn :=
  Exception "KeyError" [Lit "'"; FStr k; Lit "'"].

(** [d[k]] on a dictionary. *)
Definition getitem {V} (d : gmap string V) (k : string) : result V :=
  match d !! k with
  | Some v => Ok v
  | None => Err (KeyError k)
  end.

(** [x == y] on cells: floats compare as IEEE numbers, a str never
    equals a number. *)
Definition py_eq (a b : cell) : bool :=
  match a, b with
  | CStr s, CStr t => String.eqb s t
  | CNum x, CNum y => PrimFloat.eqb x y
  | _, _ => false
  end.

(** [x < y]; comparing a str with a number raises [TypeError]. *)
Definition py_lt (a b : cell) : result bool :=
  match a, b with
  | CStr s, CStr t => Ok (String.ltb s t)
  | CNum x, CNum y => Ok (PrimFloat.ltb x y)
  | _, _ => Err (Exception "TypeError"
                   [Lit "'<' not supported between instances"])
  end.

(** [sorted(l)]: a stable sort driven by [<].  It raises as soon as two
    values of different kinds are compared, which every list of two or
    more mixed values forces. *)
Fixpoint insert_sorted (x : cell) (l : list cell) : result (list cell) :=
  match l with
  | [] => Ok [x]
  | y :: t =>
      bind (py_lt y x) (fun b =>
        if b then bind (insert_sorted x t) (fun t' => Ok (y :: t'))
        else Ok (x :: y :: t))
  end.

Fixpoint sorted (l : list cell) : result (list cell) :=
  match l with
  | [] => Ok []
  | x :: t => bind (sorted t) (insert_sorted x)
  end.

(** [x in l] for a list of str. *)
Definition in_strs (x : cell) (l : list string) : bool :=
  match x with
  | CStr s => List.existsb (String.eqb s) l
  | CNum _ => false
  end.

(** [x in a] for an array of numbers and a float [x]. *)
Definition contains (x : float) (a : list cell) : bool :=
  List.existsb (py_eq (CNum x)) a.

End Py.
Export Py.

Declare Scope py_scope.
Notation "'let*' x ':=' m 'in' k" := (bind m (fun x => k))
  (at level 10, x name, m at level 100, k at level 200) : py_scope.
Open Scope py_scope.

(** ** pandas data frames *)

Module Pandas.

(** A frame is its columns in order, each a name and its cells.  The
    names of a frame are distinct, as pandas makes them when it builds a
    frame from records or from a file. *)
Definition Series := list cell.
Definition DataFrame := list (string * Series).

Definition columns (df : DataFrame) : list string := List.map fst df.

(** [c in df.columns] *)
Definition has_column (c : string) (df : DataFrame) : bool :=
  List.existsb (String.eqb c) (columns df).

(** [df[c]] for a column known to exist. *)
Fixpoint column (df : DataFrame) (c : string) : Series :=
  match df with
  | [] => []
  | (n, s) :: rest => if String.eqb c n then s else column rest c
  end.

(** [df[c] = s] for an existing column. *)
Fixpoint set_column (c : string) (s : Series) (df : DataFrame) : DataFrame :=
  match df with
  | [] => []
  | (n, old) :: rest =>
      if String.eqb c n then (n, s) :: rest
      else (n, old) :: set_column c s rest
  end.

(** [len(df)] *)
Definition nrows (df : DataFrame) : nat :=
  match df with
  | [] => 0
  | (_, s) :: _ => length s
  end.

(** Boolean-mask selection on one column. *)
Fixpoint select (mask : list bool) (s : Series) : Series :=
  match mask, s with
  | b :: mask', x :: s' => if b then x :: select mask' s' else select mask' s'
  | _, _ => []
  end.

(** [df[mask]] followed by [reset_index(drop=True)]. *)
Definition select_rows (mask : list bool) (df : DataFrame) : DataFrame :=
  List.map (fun '(n, s) => (n, select mask s)) df.

(** [isna] on a cell. *)
Definition isna (x : cell) : bool :=
  match x with
  | CNum v => PrimFloat.is_nan v
  | CStr _ => false
  end.

(** Equality used by [unique]: pandas hashes values, all NaN are one
    value. *)
Definition same (a b : cell) : bool :=
  match a, b with
  | CStr s, CStr t => String.eqb s t
  | CNum x, CNum y =>
      PrimFloat.eqb x y || (PrimFloat.is_nan x && PrimFloat.is_nan y)
  | _, _ => false
  end.

(** [s.unique()]: the distinct values in order of first appearance. *)
Fixpoint unique (s : Series) : list cell :=
  match s with
  | [] => []
  | x :: t => x :: List.filter (fun y => negb (same x y)) (unique t)
  end.

(** A row of [to_dict(orient="records")]. *)
Definition row := list (string * cell).

Fixpoint lookup_field (c : string) (r : row) : option cell :=
  match r with
  | [] => None
  | (k, v) :: rest => if String.eqb c k then Some v else lookup_field c rest
  end.

(** Keys of all rows, in order of first appearance. *)
Fixpoint dedup (l : list string) : list string :=
  match l with
  | [] => []
  | x :: t => x :: List.filter (fun y => negb (String.eqb x y)) (dedup t)
  end.

(** [pd.DataFrame(data)]: the columns are the keys of the rows; a row
    that lacks a key holds NaN there. *)
Definition DataFrame_of (data : list row) : DataFrame :=
  List.map
    (fun c =>
       (c, List.map (fun r => default (CNum nan) (lookup_field c r)) data))
    (dedup (List.concat (List.map (List.map fst) data))).

(** [df.to_dict(orient="records")] *)
Fixpoint to_dict_records_aux (n : nat) (df : DataFrame) : list row :=
  match n with
  | O => []
  | S n' =>
      List.map (fun '(c, s) => (c, List.hd (CNum nan) s)) df
      :: to_dict_records_aux n' (List.map (fun '(c, s) => (c, List.tl s)) df)
  end.

Definition to_dict_records (df : DataFrame) : list row :=
  to_dict_records_aux (nrows df) df.

End Pandas.
Export Pandas.

(** ** JSON-like values of the result dictionaries *)

Inductive json :=
| JNull
| JStr (s : string)
| JNum (x : float)
| JMsg (m : message)
| JDict (d : gmap string json).

Abbreviation pydict := (gmap string json).

(** ** Text helpers: [s.replace("_", " ").title()] *)

Module Text.

Definition is_upper (c : ascii) : bool :=
  (65 <=? nat_of_ascii c)%nat && (nat_of_ascii c <=? 90)%nat.
Definition is_lower (c : ascii) : bool :=
  (97 <=? nat_of_ascii c)%nat && (nat_of_ascii c <=? 122)%nat.
Definition upper (c : ascii) : ascii :=
  if is_lower c then ascii_of_nat (nat_of_ascii c - 32) else c.
Definition lower (c : ascii) : ascii :=
  if is_upper c then ascii_of_nat (nat_of_ascii c + 32) else c.

Fixpoint replace_char (a b : ascii) (s : string) : string :=
  match s with
  | EmptyString => EmptyString
  | String c t =>
      String (if Ascii.eqb c a then b else c) (replace_char a b t)
  end.

(** [str.title]: a cased character is upper-cased after an uncased one
    and lower-cased after a cased one. *)
Fixpoint title_from (prev_cased : bool) (s : string) : string :=
  match s with
  | EmptyString => EmptyString
  | String c t =>
      if is_upper c || is_lower c
      then String (if prev_cased then lower c else upper c) (title_from true t)
      else String c (title_from false t)
  end.

Definition title (s : string) : string := title_from false s.

Definition display_name (metric_name : string) : string :=
  title (replace_char "_" " " metric_name).

End Text.

(** ** The libraries the service calls

    pandas' numeric parsing, scikit-learn's label encoder, the AIF360
    data set and metric classes, the file readers and Python's [eval] are
    not part of the repository.  The code is modelled over any behaviour
    of theirs. *)

(** A group mapping entry is a value or a list of values. *)
Inductive group_value :=
| Single (s : string)
| Multiple (l : list string).

(** What [eval] of the [group_mappings] query parameter comes to: a
    group mapping or [None]; an exception that [except Exception]
    catches (a value that is no group mapping counts here: the request
    refuses it inside [run_bias_analysis], with the same entry as
    result); or an exception that [except Exception] does not catch,
    [SystemExit] or [KeyboardInterrupt], as [eval] runs the caller's
    expression. *)
Inductive evaluation :=
| Value (v : option (gmap string (gmap string group_value)))
| Raises (e : exn)
| Leaves (e : exn).

Record library := {
  (** [str(x)] of a number, as [astype(str)] renders it *)
  str_of_float : float -> string;
  (** [pd.to_numeric(s, errors='raise')]; [None] when it raises *)
  to_numeric : Series -> option Series;
  (** [LabelEncoder().fit_transform(s)] *)
  label_encode : Series -> Series;
  (** both give one value per row *)
  to_numeric_length :
    forall s s', to_numeric s = Some s' -> length s' = length s;
  label_encode_length : forall s, length (label_encode s) = length s;
  (** [aif360.datasets.BinaryLabelDataset] *)
  dataset : Type;
  BinaryLabelDataset :
    DataFrame -> list string -> list string ->
    list (list float) -> list (list float) -> result dataset;
  protected_attribute_names : dataset -> list string;
  (** [BinaryLabelDatasetMetric] and its two measures *)
  metric : Type;
  BinaryLabelDatasetMetric :
    dataset -> list (gmap string cell) -> list (gmap string cell) ->
    result metric;
  mean_difference : metric -> result float;
  disparate_impact : metric -> result float;
  (** [pd.read_csv] and [pd.read_excel] on the content of a file *)
  read_csv : string -> result DataFrame;
  read_excel : string -> result DataFrame;
  (** [zipfile.ZipFile(...).extractall] then [os.listdir]: the names and
      contents found in the directory, from the bytes of the upload *)
  extract_and_list : string -> result (list (string * string));
  (** [eval] of the [group_mappings] query parameter *)
  py_eval : string -> evaluation;
}.

Abbreviation mapping := (gmap string group_value).
Abbreviation mappings := (gmap string (gmap string group_value)).
Abbreviation group := (gmap string cell).

(** ** server/services/bias_analysis/main.py *)

Module Main.

Definition LABEL_CANDIDATES : list string := ["label"; "true_label"; "target"].

Definition find_label_column (df : DataFrame) : result string :=
  match List.find (fun col => has_column col df) LABEL_CANDIDATES with
  | Some col => Ok col
  | None =>
      Err (Exception "ValueError"
             [Lit "No label column found. Expected one of: ";
              FStrs LABEL_CANDIDATES])
  end.

(** [isinstance(v, list)]: a single value becomes a one-element list. *)
Definition as_list (v : group_value) : list string :=
  match v with
  | Single s => [s]
  | Multiple l => l
  end.

(** [group_mappings and attr in group_mappings], then
    [group_mappings[attr]]. *)
Definition mapping_for (group_mappings : option mappings) (attr : string)
  : option mapping :=
  match group_mappings with
  | Some gm => gm !! attr
  | None => None
  end.

(** The function mapped over the column at line 179. *)
Definition explicit_code (privileged_values unprivileged_values : list string)
  (x : cell) : cell :=
  if in_strs x privileged_values then CNum 1
  else if in_strs x unprivileged_values then CNum 0
  else CNum nan.

(** The function mapped over the column at line 206. *)
Definition fallback_code (privileged_value unprivileged_value x : cell)
  : cell :=
  if py_eq x privileged_value then CNum 1
  else if py_eq x unprivileged_value then CNum 0
  else CNum nan.

(** [df[col].dtype == object]: the column holds Python objects (str). *)
Definition is_object (s : Series) : bool :=
  List.existsb (fun x => match x with CStr _ => true | CNum _ => false end) s.

Section WithLibrary.
Context (lib : library).

Definition str_of_cell (x : cell) : string :=
  match x with
  | CStr s => s
  | CNum v => str_of_float lib v
  end.

(** [s.astype(str)] *)
Definition astype_str (s : Series) : Series :=
  List.map (fun x => CStr (str_of_cell x)) s.

(** [try: pd.to_numeric(s, errors='raise')
     except: LabelEncoder().fit_transform(s.astype(str))] *)
Definition to_numeric_or_encode (s : Series) : Series :=
  match to_numeric lib s with
  | Some s' => s'
  | None => label_encode lib (astype_str s)
  end.

Definition encode_categoricals (df : DataFrame) (exclude : list string)
  : DataFrame :=
  List.map
    (fun '(col, s) =>
       if negb (List.existsb (String.eqb col) exclude) && is_object s
       then (col, to_numeric_or_encode s)
       else (col, s))
    df.

(** Lines 169-194 of [preprocess_data]: the branch with an explicit
    mapping for [attr]. *)
Definition encode_with_mapping (attr : string) (m : mapping) (df : DataFrame)
  : result DataFrame :=
  let* privileged_values := getitem m "privileged" in
  let* unprivileged_values := getitem m "unprivileged" in
  let privileged_values := as_list privileged_values in
  let unprivileged_values := as_list unprivileged_values in
  let df :=
    set_column attr
      (List.map (explicit_code privileged_values unprivileged_values)
         (column df attr))
      df in
  let unique_vals := unique (column df attr) in
  let df_unique :=
    if List.existsb isna (column df attr)
    then
      let df' :=
        select_rows (List.map (fun x => negb (isna x)) (column df attr)) df in
      (df', unique (column df' attr))
    else (df, unique_vals) in
  let df := fst df_unique in
  let unique_vals := snd df_unique in
  if negb (contains 1 unique_vals && contains 0 unique_vals)
  then
    Err (HTTPException 400
           [Lit "After mapping, both privileged (1.0) and unprivileged (0.0) values must exist in '";
            FStr attr; Lit "'. Found: "; FCells unique_vals])
  else Ok df.

(** The detail of the exception raised at line 200. *)
Definition more_than_two_detail (attr : string) (unique_values : list cell)
  : message :=
  [Lit "Protected attribute '"; FStr attr;
   Lit "' has more than two unique values: "; FCells unique_values;
   Lit ". Please provide group_mappings for this attribute, e.g. 'group_mappings': {'";
   FStr attr;
   Lit "': {'privileged': 'VALUE1', 'unprivileged': 'VALUE2'}}."].

(** Lines 195-216 of [preprocess_data]: the fallback branch. *)
Definition encode_fallback (attr : string) (df : DataFrame)
  : result DataFrame :=
  let* unique_values := sorted (unique (column df attr)) in
  if (2 <? length unique_values)%nat
  then
    Err (HTTPException 400 (more_than_two_detail attr unique_values))
  else if (length unique_values <? 2)%nat
  then
    Err (HTTPException 400
           [Lit "Not enough unique values for protected attribute '";
            FStr attr; Lit "'. Found: "; FCells unique_values])
  else
    let privileged_value := List.nth 0 unique_values (CNum nan) in
    let unprivileged_value := List.nth 1 unique_values (CNum nan) in
    let df :=
      set_column attr
        (List.map (fallback_code privileged_value unprivileged_value)
           (column df attr))
        df in
    let unique_vals := unique (column df attr) in
    if List.existsb isna (column df attr)
    then
      Err (HTTPException 400
             [Lit "Found values in '"; FStr attr;
              Lit "' that are not in fallback mapping: ";
              FCells (unique (List.filter isna (column df attr)))])
    else if negb (contains 1 unique_vals && contains 0 unique_vals)
    then
      Err (HTTPException 400
             [Lit "After fallback mapping, both privileged (1.0) and unprivileged (0.0) values must exist in '";
              FStr attr; Lit "'. Found: "; FCells unique_vals])
    else Ok df.

(** The body of the third loop of [preprocess_data] (lines 168-216). *)
Definition encode_step (group_mappings : option mappings) (attr : string)
  (df : DataFrame) : result DataFrame :=
  if has_column attr df
  then
    match mapping_for group_mappings attr with
    | Some m => encode_with_mapping attr m df
    | None => encode_fallback attr df
    end
  else Ok df.

(** The third loop of [preprocess_data] (lines 167-216). *)
Fixpoint encode_protected (group_mappings : option mappings)
  (protected_attributes : list string) (df : DataFrame) : result DataFrame :=
  match protected_attributes with
  | [] => Ok df
  | attr :: rest =>
      let* df := encode_step group_mappings attr df in
      encode_protected group_mappings rest df
  end.

(** The first loop (lines 148-152): protected columns become str. *)
Definition stringify_protected (protected_attributes : list string)
  (df : DataFrame) : DataFrame :=
  List.fold_left
    (fun df attr =>
       if has_column attr df
       then set_column attr (astype_str (column df attr)) df
       else df)
    protected_attributes df.

(** The second loop (lines 155-164): the other columns become numbers. *)
Definition numeric_others (protected_attributes : list string)
  (df : DataFrame) : DataFrame :=
  List.map
    (fun '(col, s) =>
       if negb (List.existsb (String.eqb col) protected_attributes)
       then (col, to_numeric_or_encode s)
       else (col, s))
    df.

Definition preprocess_data (df : DataFrame) (protected_attributes : list string)
  (group_mappings : option mappings) : result DataFrame :=
  try_except
    (let df := stringify_protected protected_attributes df in
     let df := numeric_others protected_attributes df in
     encode_protected group_mappings protected_attributes df)
    (fun e =>
       Err (HTTPException 400 (Lit "Error preprocessing data: " :: str e))).

(** [calculate_bias_metrics]: the groups passed in are overwritten. *)
Definition calculate_bias_metrics (ds : dataset lib)
  (privileged_groups unprivileged_groups : list group)
  : result (list (string * float)) :=
  try_except
    (let* protected_attr :=
       match protected_attribute_names lib ds with
       | a :: _ => Ok a
       | [] => Err (Exception "IndexError" [Lit "list index out of range"])
       end in
     let privileged_groups : list group := [{[protected_attr := CNum 1]}] in
     let unprivileged_groups : list group := [{[protected_attr := CNum 0]}] in
     let* m :=
       BinaryLabelDatasetMetric lib ds privileged_groups unprivileged_groups in
     let* md := mean_difference lib m in
     let* di := disparate_impact lib m in
     Ok [("statistical_disparity", md); ("disparate_impact", di)])
    (fun e =>
       Err (HTTPException 400 (Lit "Error calculating metrics: " :: str e))).

End WithLibrary.

Definition determine_metric_status (score threshold : float)
  (metric_type : string) : string :=
  if String.eqb metric_type "disparate_impact"
  then if PrimFloat.ltb threshold score then "pass" else "fail"
  else if PrimFloat.ltb (PrimFloat.abs score) threshold then "pass" else "fail".

(** [safe_float]; [None] is Python's [None]. *)
Definition safe_float (val : float) : option float :=
  if PrimFloat.is_nan val || PrimFloat.is_infinity val then None
  else Some val.

Definition json_of_score (s : option float) : json :=
  match s with
  | Some v => JNum v
  | None => JNull
  end.

Definition thresholds : gmap string float :=
  <["statistical_disparity" := 0.1%float]>
    (<["disparate_impact" := 0.8%float]>
       (<["equal_opportunity" := 0.1%float]> ∅)).

Definition format_result (metric_name : string) (score threshold : float)
  : pydict :=
  <["metric_name" := JStr (Text.display_name metric_name)]>
    (<["score" := json_of_score (safe_float score)]>
       (<["threshold" := JNum threshold]>
          (<["status" :=
               JStr (determine_metric_status score threshold metric_name)]>
             (<["demographic_group" := JStr "overall"]> ∅)))).

(** [metrics.items()] is iterated in insertion order: an association
    list.  [thresholds[metric_name]] raises [KeyError] for an unknown
    name. *)
Fixpoint format_results_for_output (metrics : list (string * float))
  : result (list pydict) :=
  match metrics with
  | [] => Ok []
  | (metric_name, score) :: rest =>
      let* threshold := getitem thresholds metric_name in
      let* results := format_results_for_output rest in
      Ok (format_result metric_name score threshold :: results)
  end.

(** [simple_detect_groups].  The values it picks are used in its log
    lines only, so the lines it writes are part of the model: the first
    component of the result. *)
Definition simple_detect_groups (df : DataFrame)
  (protected_attributes : list string) (group_mappings : option mappings)
  : list message * result (list group * list group) :=
  match protected_attributes with
  | [] =>
      let m := [Lit "list index out of range"] in
      ([Lit "Error in simple group detection: " :: m],
       Err (HTTPException 400 (Lit "Error detecting groups: " :: m)))
  | attr :: _ =>
      let log := [[Lit "Detecting groups for protected attribute: "; FStr attr]] in
      if negb (has_column attr df)
      then
        let detail_msg :=
          [Lit "Protected attribute '"; FStr attr;
           Lit "' not found in data columns: "; FStrs (columns df)] in
        ((log ++ [detail_msg])%list, Err (HTTPException 400 detail_msg))
      else
        let unique_values := unique (column df attr) in
        let log :=
          (log ++ [[Lit "Unique values in "; FStr attr; Lit ": ";
                    FCells unique_values]])%list in
        match mapping_for group_mappings attr with
        | Some m =>
            match m !! "privileged", m !! "unprivileged" with
            | Some privileged_values, Some unprivileged_values =>
                let privileged_values := as_list privileged_values in
                let unprivileged_values := as_list unprivileged_values in
                let privileged_groups : list group := [{[attr := CNum 1]}] in
                let unprivileged_groups : list group := [{[attr := CNum 0]}] in
                ((log ++
                  [[Lit "Using provided mappings - Privileged: ";
                    FStrs privileged_values; Lit ", Unprivileged: ";
                    FStrs unprivileged_values];
                   [Lit "Created groups - Privileged: ";
                    FGroups privileged_groups; Lit ", Unprivileged: ";
                    FGroups unprivileged_groups]])%list,
                 Ok (privileged_groups, unprivileged_groups))
            | _, _ =>
                let detail_msg :=
                  [Lit "Invalid group mapping for "; FStr attr;
                   Lit ". Must specify both 'privileged' and 'unprivileged' values."] in
                ((log ++ [detail_msg])%list, Err (HTTPException 400 detail_msg))
            end
        | None =>
            if (length unique_values <? 2)%nat
            then
              let detail_msg :=
                [Lit "Not enough unique values for protected attribute '";
                 FStr attr; Lit "'. Found: "; FCells unique_values] in
              ((log ++ [detail_msg])%list, Err (HTTPException 400 detail_msg))
            else
              let privileged_value := List.nth 0 unique_values (CNum nan) in
              let unprivileged_value := List.nth 1 unique_values (CNum nan) in
              let privileged_groups : list group := [{[attr := CNum 1]}] in
              let unprivileged_groups : list group := [{[attr := CNum 0]}] in
              ((log ++
                [[Lit "Using fallback mapping - Privileged: ";
                  FCell privileged_value; Lit ", Unprivileged: ";
                  FCell unprivileged_value];
                 [Lit "Created groups - Privileged: ";
                  FGroups privileged_groups; Lit ", Unprivileged: ";
                  FGroups unprivileged_groups]])%list,
               Ok (privileged_groups, unprivileged_groups))
        end
  end.

Section Pipeline.
Context (lib : library).

(** What [create_dataset] hands to [BinaryLabelDataset]. *)
Record dataset_args := {
  frame : DataFrame;
  label_names : list string;
  protected_names : list string;
  privileged_protected_attributes : list (list float);
  unprivileged_protected_attributes : list (list float);
}.

(** The loop of lines 444-456: the first protected attribute that is a
    column is verified, then the loop is left. *)
Fixpoint verify_protected (protected_attributes : list string)
  (df : DataFrame) : result (list (list float) * list (list float)) :=
  match protected_attributes with
  | [] => Ok ([], [])
  | attr :: rest =>
      if has_column attr df
      then
        try_except
          (let unique_bin := unique (column df attr) in
           if negb (contains 1 unique_bin) || negb (contains 0 unique_bin)
           then
             Err (HTTPException 400
                    [Lit "After preprocessing, both privileged (1.0) and unprivileged (0.0) values must exist in '";
                     FStr attr; Lit "'. Found: "; FCells unique_bin])
           else Ok ([[1%float]], [[0%float]]))
          (fun e =>
             Err (HTTPException 400
                    (Lit "Error processing protected attribute "
                     :: FStr attr :: Lit ": " :: str e)))
      else verify_protected rest df
  end.

(** [create_dataset] up to the call of [BinaryLabelDataset]. *)
Definition prepare_dataset (data : list row)
  (protected_attributes : list string) (group_mappings : option mappings)
  : result dataset_args :=
  let df := DataFrame_of data in
  if (length (columns df) <? 2)%nat
  then Err (HTTPException 400 [Lit "Dataset must contain at least two columns"])
  else
    let* label_col :=
      try_except (find_label_column df)
        (fun e =>
           Err (HTTPException 400
                  (Lit "Error detecting label column: " :: str e))) in
    let* df :=
      try_except (preprocess_data lib df protected_attributes group_mappings)
        (fun e =>
           Err (HTTPException 400
                  (Lit "Error preprocessing data: " :: str e))) in
    let df :=
      encode_categoricals lib df (protected_attributes ++ [label_col])%list in
    let* groups := verify_protected protected_attributes df in
    Ok {| frame := df;
          label_names := [label_col];
          protected_names := protected_attributes;
          privileged_protected_attributes := fst groups;
          unprivileged_protected_attributes := snd groups |}.

Definition create_dataset (data : list row)
  (protected_attributes : list string) (group_mappings : option mappings)
  : result (dataset lib) :=
  try_except_reraise_http
    (let* a := prepare_dataset data protected_attributes group_mappings in
     try_except
       (BinaryLabelDataset lib (frame a) (label_names a) (protected_names a)
          (privileged_protected_attributes a)
          (unprivileged_protected_attributes a))
       (fun e =>
          Err (HTTPException 400
                 (Lit "Error creating BinaryLabelDataset: " :: str e))))
    (fun e =>
       Err (HTTPException 500
              (Lit "Unexpected error creating dataset: " :: str e))).

Record BiasAnalysisRequest := {
  data : list row;
  protected_attributes : list string;
  privileged_groups : option (list group);
  unprivileged_groups : option (list group);
  group_mappings : option mappings;
}.

Record BiasAnalysisResponse := {
  results : list pydict;
  message_ : string;
}.

(** [analyze_bias], the handler of POST /analyze. *)
Definition analyze_bias (request : BiasAnalysisRequest)
  : result BiasAnalysisResponse :=
  try_except_reraise_http
    (if match data request with [] => true | _ => false end
     then Err (HTTPException 400 [Lit "Empty dataset provided"])
     else if match protected_attributes request with [] => true | _ => false end
     then Err (HTTPException 400 [Lit "No protected attributes specified"])
     else
       let* ds :=
         try_except
           (create_dataset (data request) (protected_attributes request)
              (group_mappings request))
           (fun e =>
              Err (HTTPException 400
                     (Lit "Error creating dataset: " :: str e))) in
       let* groups :=
         try_except
           (match privileged_groups request, unprivileged_groups request with
            | Some p, Some u => Ok (p, u)
            | _, _ =>
                snd (simple_detect_groups (DataFrame_of (data request))
                       (protected_attributes request)
                       (group_mappings request))
            end)
           (fun e =>
              Err (HTTPException 400
                     (Lit "Error in group detection: " :: str e))) in
       let* metrics :=
         try_except
           (calculate_bias_metrics lib ds (fst groups) (snd groups))
           (fun e =>
              Err (HTTPException 500
                     (Lit "Error calculating metrics: " :: str e))) in
       try_except
         (let* results := format_results_for_output metrics in
          Ok {| results := results;
                message_ := "Bias analysis completed successfully" |})
         (fun e =>
            Err (HTTPException 500
                   (Lit "Error formatting results: " :: str e))))
    (fun e =>
       Err (HTTPException 500
              (Lit "Unexpected error in bias analysis: " :: str e))).

(** [run_bias_analysis]: every exception becomes a one-entry result.
    [running] is [asyncio.get_event_loop().is_running()].  With no loop
    running the request is run to completion on a loop of its own.
    Inside a running loop the request is scheduled on that loop and
    waited for with [time.sleep], which blocks the loop that would have
    to run it: the wait never ends (lines 574-580). *)
Definition run_bias_analysis (running : bool) (df : DataFrame)
  (protected_attribute : string) (group_mappings : option mappings)
  : outcome (list pydict) :=
  let req :=
    {| data := to_dict_records df;
       protected_attributes := [protected_attribute];
       privileged_groups := None;
       unprivileged_groups := None;
       group_mappings := group_mappings |} in
  if running then Hangs
  else
    Ends (Ok (match analyze_bias req with
              | Ok response => results response
              | Err e => [{["error" := JMsg (str e)]}]
              end)).

(** [s.endswith(suffix)] *)
Definition endswith (s suffix : string) : bool :=
  let n := String.length s in
  let m := String.length suffix in
  (m <=? n)%nat && String.eqb (String.substring (n - m) m s) suffix.

Fixpoint lower_string (s : string) : string :=
  match s with
  | EmptyString => EmptyString
  | String c t => String (Text.lower c) (lower_string t)
  end.

(** The test of line 650. *)
Definition is_data_file (fname : string) : bool :=
  endswith fname ".csv" || endswith fname ".xlsx" || endswith fname ".xls".

(** Lines 652-655: the file is parsed by its extension. *)
Definition read_entry (fname content : string) : result DataFrame :=
  if endswith fname ".csv" then read_csv lib content
  else read_excel lib content.

(** Line 657. *)
Definition evaluate (group_mappings : option string) : evaluation :=
  match group_mappings with
  | Some src =>
      if String.eqb src EmptyString then Value None else py_eval lib src
  | None => Value None
  end.

(** The body of the loop of [analyze_folder] for one directory entry
    (lines 650-663).  The file is read before the [try].  The handler is
    a coroutine, so the loop is running when it calls
    [run_bias_analysis]. *)
Definition analyze_entry (protected_attribute : string)
  (group_mappings : option string) (fname content : string)
  : outcome (list pydict) :=
  if is_data_file fname
  then
    match read_entry fname content with
    | Err e => Ends (Err e)
    | Ok df =>
        match evaluate group_mappings with
        | Value group_map =>
            match run_bias_analysis true df protected_attribute group_map with
            | Ends (Ok file_results) =>
                Ends (Ok (List.map
                            (fun r : pydict => <["file" := JStr fname]> r)
                            file_results))
            | Ends (Err e) =>
                Ends (Ok [<["file" := JStr fname]>
                            ({["error" := JMsg (str e)]} : pydict)])
            | Hangs => Hangs
            end
        | Raises e =>
            Ends (Ok [<["file" := JStr fname]>
                        ({["error" := JMsg (str e)]} : pydict)])
        | Leaves e => Ends (Err e)
        end
    end
  else Ends (Ok []).

Fixpoint analyze_entries (protected_attribute : string)
  (group_mappings : option string) (entries : list (string * string))
  : outcome (list pydict) :=
  match entries with
  | [] => Ends (Ok [])
  | (fname, content) :: rest =>
      match analyze_entry protected_attribute group_mappings fname content with
      | Ends (Ok rs) =>
          match analyze_entries protected_attribute group_mappings rest with
          | Ends (Ok rs') => Ends (Ok (rs ++ rs')%list)
          | Ends (Err e) => Ends (Err e)
          | Hangs => Hangs
          end
      | Ends (Err e) => Ends (Err e)
      | Hangs => Hangs
      end
  end.

(** [analyze_folder], the handler of POST /analyze/folder; the value is
    the list of rows of the CSV attachment. *)
Definition analyze_folder (filename upload : string)
  (protected_attribute : string) (group_mappings : option string)
  : outcome (list pydict) :=
  if negb (endswith (lower_string filename) ".zip")
  then
    Ends (Err (HTTPException 400
                 [Lit "Only ZIP files are supported for folder upload."]))
  else
    match extract_and_list lib upload with
    | Err e => Ends (Err e)
    | Ok entries => analyze_entries protected_attribute group_mappings entries
    end.

End Pipeline.
End Main.

(** ** server/services/bias_analysis/utils.py *)

Module Utils.

Definition thresholds : gmap string float :=
  <["statistical_disparity" := 0.1%float]>
    (<["disparate_impact" := 0.8%float]>
       (<["equal_opportunity_difference" := 0.1%float]>
          (<["average_odds_difference" := 0.1%float]> ∅))).

(** Returns the pair [(status, threshold)]. *)
Definition determine_metric_status (metric_value : float)
  (metric_name : string) : string * float :=
  let threshold := default 0.1%float (thresholds !! metric_name) in
  let status :=
    if String.eqb metric_name "disparate_impact"
    then
      if PrimFloat.leb 0.8 metric_value && PrimFloat.leb metric_value 1.2
      then "pass" else "fail"
    else
      if PrimFloat.ltb (PrimFloat.abs metric_value) threshold
      then "pass" else "fail" in
  (status, threshold).

Definition format_result (metric_name : string) (value : float) : pydict :=
  let st := determine_metric_status value metric_name in
  let status := fst st in
  let threshold := snd st in
  <["metric_name" := JStr (Text.display_name metric_name)]>
    (<["score" := JNum value]>
       (<["threshold" := JNum threshold]>
          (<["status" := JStr status]>
             (<["additional_data" :=
                  JDict (<["raw_value" := JNum value]>
                           (<["threshold" := JNum threshold]> ∅))]> ∅)))).

Definition format_results_for_output (metrics : list (string * float))
  : list pydict :=
  List.map (fun '(metric_name, value) => format_result metric_name value)
    metrics.

End Utils.

(** ** scripts/model_updates_scraper.py *)

Module Scraper.

(** Text is held as the UTF-8 bytes of the Python str. *)

(** *** [clean_summary] *)

Definition lt_char : ascii := "<"%char.
Definition gt_char : ascii := ">"%char.

(** After a "<" and one further character: the shortest run of
    characters other than "<" that ends in ">"; the rest of the text
    after the tag when there is one. *)
Fixpoint close_tag (s : string) : option string :=
  match s with
  | EmptyString => None
  | String c t =>
      if Ascii.eqb c gt_char then Some t
      else if Ascii.eqb c lt_char then None
      else close_tag t
  end.

Definition match_tag (s : string) : option string :=
  match s with
  | String c1 (String c2 t) =>
      if Ascii.eqb c1 lt_char && negb (Ascii.eqb c2 lt_char)
      then close_tag t
      else None
  | _ => None
  end.

(** [re.sub('<[^<]+?>', '', s)]; [fuel] bounds the number of steps, one
    per character is enough. *)
Fixpoint strip_tags_fuel (fuel : nat) (s : string) : string :=
  match fuel with
  | O => s
  | S fuel' =>
      match s with
      | EmptyString => EmptyString
      | String c t =>
          match match_tag s with
          | Some rest => strip_tags_fuel fuel' rest
          | None => String c (strip_tags_fuel fuel' t)
          end
      end
  end.

Definition strip_tags (s : string) : string :=
  strip_tags_fuel (String.length s) s.

Definition bytes (l : list nat) : string :=
  List.fold_right (fun n s => String (ascii_of_nat n) s) EmptyString l.

(** The characters [str.strip()] removes, each in its UTF-8 bytes:
    U+0009 to U+000D, U+001C to U+0020, U+0085, U+00A0, U+1680, U+2000
    to U+200A, U+2028, U+2029, U+202F, U+205F and U+3000. *)
Definition WHITESPACE : list string :=
  List.map bytes
    [[9]; [10]; [11]; [12]; [13]; [28]; [29]; [30]; [31]; [32];
     [194; 133]; [194; 160]; [225; 154; 128];
     [226; 128; 128]; [226; 128; 129]; [226; 128; 130]; [226; 128; 131];
     [226; 128; 132]; [226; 128; 133]; [226; 128; 134]; [226; 128; 135];
     [226; 128; 136]; [226; 128; 137]; [226; 128; 138];
     [226; 128; 168]; [226; 128; 169]; [226; 128; 175];
     [226; 129; 159]; [227; 128; 128]]%nat.

Fixpoint reversed_onto (s acc : string) : string :=
  match s with
  | EmptyString => acc
  | String c t => reversed_onto t (String c acc)
  end.

Definition reversed (s : string) : string := reversed_onto s EmptyString.

(** The text after the prefix [p] of [s]. *)
Fixpoint after_prefix (p s : string) : option string :=
  match p with
  | EmptyString => Some s
  | String a p' =>
      match s with
      | String b s' => if Ascii.eqb a b then after_prefix p' s' else None
      | EmptyString => None
      end
  end.

(** The text after the character of [spaces] that [s] starts with. *)
Fixpoint after_space (spaces : list string) (s : string) : option string :=
  match spaces with
  | [] => None
  | w :: rest =>
      match after_prefix w s with
      | Some s' => Some s'
      | None => after_space rest s
      end
  end.

(** Leading characters of [spaces] removed; every step removes a byte at
    least, so a fuel of the length of the text is enough. *)
Fixpoint without_leading (spaces : list string) (fuel : nat) (s : string)
  : string :=
  match fuel with
  | O => s
  | S fuel' =>
      match after_space spaces s with
      | Some s' => without_leading spaces fuel' s'
      | None => s
      end
  end.

Definition lstrip (s : string) : string :=
  without_leading WHITESPACE (String.length s) s.

Definition rstrip (s : string) : string :=
  reversed
    (without_leading (List.map reversed WHITESPACE) (String.length s)
       (reversed s)).

Definition strip (s : string) : string := rstrip (lstrip s).

(** [s.split('. ')[0]] *)
Fixpoint first_sentence (s : string) : string :=
  match s with
  | EmptyString => EmptyString
  | String c t =>
      match t with
      | String c' _ =>
          if Ascii.eqb c "."%char && Ascii.eqb c' " "%char then EmptyString
          else String c (first_sentence t)
      | EmptyString => String c EmptyString
      end
  end.

Definition clean_summary (html_text : string) : string :=
  let text := strip_tags html_text in
  let part0 := first_sentence (strip text) in
  if String.eqb part0 EmptyString then text else part0 ++ ".".

(** *** The feed and the database *)

(** A feed entry; a field that the entry lacks is [None]. *)
Record entry (struct_time : Type) := {
  published_parsed : option struct_time;
  title : option string;
  link : option string;
  summary : option string;
  description : option string;
}.
Arguments published_parsed {struct_time} e.
Arguments title {struct_time} e.
Arguments link {struct_time} e.
Arguments summary {struct_time} e.
Arguments description {struct_time} e.

(** [getattr(e, 'published_parsed', None)] is truthy. *)
Definition dated {struct_time} (e : entry struct_time) : bool :=
  match published_parsed e with
  | Some _ => true
  | None => false
  end.

(** The dictionary appended to [results]; moments are microseconds
    since the epoch. *)
Record update := {
  frontier_model_id : Z;
  u_title : string;
  u_description : string;
  update_type : string;
  source_url : string;
  update_date : Z;
}.

(** [e.name] on a feed entry raises [AttributeError] when absent. *)
Definition attribute (name : string) (v : option string) : result string :=
  match v with
  | Some s => Ok s
  | None => Err (Exception "AttributeError" [Lit "object has no attribute '"; FStr name; Lit "'"])
  end.

(** [getattr(e, 'summary', '') or getattr(e, 'description', '')] *)
Definition summary_or_description {T} (e : entry T) : string :=
  let s := default EmptyString (summary e) in
  if String.eqb s EmptyString then default EmptyString (description e) else s.

Definition categories : list (string * string) :=
  [("security", "security incident vulnerability safety privacy");
   ("feature", "feature update capability release")].

Definition microseconds_per_day : Z := 86400000000.

(** The largest number of days of a [timedelta], and the moments of
    [datetime.min] and [datetime.max] (years 1 to 9999). *)
Definition MAX_DELTA_DAYS : Z := 999999999.
Definition datetime_min : Z := -62135596800000000.
Definition datetime_max : Z := 253402300799999999.

(** The first [page_size] items of [seq], then the next, and so on: the
    pages [execute_values] sends, one statement each.  No page is empty;
    a fuel of the length of [seq] is enough. *)
Definition page_size : nat := 100.

Fixpoint paginate_fuel {A} (fuel : nat) (seq : list A) : list (list A) :=
  match fuel with
  | O => []
  | S fuel' =>
      match seq with
      | [] => []
      | _ =>
          List.firstn page_size seq
          :: paginate_fuel fuel' (List.skipn page_size seq)
      end
  end.

Definition paginate {A} (seq : list A) : list (list A) :=
  paginate_fuel (length seq) seq.

(** No two items of the list are equal. *)
Fixpoint distinct (l : list string) : bool :=
  match l with
  | [] => true
  | x :: t => negb (List.existsb (String.eqb x) t) && distinct t
  end.

Section Scrape.
(** The environment: [feedparser]'s time tuples and the moment
    [datetime.fromtimestamp(time.mktime(t), tz=utc)] they denote, or the
    error the conversion raises; URL quoting; the feed found at a URL;
    the text of the [OverflowError] of line 37, for [now] and [days]; and
    the text with which the server refuses a statement. *)
Context {struct_time : Type}.
Context (moment : struct_time -> result Z).
Context (quote_plus : string -> string).
Context (parse : string -> list (entry struct_time)).
Context (overflow_text : Z -> Z -> message).
Context (refusal : message).

(** The loop over [feed.entries] (lines 56-76), entered with [count]
    records already added for this feed. *)
Fixpoint scan_entries (cutoff max_results : Z) (model_id : Z)
  (update_type : string) (entries : list (entry struct_time)) (count : Z)
  : result (list update) :=
  match entries with
  | [] => Ok []
  | e :: rest =>
      match published_parsed e with
      | None => scan_entries cutoff max_results model_id update_type rest count
      | Some t =>
          let* published := moment t in
          if (published <? cutoff)%Z
          then scan_entries cutoff max_results model_id update_type rest count
          else
            let description := clean_summary (summary_or_description e) in
            let* title := attribute "title" (title e) in
            let* link := attribute "link" (link e) in
            let r :=
              {| frontier_model_id := model_id;
                 u_title := title;
                 u_description := description;
                 update_type := update_type;
                 source_url := link;
                 update_date := published |} in
            let count := (count + 1)%Z in
            if (max_results <=? count)%Z then Ok [r]
            else
              let* rs :=
                scan_entries cutoff max_results model_id update_type rest count in
              Ok (r :: rs)
      end
  end.

(** What an emitted record [r] owes to the feeds: an entry with a
    publish time not before [cutoff], whose link and title it carries. *)
Definition from_dated_entry (cutoff : Z) (r : update) : Prop :=
  exists url e t published,
    In e (parse url)
    /\ published_parsed e = Some t
    /\ moment t = Ok published
    /\ (cutoff <= published)%Z
    /\ update_date r = published
    /\ link e = Some (source_url r)
    /\ title e = Some (u_title r).

Definition rss_url (model_name provider phrase : string) : string :=
  "https://news.google.com/rss/search?q="
  ++ quote_plus (model_name ++ " " ++ provider ++ " AI " ++ phrase).

Fixpoint scrape_categories (cutoff max_results : Z)
  (model : Z * string * string) (cats : list (string * string))
  : result (list update) :=
  match cats with
  | [] => Ok []
  | (update_type, phrase) :: rest =>
      let '(model_id, model_name, provider) := model in
      let* rs :=
        scan_entries cutoff max_results model_id update_type
          (parse (rss_url model_name provider phrase)) 0 in
      let* rs' := scrape_categories cutoff max_results model rest in
      Ok (rs ++ rs')%list
  end.

Fixpoint scrape_models (cutoff max_results : Z)
  (models : list (Z * string * string)) : result (list update) :=
  match models with
  | [] => Ok []
  | model :: rest =>
      let* rs := scrape_categories cutoff max_results model categories in
      let* rs' := scrape_models cutoff max_results rest in
      Ok (rs ++ rs')%list
  end.

(** Line 37, [datetime.now(timezone.utc) - timedelta(days=days)]: the
    [timedelta] and the difference raise [OverflowError] outside their
    ranges. *)
Definition cutoff_of (now days : Z) : result Z :=
  let cutoff := (now - days * microseconds_per_day)%Z in
  if (Z.abs days <=? MAX_DELTA_DAYS)%Z
     && (datetime_min <=? cutoff)%Z && (cutoff <=? datetime_max)%Z
  then Ok cutoff
  else Err (Exception "OverflowError" (overflow_text now days)).

(** *** The database connection

    [frontier_model_updates] is unique on [source_url], which is what
    [ON CONFLICT (source_url)] relies on: the table is a map from
    [source_url] to its row.  [working] is the table as the open
    transaction sees it, [committed] the table as committed.
    [frontier_models] is what the query for the tracked models gives:
    its rows, or the error it raises.  [calls] records what the code
    asks of the driver, in order. *)

Inductive db_call :=
| Cursor
| Execute (sql : string)
| ExecuteValues (sql : string) (values : list update)
| Commit
| CloseCursor.

Record connection := {
  frontier_models : result (list (Z * string * string));
  committed : gmap string update;
  working : gmap string update;
  calls : list db_call;
}.

Definition select_models_sql : string :=
  "SELECT id, name, provider FROM frontier_models".

Definition upsert_sql : string :=
  "INSERT INTO frontier_model_updates (frontier_model_id, title, description, update_type, source_url, update_date) VALUES %s ON CONFLICT (source_url) DO UPDATE SET title = EXCLUDED.title, description = EXCLUDED.description, update_type = EXCLUDED.update_type, update_date = EXCLUDED.update_date".

Definition record_calls (cs : list db_call) (conn : connection) : connection :=
  {| frontier_models := frontier_models conn;
     committed := committed conn;
     working := working conn;
     calls := (calls conn ++ cs)%list |}.

(** One proposed row under [upsert_sql]: inserted when its [source_url]
    is new, otherwise the four columns of the [SET] list are taken from
    it and the stored row keeps the rest. *)
Definition upsert_row (t : gmap string update) (r : update)
  : gmap string update :=
  match t !! source_url r with
  | None => <[source_url r := r]> t
  | Some old =>
      <[source_url r :=
          {| frontier_model_id := frontier_model_id old;
             u_title := u_title r;
             u_description := u_description r;
             update_type := update_type r;
             source_url := source_url old;
             update_date := update_date r |}]> t
  end.

(** The row stored under the URL of [r] when the table held [old]
    there: what the lemmas on [upsert_row] are stated with. *)
Definition merged (old : option update) (r : update) : update :=
  match old with
  | None => r
  | Some o =>
      {| frontier_model_id := frontier_model_id o;
         u_title := u_title r;
         u_description := u_description r;
         update_type := update_type r;
         source_url := source_url o;
         update_date := update_date r |}
  end.

(** One statement under [upsert_sql] with the rows of one page.  The
    server refuses a statement that proposes the same [source_url]
    twice: it cannot affect a row a second time. *)
Definition execute_statement (t : gmap string update) (page : list update)
  : option (gmap string update) :=
  if distinct (List.map source_url page)
  then Some (List.fold_left upsert_row page t)
  else None.

Fixpoint execute_statements (t : gmap string update)
  (pages : list (list update)) : option (gmap string update) :=
  match pages with
  | [] => Some t
  | page :: rest =>
      match execute_statement t page with
      | Some t' => execute_statements t' rest
      | None => None
      end
  end.

(** Every page of the batch passes the server. *)
Definition accepted (values : list update) : bool :=
  List.forallb (fun page => distinct (List.map source_url page))
    (paginate values).

(** [execute_values(cur, upsert_sql, values)]: one statement per page,
    in order.  When the server refuses one, [CardinalityViolation] is
    raised and the transaction is void. *)
Definition execute_values (values : list update) (conn : connection)
  : connection * result unit :=
  match execute_statements (working conn) (paginate values) with
  | Some t =>
      ({| frontier_models := frontier_models conn;
          committed := committed conn;
          working := t;
          calls := (calls conn ++ [ExecuteValues upsert_sql values])%list |},
       Ok tt)
  | None =>
      ({| frontier_models := frontier_models conn;
          committed := committed conn;
          working := committed conn;
          calls := (calls conn ++ [ExecuteValues upsert_sql values])%list |},
       Err (Exception "CardinalityViolation" refusal))
  end.

(** [conn.commit()] *)
Definition commit (conn : connection) : connection :=
  {| frontier_models := frontier_models conn;
     committed := working conn;
     working := working conn;
     calls := (calls conn ++ [Commit])%list |}.

(** [get_models_from_db]: when the query raises, the cursor is left
    open. *)
Definition get_models_from_db (conn : connection)
  : connection * result (list (Z * string * string)) :=
  match frontier_models conn with
  | Ok models =>
      (record_calls [Cursor; Execute select_models_sql; CloseCursor] conn,
       Ok models)
  | Err e =>
      (record_calls [Cursor; Execute select_models_sql] conn, Err e)
  end.

Definition insert_into_db (conn : connection) (records : list update)
  : connection * result nat :=
  match records with
  | [] => (conn, Ok 0%nat)
  | _ =>
      let conn := record_calls [Cursor] conn in
      let values := records in
      let '(conn, sent) := execute_values values conn in
      match sent with
      | Err e => (conn, Err e)
      | Ok _ =>
          let conn := commit conn in
          let conn := record_calls [CloseCursor] conn in
          (conn, Ok (length records))
      end
  end.

(** [scrape_model_updates]; [now] is [datetime.now(timezone.utc)]. *)
Definition scrape_model_updates (now : Z) (conn : connection)
  (days max_results : Z) : connection * result (list update) :=
  let '(conn, models) := get_models_from_db conn in
  (conn,
   let* models := models in
   let* cutoff := cutoff_of now days in
   scrape_models cutoff max_results models).

End Scrape.

End Scraper.

(** * Further code of the same files *)

(** ** main.py: the list helpers *)

Module Helpers.

(** The values the helpers meet: a str, a list, or a value of a type
    that cannot be iterated (a number, [None]), with the name of its
    type. *)
Inductive pyvalue :=
| VStr (s : string)
| VList (l : list pyvalue)
| VOther (type_name : string).

(** A byte that continues a UTF-8 character. *)
Definition is_continuation (c : ascii) : bool :=
  let n := nat_of_ascii c in (128 <=? n)%nat && (n <? 192)%nat.

(** The bytes that continue the character before [s], and the
    characters of [s] after them. *)
Fixpoint chars_aux (s : string) : string * list pyvalue :=
  match s with
  | EmptyString => (EmptyString, [])
  | String c t =>
      let '(continuation, done) := chars_aux t in
      if is_continuation c then (String c continuation, done)
      else (EmptyString, VStr (String c continuation) :: done)
  end.

(** Iterating a str gives its characters, one-character strs. *)
Definition chars (s : string) : list pyvalue := snd (chars_aux s).

(** [for item in v]: the items of a list, the characters of a str;
    anything else is not iterable. *)
Definition items (v : pyvalue) : result (list pyvalue) :=
  match v with
  | VList l => Ok l
  | VStr s => Ok (chars s)
  | VOther type_name =>
      Err (Exception "TypeError"
             [Lit "'"; FStr type_name; Lit "' object is not iterable"])
  end.

(** [[item for sublist in lst for item in sublist]] *)
Fixpoint flatten_all (lst : list pyvalue) : result (list pyvalue) :=
  match lst with
  | [] => Ok []
  | sublist :: rest =>
      let* these := items sublist in
      let* those := flatten_all rest in
      Ok (these ++ those)%list
  end.

(** [flatten_list]: the first element decides. *)
Definition flatten_list (lst : list pyvalue) : result (list pyvalue) :=
  match lst with
  | VList _ :: _ => flatten_all lst
  | _ => Ok lst
  end.

(** The loop of [robust_flatten]: a list item is spliced in, any other
    item is appended. *)
Fixpoint splice (lst : list pyvalue) : list pyvalue :=
  match lst with
  | [] => []
  | VList l :: rest => (l ++ splice rest)%list
  | item :: rest => item :: splice rest
  end.

Definition robust_flatten (lst : pyvalue) : list pyvalue :=
  match lst with
  | VStr _ => [lst]
  | VList l => splice l
  | VOther _ => [lst]
  end.

End Helpers.

(** ** main.py: [encode_protected_attributes] *)

Module Encoding.
Section WithLibrary.
Context (lib : library).

(** Each protected attribute that is a column is label-encoded from its
    str form. *)
Definition encode_protected_attributes (df : DataFrame)
  (protected_attributes : list string) : DataFrame :=
  List.fold_left
    (fun df attr =>
       if has_column attr df
       then
         set_column attr
           (label_encode lib (Main.astype_str lib (column df attr))) df
       else df)
    protected_attributes df.

End WithLibrary.
End Encoding.

(** ** main.py: the single-file endpoint *)

Module Endpoints.

Fixpoint has_char (c : ascii) (s : string) : bool :=
  match s with
  | EmptyString => false
  | String a t => Ascii.eqb a c || has_char c t
  end.





Section WithLibrary.
Context (lib : library).
(** [json.loads] gives a value of some kind, or raises
    [JSONDecodeError] ([None]); building the request validates the value
    as a group mapping. *)
Context {parsed : Type}.
Context (json_loads : string -> option parsed).
Context (validate : parsed -> result (option mappings)).




End WithLibrary.

End Endpoints.

(** ** model_updates_scraper.py: [main] *)

Module Collector.
Import Scraper.

(** How a run of the script ends. *)
Inductive ending :=
| Exited (status : Z) (stderr : message)
| Printed (line : message)
| Raised (e : exn).

(** [conn.close()]: what was not committed is rolled back. *)
Definition close (conn : connection) : connection :=
  {| frontier_models := frontier_models conn;
     committed := committed conn;
     working := committed conn;
     calls := calls conn |}.

Section Run.
Context {struct_time : Type}.
Context (moment : struct_time -> result Z).
Context (quote_plus : string -> string).
Context (parse : string -> list (entry struct_time)).
Context (overflow_text : Z -> Z -> message).
Context (refusal : message).
(** [psycopg2.connect]: the connection, or the error it raises. *)
Context (connect : string -> result connection).

(** [main]; [database_url] is [os.getenv('DATABASE_URL')], [days] and
    [max_results] the parsed arguments.  The connection is returned as
    the run leaves it, closed. *)
Definition main (database_url : option string) (now days max_results : Z)
  : option connection * ending :=
  match database_url with
  | None =>
      (None, Exited 1 [Lit "ERROR: DATABASE_URL environment variable not set"])
  | Some url =>
      if String.eqb url EmptyString
      then
        (None,
         Exited 1 [Lit "ERROR: DATABASE_URL environment variable not set"])
      else
        match connect url with
        | Err e => (None, Raised e)
        | Ok conn =>
            let scraped :=
              scrape_model_updates moment quote_plus parse overflow_text now
                conn days max_results in
            let conn := fst scraped in
            match snd scraped with
            | Err e => (Some (close conn), Raised e)
            | Ok [] =>
                (Some (close conn), Printed [Lit "No new records to insert."])
            | Ok records =>
                let stored := insert_into_db refusal conn records in
                match snd stored with
                | Ok count =>
                    (Some (close (fst stored)),
                     Printed [Lit "Inserted/Updated ";
                              FInt (Z.of_nat count); Lit " records."])
                | Err e => (Some (close (fst stored)), Raised e)
                end
            end
        end
  end.

End Run.

End Collector.

(** * Vocabulary of the properties *)

(** A cell of an encoded protected column. *)
Definition binary (x : cell) : Prop := x = CNum 1 \/ x = CNum 0.

(** A str cell, or one of the three numbers the encoders write. *)
Definition plain (x : cell) : Prop :=
  match x with
  | CStr _ => True
  | CNum v => v = 1%float \/ v = 0%float \/ v = nan
  end.

Definition is_str (x : cell) : Prop :=
  match x with
  | CStr _ => True
  | CNum _ => False
  end.

(** The mask [~df[attr].isna()] on one cell. *)
Definition not_na (x : cell) : bool := negb (isna x).

(** Every column has as many cells as the frame has rows. *)
Definition rectangular (df : DataFrame) : Prop :=
  List.Forall (fun c => length (snd c) = nrows df) df.

(** The first protected attribute that is a column of the frame. *)
Definition first_present (protected_attributes : list string)
  (df : DataFrame) : option string :=
  List.find (fun a => has_column a df) protected_attributes.

(** * Sample inputs *)

Module Sample.
Open Scope float_scope.

Definition all_numbers (s : Series) : bool :=
  List.forallb (fun x => match x with CNum _ => true | CStr _ => false end) s.

Lemma numbers_or_nothing_length (s s' : Series) :
  (if all_numbers s then Some s else None) = Some s' -> length s' = length s.
Proof. destruct (all_numbers s); intros H; [injection H as <-; reflexivity|discriminate H]. Qed.

Lemma zeros_length (s : Series) :
  length (List.map (fun _ : cell => CNum 0) s) = length s.
Proof. apply List.length_map. Qed.

Definition frame : DataFrame :=
  [("g", [CStr "b"; CStr "a"; CStr "b"]); ("label", [CNum 1; CNum 0; CNum 1])].

(** A stand-in for the libraries: numbers print as "n", a column parses
    as numeric when it holds numbers only, every label is encoded 0, a
    data set is the frame it is built from, the two measures are 0 and 1,
    an empty file cannot be read, and the uploaded archive holds an empty
    [a.csv] and a readable [b.csv]. *)
Definition lib : library :=
  {| str_of_float := fun _ => "n";
     to_numeric := fun s => if all_numbers s then Some s else None;
     label_encode := fun s => List.map (fun _ => CNum 0) s;
     to_numeric_length := numbers_or_nothing_length;
     label_encode_length := zeros_length;
     dataset := DataFrame * list string;
     BinaryLabelDataset := fun df _ prot _ _ => Ok (df, prot);
     protected_attribute_names := snd;
     metric := unit;
     BinaryLabelDatasetMetric := fun _ _ _ => Ok tt;
     mean_difference := fun _ => Ok 0;
     disparate_impact := fun _ => Ok 1;
     read_csv := fun content =>
       if String.eqb content EmptyString
       then Err (Exception "EmptyDataError" [Lit "No columns to parse from file"])
       else Ok frame;
     read_excel := fun _ => Ok frame;
     extract_and_list := fun upload =>
       Ok [("input.zip", upload); ("a.csv", EmptyString); ("b.csv", "g,label")];
     py_eval := fun _ => Value None |}.

Definition metrics : list (string * float) :=
  [("statistical_disparity", nan); ("disparate_impact", infinity)].

Definition results : list pydict :=
  [Main.format_result "statistical_disparity" nan 0.1;
   Main.format_result "disparate_impact" infinity 0.8].

(** The mapping and a column of the A, B, C, D example. *)
Definition mapping_ABC : mapping :=
  <["privileged" := Multiple ["A"]]>
    (<["unprivileged" := Multiple ["B"; "C"]]> ∅).

Definition mappings_ABC : option mappings := Some (<["g" := mapping_ABC]> ∅).

Definition frame_ABCD : DataFrame :=
  [("g", [CStr "A"; CStr "D"; CStr "B"; CStr "C"; CStr "D"]);
   ("label", [CNum 1; CNum 0; CNum 0; CNum 1; CNum 1])].

(** A request whose protected attribute has three distinct values. *)
Definition rows_abc : list row :=
  [[("g", CStr "a"); ("label", CNum 1)];
   [("g", CStr "b"); ("label", CNum 0)];
   [("g", CStr "c"); ("label", CNum 1)]].

Definition request_abc : Main.BiasAnalysisRequest :=
  {| Main.data := rows_abc;
     Main.protected_attributes := ["g"];
     Main.privileged_groups := None;
     Main.unprivileged_groups := None;
     Main.group_mappings := None |}.

(** A table with one stored row and a batch that meets it. *)
Definition stored : Scraper.update :=
  {| Scraper.frontier_model_id := 1;
     Scraper.u_title := "old title";
     Scraper.u_description := "old text.";
     Scraper.update_type := "feature";
     Scraper.source_url := "https://example.org/a";
     Scraper.update_date := 100 |}.

Definition batch : list Scraper.update :=
  [{| Scraper.frontier_model_id := 2;
      Scraper.u_title := "new title";
      Scraper.u_description := "new text.";
      Scraper.update_type := "security";
      Scraper.source_url := "https://example.org/a";
      Scraper.update_date := 200 |};
   {| Scraper.frontier_model_id := 2;
      Scraper.u_title := "other";
      Scraper.u_description := "other text.";
      Scraper.update_type := "feature";
      Scraper.source_url := "https://example.org/b";
      Scraper.update_date := 300 |}].

Definition conn : Scraper.connection :=
  {| Scraper.frontier_models := Ok [(2%Z, "model", "provider")];
     Scraper.committed := <["https://example.org/a" := stored]> ∅;
     Scraper.working := <["https://example.org/a" := stored]> ∅;
     Scraper.calls := [] |}.

(** A request over the frame [frame]. *)
Definition request_ba : Main.BiasAnalysisRequest :=
  {| Main.data := to_dict_records frame;
     Main.protected_attributes := ["g"];
     Main.privileged_groups := None;
     Main.unprivileged_groups := None;
     Main.group_mappings := None |}.

(** A feed with an entry without publish time, an old one and a recent
    one; time tuples are taken to be moments already. *)
Definition feed (url : string) : list (Scraper.entry Z) :=
  [{| Scraper.published_parsed := None;
      Scraper.title := Some "undated";
      Scraper.link := Some "https://example.org/undated";
      Scraper.summary := None;
      Scraper.description := None |};
   {| Scraper.published_parsed := Some (1 * Scraper.microseconds_per_day)%Z;
      Scraper.title := Some "old";
      Scraper.link := Some "https://example.org/old";
      Scraper.summary := Some "<p>Old news. More</p>";
      Scraper.description := None |};
   {| Scraper.published_parsed := Some (5 * Scraper.microseconds_per_day)%Z;
      Scraper.title := Some "recent";
      Scraper.link := Some "https://example.org/recent";
      Scraper.summary := Some "<p>Fresh news. More</p>";
      Scraper.description := None |}].

Definition now : Z := (10 * Scraper.microseconds_per_day)%Z.

(** Stand-ins for the texts of the two errors of the environment. *)
Definition overflow_text (now days : Z) : message :=
  [Lit "date value out of range"].

Definition refusal : message :=
  [Lit "ON CONFLICT DO UPDATE command cannot affect row a second time"].

Definition scraped (update_type : string) : Scraper.update :=
  {| Scraper.frontier_model_id := 2;
     Scraper.u_title := "recent";
     Scraper.u_description := "Fresh news.";
     Scraper.update_type := update_type;
     Scraper.source_url := "https://example.org/recent";
     Scraper.update_date := 5 * Scraper.microseconds_per_day |}.

End Sample.

(** * Further vocabulary and sample inputs *)

(** The request with other values for the two group fields. *)
Definition with_groups (request : Main.BiasAnalysisRequest)
  (p u : option (list group)) : Main.BiasAnalysisRequest :=
  {| Main.data := Main.data request;
     Main.protected_attributes := Main.protected_attributes request;
     Main.privileged_groups := p;
     Main.unprivileged_groups := u;
     Main.group_mappings := Main.group_mappings request |}.


(** The text holds a full stop followed by a space. *)
Fixpoint has_break (s : string) : bool :=
  match s with
  | EmptyString => false
  | String c t =>
      match t with
      | String c' _ =>
          (Ascii.eqb c "."%char && Ascii.eqb c' " "%char) || has_break t
      | EmptyString => false
      end
  end.

(** A helper value is a str, or a list of strs. *)
Definition is_VStr (v : Helpers.pyvalue) : Prop :=
  match v with
  | Helpers.VStr _ => True
  | _ => False
  end.

Module SampleMore.
Open Scope float_scope.

(** As [Sample.lib], with a metric that cannot be computed, a mappings
    expression that cannot be evaluated, and an archive of a text file
    and two readable data files. *)
Definition lib_without_metric : library :=
  {| str_of_float := str_of_float Sample.lib;
     to_numeric := to_numeric Sample.lib;
     label_encode := label_encode Sample.lib;
     to_numeric_length := to_numeric_length Sample.lib;
     label_encode_length := label_encode_length Sample.lib;
     dataset := dataset Sample.lib;
     BinaryLabelDataset := BinaryLabelDataset Sample.lib;
     protected_attribute_names := protected_attribute_names Sample.lib;
     metric := unit;
     BinaryLabelDatasetMetric := fun _ _ _ => Ok tt;
     mean_difference := fun _ =>
       Err (Exception "ZeroDivisionError" [Lit "division by zero"]);
     disparate_impact := fun _ => Ok 1;
     read_csv := read_csv Sample.lib;
     read_excel := read_excel Sample.lib;
     extract_and_list := fun upload =>
       Ok [("notes.txt", "text"); ("b.csv", "g,label"); ("c.xlsx", "PK")];
     py_eval := fun src =>
       if String.eqb src "exit(1)"
       then Leaves (Exception "SystemExit" [Lit "1"])
       else Raises (Exception "SyntaxError" [Lit "invalid syntax"]) |}.

(** A frame whose protected column has a single value. *)
Definition frame_constant : DataFrame :=
  [("g", [CStr "a"; CStr "a"]); ("label", [CNum 1; CNum 0])].

(** A mapping without the key [privileged]. *)
Definition mappings_half : option mappings :=
  Some (<["g" := (<["unprivileged" := Single "a"]> ∅ : mapping)]> ∅).

(** The sample request with a mapping whose unprivileged value no row
    has. *)
Definition request_one_sided : Main.BiasAnalysisRequest :=
  {| Main.data := to_dict_records Sample.frame;
     Main.protected_attributes := ["g"];
     Main.privileged_groups := None;
     Main.unprivileged_groups := None;
     Main.group_mappings :=
       Some (<["g" := (<["privileged" := Single "a"]>
                         (<["unprivileged" := Single "z"]> ∅) : mapping)]> ∅) |}.

(** A feed whose entry carries the URL of the feed in its link, so that
    no two feeds share a link. *)
Definition feed (url : string) : list (Scraper.entry Z) :=
  [{| Scraper.published_parsed := Some (5 * Scraper.microseconds_per_day)%Z;
      Scraper.title := Some "recent";
      Scraper.link := Some ("https://example.org/?from=" ++ url);
      Scraper.summary := Some "<p>Fresh news. More</p>";
      Scraper.description := None |}].

End SampleMore.

(** * Properties *)

(** ** The metric formatters *)

Section Formatters.
Open Scope float_scope.

(** C1 (as stated, refuted): at a disparate-impact score of exactly 0.8
    the two formatters do not both report "pass": the strict one
    ([Main], score > 0.8) reports "fail". *)
Lemma disparate_impact_boundary_not_both_pass :
  ~ (Main.determine_metric_status 0.8 0.8 "disparate_impact" = "pass"
     /\ fst (Utils.determine_metric_status 0.8 "disparate_impact") = "pass").
Proof. intros [H _]. vm_compute in H. discriminate H. Qed.

(** C1 (amended): for disparate impact the formatter of [Main] passes
    exactly when the score is strictly above the threshold, which is 0.8,
    and the formatter of [Utils] passes exactly when the score lies in
    the closed range from 0.8 to 1.2; at a score of exactly 0.8 the first
    reports "fail" and the second "pass". *)
Theorem disparate_impact_pass_rules :
  (forall score threshold,
      Main.determine_metric_status score threshold "disparate_impact"
      = if PrimFloat.ltb threshold score then "pass" else "fail")
  /\ Main.thresholds !! "disparate_impact" = Some 0.8
  /\ (forall value,
         Utils.determine_metric_status value "disparate_impact"
         = (if PrimFloat.leb 0.8 value && PrimFloat.leb value 1.2
            then "pass" else "fail", 0.8))
  /\ Main.determine_metric_status 0.8 0.8 "disparate_impact" = "fail"
  /\ Utils.determine_metric_status 0.8 "disparate_impact" = ("pass", 0.8).
Proof.
  repeat split; intros; reflexivity.
Qed.

Lemma format_result_score name score threshold :
  Main.format_result name score threshold !! "score"
  = Some (Main.json_of_score (Main.safe_float score)).
Proof.
  unfold Main.format_result.
  rewrite lookup_insert_ne by discriminate.
  apply lookup_insert_eq.
Qed.

(** C7 (as stated, refuted): the formatter of [Utils] hands a NaN score
    on unchanged. *)
Lemma utils_formatter_propagates_nan :
  exists r,
    Utils.format_results_for_output [("disparate_impact", nan)] = [r]
    /\ r !! "score" = Some (JNum nan).
Proof. eexists. split; reflexivity. Qed.

Lemma main_formatter_entries (metrics : list (string * float))
  (results : list pydict) :
  Main.format_results_for_output metrics = Ok results ->
  length results = length metrics
  /\ forall (i : nat) name score,
      metrics !! i = Some (name, score) ->
      exists r : pydict,
        results !! i = Some r
        /\ r !! "score"
           = Some (if PrimFloat.is_nan score || PrimFloat.is_infinity score
                   then JNull else JNum score).
Proof.
  revert results.
  induction metrics as [|[name0 score0] rest IH]; intros results H; simpl in H.
  - injection H as <-. split; [reflexivity|]. intros i name score Hi.
    rewrite lookup_nil in Hi. discriminate.
  - destruct (getitem Main.thresholds name0) as [thr|e]; simpl in H;
      [|discriminate].
    destruct (Main.format_results_for_output rest) as [rs|e]; simpl in H;
      [|discriminate].
    injection H as <-.
    destruct (IH rs eq_refl) as [Hlen Hrs].
    split; [simpl; congruence|].
    intros [|i] name score Hi; simpl in Hi.
    + injection Hi as -> ->. eexists. split; [reflexivity|].
      rewrite format_result_score. unfold Main.safe_float.
      destruct (PrimFloat.is_nan score || PrimFloat.is_infinity score);
        reflexivity.
    + apply (Hrs i name score Hi).
Qed.

Lemma main_formatter_returns (metrics : list (string * float)) :
  (forall name score, In (name, score) metrics ->
     is_Some (Main.thresholds !! name)) ->
  exists results, Main.format_results_for_output metrics = Ok results.
Proof.
  induction metrics as [|[name0 score0] rest IH]; intros Hknown.
  - exists []. reflexivity.
  - destruct (Hknown name0 score0 (or_introl eq_refl)) as [thr Hthr].
    destruct IH as [rs Hrs].
    { intros name score Hin. apply (Hknown name score). right. exact Hin. }
    eexists. simpl. unfold getitem. rewrite Hthr. simpl. rewrite Hrs.
    reflexivity.
Qed.

(** C7 (amended): the formatter of [Main] returns a result list whenever
    every metric name has a threshold, as the two names of the service
    have; the list it returns has one entry per metric, in order, and the
    entry of a metric whose score is NaN or an infinity has the null
    score, every other entry the score itself. *)
Theorem main_formatter_null_for_nan_and_infinity
  (metrics : list (string * float)) :
  ((forall name score, In (name, score) metrics ->
      is_Some (Main.thresholds !! name)) ->
   exists results, Main.format_results_for_output metrics = Ok results)
  /\ is_Some (Main.thresholds !! "statistical_disparity")
  /\ is_Some (Main.thresholds !! "disparate_impact")
  /\ forall results,
      Main.format_results_for_output metrics = Ok results ->
      length results = length metrics
      /\ forall (i : nat) name score,
          metrics !! i = Some (name, score) ->
          exists r : pydict,
            results !! i = Some r
            /\ r !! "score"
               = Some (if PrimFloat.is_nan score || PrimFloat.is_infinity score
                       then JNull else JNum score).
Proof.
  split; [apply main_formatter_returns|].
  split; [eexists; reflexivity|]. split; [eexists; reflexivity|].
  apply main_formatter_entries.
Qed.

(** The null scores of a NaN and an infinite measure. *)
Lemma main_formatter_null_witness :
  Main.format_results_for_output Sample.metrics = Ok Sample.results
  /\ length Sample.results = length Sample.metrics
  /\ forall (i : nat) name score,
      Sample.metrics !! i = Some (name, score) ->
      exists r : pydict,
        Sample.results !! i = Some r
        /\ r !! "score"
           = Some (if PrimFloat.is_nan score || PrimFloat.is_infinity score
                   then JNull else JNum score).
Proof.
  split; [reflexivity|].
  apply (proj2 (proj2 (proj2
           (main_formatter_null_for_nan_and_infinity Sample.metrics)))).
  reflexivity.
Defined.

End Formatters.

(** ** Group detection *)

Section GroupDetection.
Context (lib : library).

(** C10: when [simple_detect_groups] returns, it returns the groups
    [{attr: 1.0}] and [{attr: 0.0}] of the first protected attribute,
    whatever the data and the mapping hold; and [calculate_bias_metrics]
    does not look at the groups it is given. *)
Theorem simple_detect_groups_constant
  (df : DataFrame) (attrs : list string) (gm : option mappings)
  (p u : list group) :
  snd (Main.simple_detect_groups df attrs gm) = Ok (p, u) ->
  (exists attr rest,
      attrs = attr :: rest
      /\ p = [{[attr := CNum 1]}]
      /\ u = [{[attr := CNum 0]}])
  /\ (forall df' gm' p' u',
         snd (Main.simple_detect_groups df' attrs gm') = Ok (p', u') ->
         p' = p /\ u' = u)
  /\ (forall ds p' u',
         Main.calculate_bias_metrics lib ds p' u'
         = Main.calculate_bias_metrics lib ds p u).
Proof.
  assert (Hshape : forall df gm p u,
             snd (Main.simple_detect_groups df attrs gm) = Ok (p, u) ->
             exists attr rest,
               attrs = attr :: rest
               /\ p = [{[attr := CNum 1]}]
               /\ u = [{[attr := CNum 0]}]).
  { clear. intros df gm p u H. unfold Main.simple_detect_groups in H.
    destruct attrs as [|attr rest]; [discriminate H|].
    exists attr, rest. split; [reflexivity|].
    destruct (negb (has_column attr df)); [discriminate H|].
    destruct (Main.mapping_for gm attr) as [m|].
    - destruct (m !! "privileged"); [|discriminate H].
      destruct (m !! "unprivileged"); [|discriminate H].
      simpl in H. injection H as <- <-. split; reflexivity.
    - destruct (length (unique (column df attr)) <? 2)%nat;
        [discriminate H|].
      simpl in H. injection H as <- <-. split; reflexivity. }
  intros H. split; [exact (Hshape _ _ _ _ H)|]. split.
  - intros df' gm' p' u' H'.
    destruct (Hshape _ _ _ _ H) as (a & r & Ha & -> & ->).
    destruct (Hshape _ _ _ _ H') as (a' & r' & Ha' & -> & ->).
    rewrite Ha in Ha'. injection Ha' as <- _. split; reflexivity.
  - intros ds p' u'. reflexivity.
Qed.

End GroupDetection.

(** ** The upsert writer *)

Section Upsert.
Import Scraper.
Context (refusal : message).

Lemma upsert_row_same (t : gmap string update) r :
  upsert_row t r !! source_url r = Some (merged (t !! source_url r) r).
Proof.
  unfold upsert_row. destruct (t !! source_url r) as [o|] eqn:E; simpl;
    apply lookup_insert_eq.
Qed.

Lemma upsert_row_other (t : gmap string update) r url :
  url <> source_url r -> upsert_row t r !! url = t !! url.
Proof.
  intros Hne. unfold upsert_row.
  destruct (t !! source_url r); apply lookup_insert_ne; congruence.
Qed.

Lemma upsert_rows_other (rs : list update) (t : gmap string update) url :
  ~ In url (List.map source_url rs) ->
  List.fold_left upsert_row rs t !! url = t !! url.
Proof.
  revert t. induction rs as [|r rs IH]; intros t Hnot; simpl; [reflexivity|].
  rewrite IH.
  - apply upsert_row_other. intros ->. apply Hnot. left. reflexivity.
  - intros Hin. apply Hnot. right. exact Hin.
Qed.

Lemma upsert_rows_same (rs : list update) (t : gmap string update) r :
  List.NoDup (List.map source_url rs) -> In r rs ->
  List.fold_left upsert_row rs t !! source_url r
  = Some (merged (t !! source_url r) r).
Proof.
  revert t. induction rs as [|r0 rs IH]; intros t Hnd Hin; [destruct Hin|].
  simpl in Hnd. apply List.NoDup_cons_iff in Hnd as [Hfresh Hnd]. simpl.
  destruct Hin as [->|Hin].
  - rewrite upsert_rows_other by exact Hfresh. apply upsert_row_same.
  - rewrite (IH _ Hnd Hin).
    rewrite upsert_row_other; [reflexivity|].
    intros Heq. apply Hfresh. rewrite <- Heq. apply List.in_map. exact Hin.
Qed.


Lemma distinct_NoDup (l : list string) :
  distinct l = true <-> List.NoDup l.
Proof.
  induction l as [|x t IH]; simpl.
  - split; [intros _; constructor|reflexivity].
  - rewrite andb_true_iff, negb_true_iff, IH, List.NoDup_cons_iff.
    split; intros [Hx Ht]; (split; [|exact Ht]).
    + intros Hin. assert (H : List.existsb (String.eqb x) t = true).
      { apply List.existsb_exists. exists x. split; [exact Hin|].
        apply String.eqb_refl. }
      congruence.
    + destruct (List.existsb (String.eqb x) t) eqn:E; [|reflexivity].
      apply List.existsb_exists in E as (y & Hy & Heq).
      apply String.eqb_eq in Heq. subst y. contradiction.
Qed.

Lemma paginate_fuel_all {A} (fuel : nat) (seq : list A) :
  (length seq <= fuel)%nat -> List.concat (paginate_fuel fuel seq) = seq.
Proof.
  revert seq. induction fuel as [|fuel IH]; intros seq Hlen.
  - destruct seq; [reflexivity|simpl in Hlen; lia].
  - destruct seq as [|x rest]; [reflexivity|].
    cbn [paginate_fuel List.concat]. rewrite IH.
    + apply List.firstn_skipn.
    + rewrite List.length_skipn. unfold page_size. simpl in Hlen. simpl. lia.
Qed.

Lemma paginate_all {A} (seq : list A) : List.concat (paginate seq) = seq.
Proof. apply paginate_fuel_all. lia. Qed.


Lemma execute_statements_accepted (pages : list (list update))
  (t : gmap string update) :
  execute_statements t pages
  = if List.forallb (fun page => distinct (List.map source_url page)) pages
    then Some (List.fold_left upsert_row (List.concat pages) t)
    else None.
Proof.
  revert t. induction pages as [|page rest IH]; intros t; [reflexivity|].
  cbn [execute_statements List.forallb List.concat]. unfold execute_statement.
  destruct (distinct (List.map source_url page)); [|reflexivity].
  rewrite IH, List.fold_left_app. reflexivity.
Qed.

Lemma execute_paginated (values : list update) (t : gmap string update) :
  execute_statements t (paginate values)
  = if accepted values then Some (List.fold_left upsert_row values t)
    else None.
Proof.
  rewrite execute_statements_accepted, paginate_all. reflexivity.
Qed.

Lemma NoDup_app_left {A} (l m : list A) :
  List.NoDup (l ++ m)%list -> List.NoDup l.
Proof.
  induction l as [|x t IH]; intros H; [constructor|].
  cbn [app] in H. apply List.NoDup_cons_iff in H as [Hx Ht].
  constructor; [|exact (IH Ht)].
  intros Hin. apply Hx. apply List.in_or_app. left. exact Hin.
Qed.

Lemma NoDup_app_right {A} (l m : list A) :
  List.NoDup (l ++ m)%list -> List.NoDup m.
Proof.
  induction l as [|x t IH]; intros H; [exact H|].
  cbn [app] in H. apply List.NoDup_cons_iff in H as [_ Ht]. exact (IH Ht).
Qed.

Lemma distinct_pages (pages : list (list update)) :
  List.NoDup (List.map source_url (List.concat pages)) ->
  List.forallb (fun page => distinct (List.map source_url page)) pages = true.
Proof.
  induction pages as [|page rest IH]; intros H; [reflexivity|].
  cbn [List.concat] in H. rewrite List.map_app in H.
  cbn [List.forallb]. apply andb_true_iff. split.
  - apply distinct_NoDup. exact (NoDup_app_left _ _ H).
  - apply IH. exact (NoDup_app_right _ _ H).
Qed.

Lemma distinct_accepted (values : list update) :
  List.NoDup (List.map source_url values) -> accepted values = true.
Proof.
  intros H. unfold accepted. apply distinct_pages.
  rewrite paginate_all. exact H.
Qed.

Lemma insert_into_db_accepted (conn : connection) r0 rs :
  accepted (r0 :: rs) = true ->
  insert_into_db refusal conn (r0 :: rs)
  = ({| frontier_models := frontier_models conn;
        committed := List.fold_left upsert_row (r0 :: rs) (working conn);
        working := List.fold_left upsert_row (r0 :: rs) (working conn);
        calls := (((calls conn ++ [Cursor])
                   ++ [ExecuteValues upsert_sql (r0 :: rs)])
                  ++ [Commit]) ++ [CloseCursor] |},
     Ok (length (r0 :: rs)))%list.
Proof.
  intros Hacc. unfold insert_into_db, execute_values.
  cbn [record_calls working calls committed frontier_models].
  rewrite execute_paginated, Hacc. reflexivity.
Qed.

Lemma insert_into_db_refused (conn : connection) r0 rs :
  accepted (r0 :: rs) = false ->
  insert_into_db refusal conn (r0 :: rs)
  = ({| frontier_models := frontier_models conn;
        committed := committed conn;
        working := committed conn;
        calls := ((calls conn ++ [Cursor])
                  ++ [ExecuteValues upsert_sql (r0 :: rs)]) |},
     Err (Exception "CardinalityViolation" refusal))%list.
Proof.
  intros Hacc. unfold insert_into_db, execute_values.
  cbn [record_calls working calls committed frontier_models].
  rewrite execute_paginated, Hacc. reflexivity.
Qed.


End Upsert.

(** ** The feed scan *)

Section FeedScan.
Import Scraper.
Context {struct_time : Type}.
Context (moment : struct_time -> result Z).
Context (quote_plus : string -> string).

Lemma scan_entries_dated cutoff max_results model_id update_type
  (entries : list (entry struct_time)) count :
  scan_entries moment cutoff max_results model_id update_type entries count
  = scan_entries moment cutoff max_results model_id update_type
      (List.filter dated entries) count.
Proof.
  revert count. induction entries as [|e rest IH]; intros count; [reflexivity|].
  simpl. unfold dated at 1. destruct (published_parsed e) as [t|] eqn:E.
  - simpl. rewrite E. destruct (moment t) as [published|err]; [|reflexivity].
    cbn [bind]. destruct (published <? cutoff)%Z; [apply IH|].
    destruct (attribute "title" (title e)); [|reflexivity].
    destruct (attribute "link" (link e)); [|reflexivity].
    simpl. destruct (max_results <=? count + 1)%Z; [reflexivity|].
    rewrite IH. reflexivity.
  - apply IH.
Qed.

Lemma scan_entries_emitted cutoff max_results model_id update_type
  (entries : list (entry struct_time)) count results r :
  scan_entries moment cutoff max_results model_id update_type entries count
  = Ok results ->
  In r results ->
  exists e t published,
    In e entries
    /\ published_parsed e = Some t
    /\ moment t = Ok published
    /\ (cutoff <= published)%Z
    /\ update_date r = published
    /\ link e = Some (source_url r)
    /\ title e = Some (u_title r).
Proof.
  revert count results.
  induction entries as [|e rest IH]; intros count results H Hin; simpl in H.
  - injection H as <-. destruct Hin.
  - assert (Hrest : forall c rs,
               scan_entries moment cutoff max_results model_id update_type
                 rest c = Ok rs -> In r rs ->
               exists e0 t published,
                 In e0 (e :: rest) /\ published_parsed e0 = Some t
                 /\ moment t = Ok published
                 /\ (cutoff <= published)%Z /\ update_date r = published
                 /\ link e0 = Some (source_url r)
                 /\ title e0 = Some (u_title r)).
    { intros c rs Hc Hr.
      destruct (IH c rs Hc Hr) as (e0 & t & m & He0 & Hrest).
      exists e0, t, m. split; [right; exact He0|exact Hrest]. }
    destruct (published_parsed e) as [t|] eqn:E; [|eauto].
    destruct (moment t) as [published|err] eqn:Em; cbn [bind] in H;
      [|discriminate H].
    destruct (published <? cutoff)%Z eqn:Hcut; [eauto|].
    apply Z.ltb_ge in Hcut.
    destruct (title e) as [ti|] eqn:Et; simpl in H; [|discriminate H].
    destruct (link e) as [li|] eqn:El; simpl in H; [|discriminate H].
    assert (Hhead : forall r0,
               r0 = {| frontier_model_id := model_id; u_title := ti;
                       u_description :=
                         clean_summary (summary_or_description e);
                       update_type := update_type; source_url := li;
                       update_date := published |} ->
               r = r0 ->
               exists e0 t0 published0,
                 In e0 (e :: rest) /\ published_parsed e0 = Some t0
                 /\ moment t0 = Ok published0
                 /\ (cutoff <= published0)%Z /\ update_date r = published0
                 /\ link e0 = Some (source_url r)
                 /\ title e0 = Some (u_title r)).
    { intros r0 -> ->. exists e, t, published. simpl.
      repeat split; auto. }
    destruct (max_results <=? count + 1)%Z.
    + injection H as <-. destruct Hin as [<-|[]]. eapply Hhead; reflexivity.
    + destruct (scan_entries moment cutoff max_results model_id update_type
                  rest (count + 1)) as [rs|err] eqn:Hs; simpl in H;
        [|discriminate H].
      injection H as <-. destruct Hin as [<-|Hin].
      * eapply Hhead; reflexivity.
      * eapply Hrest; eassumption.
Qed.

End FeedScan.

Section Scraping.
Import Scraper.
Context {struct_time : Type}.
Context (moment : struct_time -> result Z).
Context (quote_plus : string -> string).
Context (parse : string -> list (entry struct_time)).
Context (overflow_text : Z -> Z -> message).

Lemma scrape_categories_dated cutoff max_results model cats :
  scrape_categories moment quote_plus parse cutoff max_results model cats
  = scrape_categories moment quote_plus
      (fun url => List.filter dated (parse url)) cutoff max_results model cats.
Proof.
  induction cats as [|[ty phrase] rest IH]; [reflexivity|].
  destruct model as [[model_id model_name] provider]. simpl.
  rewrite (scan_entries_dated moment). rewrite IH. reflexivity.
Qed.

Lemma scrape_models_dated cutoff max_results models :
  scrape_models moment quote_plus parse cutoff max_results models
  = scrape_models moment quote_plus
      (fun url => List.filter dated (parse url)) cutoff max_results models.
Proof.
  induction models as [|model rest IH]; [reflexivity|].
  cbn [scrape_models]. rewrite scrape_categories_dated, IH. reflexivity.
Qed.

Lemma scrape_categories_emitted cutoff max_results model cats results r :
  scrape_categories moment quote_plus parse cutoff max_results model cats
  = Ok results ->
  In r results -> from_dated_entry moment parse cutoff r.
Proof.
  revert results. induction cats as [|[ty phrase] rest IH]; intros results H Hin.
  - injection H as <-. destruct Hin.
  - destruct model as [[model_id model_name] provider]. simpl in H.
    destruct (scan_entries moment cutoff max_results model_id ty
                (parse (rss_url quote_plus model_name provider phrase)) 0)
      as [rs|err] eqn:Hs; simpl in H; [|discriminate H].
    destruct (scrape_categories moment quote_plus parse cutoff max_results
                (model_id, model_name, provider) rest)
      as [rs'|err] eqn:Hc; simpl in H; [|discriminate H].
    injection H as <-. apply List.in_app_or in Hin as [Hin|Hin].
    + destruct (scan_entries_emitted moment _ _ _ _ _ _ _ _ Hs Hin)
        as (e & t & m & He & Hrest).
      exists (rss_url quote_plus model_name provider phrase), e, t, m.
      split; assumption.
    + apply (IH rs' eq_refl Hin).
Qed.

Lemma scrape_models_emitted cutoff max_results models results r :
  scrape_models moment quote_plus parse cutoff max_results models = Ok results ->
  In r results -> from_dated_entry moment parse cutoff r.
Proof.
  revert results. induction models as [|model rest IH]; intros results H Hin.
  - injection H as <-. destruct Hin.
  - cbn [scrape_models] in H.
    destruct (scrape_categories moment quote_plus parse cutoff max_results
                model categories) as [rs|err] eqn:Hc; cbn [bind] in H;
      [|discriminate H].
    destruct (scrape_models moment quote_plus parse cutoff max_results rest)
      as [rs'|err] eqn:Hm; cbn [bind] in H; [|discriminate H].
    injection H as <-. apply List.in_app_or in Hin as [Hin|Hin].
    + eapply scrape_categories_emitted; eassumption.
    + apply (IH rs' eq_refl Hin).
Qed.

(** What a run that returns went through: the query for the tracked
    models gave its rows, the cutoff was in range, and the feeds of the
    models gave the records. *)
Lemma scrape_model_updates_returned (now : Z) (conn : connection)
  (days max_results : Z) results :
  snd (scrape_model_updates moment quote_plus parse overflow_text now conn
         days max_results) = Ok results ->
  exists models,
    frontier_models conn = Ok models
    /\ cutoff_of overflow_text now days
       = Ok (now - days * microseconds_per_day)%Z
    /\ scrape_models moment quote_plus parse
         (now - days * microseconds_per_day)%Z max_results models
       = Ok results.
Proof.
  unfold scrape_model_updates, get_models_from_db.
  destruct (frontier_models conn) as [models|e]; cbn [snd bind];
    [|discriminate].
  unfold cutoff_of. cbn zeta.
  destruct (_ && _ && _); cbn [bind]; [|discriminate].
  intros H. exists models. repeat split. exact H.
Qed.

(** C8: a run of the scraper gives the same outcome, records and
    failures alike, as a run over the feeds with every entry that has no
    parseable publish time removed; and every record it returns comes
    from an entry that has a publish time, one not before the cutoff
    [now - days]. *)
Theorem scraper_skips_undated_entries (now : Z) (conn : connection)
  (days max_results : Z) :
  scrape_model_updates moment quote_plus parse overflow_text now conn days
    max_results
  = scrape_model_updates moment quote_plus
      (fun url => List.filter dated (parse url)) overflow_text now conn days
      max_results
  /\ forall results r,
      snd (scrape_model_updates moment quote_plus parse overflow_text now
             conn days max_results) = Ok results ->
      In r results ->
      exists url e t published,
        In e (parse url)
        /\ published_parsed e = Some t
        /\ moment t = Ok published
        /\ (now - days * microseconds_per_day <= published)%Z
        /\ update_date r = published
        /\ link e = Some (source_url r)
        /\ title e = Some (u_title r).
Proof.
  split.
  - unfold scrape_model_updates.
    destruct (get_models_from_db conn) as [conn1 [models|e]]; [|reflexivity].
    cbn [bind]. destruct (cutoff_of overflow_text now days) as [cutoff|e];
      [|reflexivity].
    cbn [bind]. rewrite scrape_models_dated. reflexivity.
  - intros results r H Hin.
    destruct (scrape_model_updates_returned _ _ _ _ _ H)
      as (models & _ & _ & Hm).
    exact (scrape_models_emitted _ _ _ _ _ Hm Hin).
Qed.

End Scraping.

(** ** Data frames *)

Section Frames.

Lemma columns_set_column c s (df : DataFrame) :
  columns (set_column c s df) = columns df.
Proof.
  induction df as [|[n old] rest IH]; [reflexivity|]. simpl.
  destruct (String.eqb c n); [reflexivity|].
  change (n :: columns (set_column c s rest) = n :: columns rest).
  rewrite IH. reflexivity.
Qed.

Lemma has_column_set_column a c s (df : DataFrame) :
  has_column a (set_column c s df) = has_column a df.
Proof. unfold has_column. rewrite columns_set_column. reflexivity. Qed.

Lemma column_set_column_same c s (df : DataFrame) :
  has_column c df = true -> column (set_column c s df) c = s.
Proof.
  induction df as [|[n old] rest IH]; intros H; [discriminate H|].
  unfold has_column in H. simpl in *. destruct (String.eqb c n) eqn:E; simpl.
  - rewrite E. reflexivity.
  - rewrite E. apply IH. exact H.
Qed.

Lemma column_set_column_other a c s (df : DataFrame) :
  a <> c -> column (set_column c s df) a = column df a.
Proof.
  intros Hne. induction df as [|[n old] rest IH]; [reflexivity|]. simpl.
  destruct (String.eqb c n) eqn:E; simpl.
  - apply String.eqb_eq in E. subst n.
    destruct (String.eqb a c) eqn:E'; [|reflexivity].
    apply String.eqb_eq in E'. contradiction.
  - rewrite IH. reflexivity.
Qed.

Lemma columns_select_rows mask (df : DataFrame) :
  columns (select_rows mask df) = columns df.
Proof.
  induction df as [|[n s] rest IH]; [reflexivity|].
  change (n :: columns (select_rows mask rest) = n :: columns rest).
  rewrite IH. reflexivity.
Qed.

Lemma select_nil mask : select mask [] = [].
Proof. destruct mask; reflexivity. Qed.

Lemma column_select_rows mask (df : DataFrame) c :
  column (select_rows mask df) c = select mask (column df c).
Proof.
  induction df as [|[n s] rest IH]; simpl.
  - symmetry. apply select_nil.
  - destruct (String.eqb c n); [reflexivity|]. exact IH.
Qed.

Lemma select_map_filter (p : cell -> bool) (s : Series) :
  select (List.map p s) s = List.filter p s.
Proof.
  induction s as [|x t IH]; [reflexivity|]. simpl.
  destruct (p x); rewrite IH; reflexivity.
Qed.

Lemma Forall_select (P : cell -> Prop) mask (s : Series) :
  List.Forall P s -> List.Forall P (select mask s).
Proof.
  revert mask. induction s as [|x t IH]; intros mask H.
  - rewrite select_nil. constructor.
  - destruct mask as [|b mask]; [constructor|]. simpl.
    inversion H as [|? ? Hx Ht]; subst.
    destruct b; [constructor; [exact Hx|]|]; apply IH; exact Ht.
Qed.

End Frames.

(** ** Distinct values and sorting *)

Section Values.
Open Scope float_scope.

Lemma same_plain_eq a b : plain a -> plain b -> same a b = true -> a = b.
Proof.
  destruct a as [s|x], b as [t|y]; simpl; intros Ha Hb H; try discriminate H.
  - apply String.eqb_eq in H. congruence.
  - destruct Ha as [ -> | [ -> | -> ] ], Hb as [ -> | [ -> | -> ] ];
      first [reflexivity | vm_compute in H; discriminate H].
Qed.

Lemma same_plain_refl a : plain a -> same a a = true.
Proof.
  destruct a as [s|x]; simpl; intros Ha.
  - apply String.eqb_refl.
  - destruct Ha as [ -> | [ -> | -> ] ]; reflexivity.
Qed.

Lemma In_unique (s : Series) x : In x (unique s) -> In x s.
Proof.
  induction s as [|a t IH]; simpl; [tauto|].
  intros [->|H]; [left; reflexivity|].
  apply List.filter_In in H as [H _]. right. apply IH. exact H.
Qed.

Lemma In_unique_plain (s : Series) x :
  List.Forall plain s -> In x s -> In x (unique s).
Proof.
  induction s as [|a t IH]; intros Hp Hin; [destruct Hin|].
  inversion Hp as [|? ? Ha Ht]; subst. simpl.
  destruct Hin as [->|Hin]; [left; reflexivity|].
  destruct (same a x) eqn:E.
  - left. apply same_plain_eq; [exact Ha| |exact E].
    rewrite List.Forall_forall in Ht. apply Ht. exact Hin.
  - right. apply List.filter_In. split; [apply IH; assumption|].
    rewrite E. reflexivity.
Qed.

Lemma Forall_unique (P : cell -> Prop) (s : Series) :
  List.Forall P s -> List.Forall P (unique s).
Proof.
  rewrite !List.Forall_forall. intros H x Hx. apply H, In_unique, Hx.
Qed.

Lemma NoDup_unique_plain (s : Series) :
  List.Forall plain s -> List.NoDup (unique s).
Proof.
  induction s as [|a t IH]; intros Hp; simpl; [constructor|].
  inversion Hp as [|? ? Ha Ht]; subst. constructor.
  - intros Hin. apply List.filter_In in Hin as [_ Hin].
    rewrite (same_plain_refl a Ha) in Hin. discriminate Hin.
  - apply List.NoDup_filter. apply IH. exact Ht.
Qed.

Lemma contains_intro (v : float) (s : Series) :
  PrimFloat.eqb v v = true -> In (CNum v) s -> contains v s = true.
Proof.
  intros Hv Hin. unfold contains. apply List.existsb_exists.
  exists (CNum v). split; [exact Hin|exact Hv].
Qed.

Lemma contains_one_plain (s : Series) :
  List.Forall plain s -> contains 1 s = true -> In (CNum 1) s.
Proof.
  intros Hp H. unfold contains in H. apply List.existsb_exists in H.
  destruct H as (y & Hy & E). rewrite List.Forall_forall in Hp.
  specialize (Hp y Hy). destruct y as [t|v]; [discriminate E|].
  destruct Hp as [ -> | [ -> | -> ] ]; first [exact Hy | vm_compute in E; discriminate E].
Qed.

Lemma contains_zero_plain (s : Series) :
  List.Forall plain s -> contains 0 s = true -> In (CNum 0) s.
Proof.
  intros Hp H. unfold contains in H. apply List.existsb_exists in H.
  destruct H as (y & Hy & E). rewrite List.Forall_forall in Hp.
  specialize (Hp y Hy). destruct y as [t|v]; [discriminate E|].
  destruct Hp as [ -> | [ -> | -> ] ]; first [exact Hy | vm_compute in E; discriminate E].
Qed.

Lemma binary_plain x : binary x -> plain x.
Proof. intros [ -> | -> ]; simpl; auto. Qed.

Lemma explicit_code_plain pv uv x : plain (Main.explicit_code pv uv x).
Proof.
  unfold Main.explicit_code.
  destruct (in_strs x pv); [simpl; auto|].
  destruct (in_strs x uv); simpl; auto.
Qed.

Lemma fallback_code_plain p u x : plain (Main.fallback_code p u x).
Proof.
  unfold Main.fallback_code.
  destruct (py_eq x p); [simpl; auto|].
  destruct (py_eq x u); simpl; auto.
Qed.

(** An encoded column without NaN holds 1.0 and 0.0 only. *)
Lemma coded_binary (s : Series) :
  List.Forall plain s -> List.Forall (fun x => ~ is_str x) s ->
  List.existsb isna s = false -> List.Forall binary s.
Proof.
  rewrite !List.Forall_forall. intros Hp Hn Hna x Hx.
  assert (Hx' : isna x = false).
  { destruct (isna x) eqn:E; [|reflexivity].
    assert (List.existsb isna s = true)
      by (apply List.existsb_exists; exists x; auto).
    congruence. }
  specialize (Hp x Hx). specialize (Hn x Hx).
  destruct x as [t|v]; [exfalso; apply Hn; exact I|].
  destruct Hp as [ -> | [ -> | -> ] ]; [left; reflexivity|right; reflexivity|].
  vm_compute in Hx'. discriminate Hx'.
Qed.

Lemma filter_not_na_binary (s : Series) :
  List.Forall plain s -> List.Forall (fun x => ~ is_str x) s ->
  List.Forall binary (List.filter (fun x => negb (isna x)) s).
Proof.
  rewrite !List.Forall_forall. intros Hp Hn x Hx.
  apply List.filter_In in Hx as [Hx Hna].
  specialize (Hp x Hx). specialize (Hn x Hx).
  destruct x as [t|v]; [exfalso; apply Hn; exact I|].
  destruct Hp as [ -> | [ -> | -> ] ]; [left; reflexivity|right; reflexivity|].
  vm_compute in Hna. discriminate Hna.
Qed.

Lemma explicit_code_number pv uv x : ~ is_str (Main.explicit_code pv uv x).
Proof.
  unfold Main.explicit_code.
  destruct (in_strs x pv); [simpl; auto|].
  destruct (in_strs x uv); simpl; auto.
Qed.

Lemma fallback_code_number p u x : ~ is_str (Main.fallback_code p u x).
Proof.
  unfold Main.fallback_code.
  destruct (py_eq x p); [simpl; auto|].
  destruct (py_eq x u); simpl; auto.
Qed.

End Values.

(** ** The protected-attribute normalizer *)

Section Normalizer.
Open Scope float_scope.

Lemma encode_with_mapping_inv attr (m : mapping) (df df' : DataFrame) :
  has_column attr df = true ->
  Main.encode_with_mapping attr m df = Ok df' ->
  exists pv uv,
    m !! "privileged" = Some pv /\ m !! "unprivileged" = Some uv
    /\ let coded :=
         List.map (Main.explicit_code (Main.as_list pv) (Main.as_list uv))
           (column df attr) in
       df' = (if List.existsb isna coded
              then select_rows (List.map not_na coded) (set_column attr coded df)
              else set_column attr coded df)
       /\ contains 1 (unique (column df' attr)) = true
       /\ contains 0 (unique (column df' attr)) = true.
Proof.
  intros Hcol H. unfold Main.encode_with_mapping, getitem in H.
  destruct (m !! "privileged") as [pv|]; [|discriminate H].
  destruct (m !! "unprivileged") as [uv|]; [|discriminate H].
  cbn [bind] in H. exists pv, uv. split; [reflexivity|]. split; [reflexivity|].
  cbn zeta. rewrite (column_set_column_same _ _ _ Hcol) in H.
  set (coded := List.map _ (column df attr)) in *.
  destruct (List.existsb isna coded); cbn [fst snd] in H.
  - fold not_na in H.
    destruct (contains 1 _ && contains 0 _) eqn:E; [|discriminate H].
    injection H as <-. apply andb_prop in E. tauto.
  - destruct (contains 1 _ && contains 0 _) eqn:E; [|discriminate H].
    injection H as <-. rewrite (column_set_column_same _ _ _ Hcol).
    apply andb_prop in E. tauto.
Qed.

Lemma encode_fallback_inv attr (df df' : DataFrame) :
  has_column attr df = true ->
  Main.encode_fallback attr df = Ok df' ->
  exists p u,
    sorted (unique (column df attr)) = Ok [p; u]
    /\ let coded := List.map (Main.fallback_code p u) (column df attr) in
       df' = set_column attr coded df
       /\ List.existsb isna coded = false
       /\ contains 1 (unique coded) = true
       /\ contains 0 (unique coded) = true.
Proof.
  intros Hcol H. unfold Main.encode_fallback in H.
  destruct (sorted (unique (column df attr))) as [l|e]; [|discriminate H].
  cbn [bind] in H.
  destruct l as [|p [|u [|w l]]]; try discriminate H.
  exists p, u. split; [reflexivity|]. cbn zeta.
  cbn [length Nat.ltb Nat.leb List.nth] in H.
  rewrite (column_set_column_same _ _ _ Hcol) in H.
  set (coded := List.map _ (column df attr)) in *.
  destruct (List.existsb isna coded); [discriminate H|].
  destruct (contains 1 _ && contains 0 _) eqn:E; [|discriminate H].
  injection H as <-. apply andb_prop in E. tauto.
Qed.

Lemma encode_protected_cons gm attr rest df :
  Main.encode_protected gm (attr :: rest) df
  = bind (Main.encode_step gm attr df) (Main.encode_protected gm rest).
Proof. reflexivity. Qed.

Lemma encode_step_spec gm attr (df df' : DataFrame) :
  Main.encode_step gm attr df = Ok df' ->
  columns df' = columns df
  /\ (has_column attr df = true -> List.Forall binary (column df' attr))
  /\ (forall c, c <> attr ->
        column df' c = column df c
        \/ exists mask, column df' c = select mask (column df c)).
Proof.
  unfold Main.encode_step. destruct (has_column attr df) eqn:Hcol.
  2:{ intros H. injection H as <-. split; [reflexivity|].
      split; [discriminate|]. intros c _. left. reflexivity. }
  destruct (Main.mapping_for gm attr) as [m|]; intros H.
  - destruct (encode_with_mapping_inv _ _ _ _ Hcol H)
      as (pv & uv & _ & _ & Hdf & _). cbn zeta in Hdf.
    set (coded := List.map _ (column df attr)) in *.
    assert (Hp : List.Forall plain coded).
    { apply List.Forall_forall. intros x Hx. apply List.in_map_iff in Hx.
      destruct Hx as (y & <- & _). apply explicit_code_plain. }
    assert (Hn : List.Forall (fun x => ~ is_str x) coded).
    { apply List.Forall_forall. intros x Hx. apply List.in_map_iff in Hx.
      destruct Hx as (y & <- & _). apply explicit_code_number. }
    destruct (List.existsb isna coded) eqn:Hna; subst df'.
    + split; [rewrite columns_select_rows; apply columns_set_column|].
      split.
      * intros _. rewrite column_select_rows, column_set_column_same by exact Hcol.
        unfold not_na. rewrite select_map_filter.
        apply filter_not_na_binary; assumption.
      * intros c Hc. right. exists (List.map not_na coded).
        rewrite column_select_rows, column_set_column_other by exact Hc.
        reflexivity.
    + split; [apply columns_set_column|]. split.
      * intros _. rewrite column_set_column_same by exact Hcol.
        apply coded_binary; assumption.
      * intros c Hc. left. apply column_set_column_other. exact Hc.
  - destruct (encode_fallback_inv _ _ _ Hcol H)
      as (p & u & _ & Hdf & Hna & _). cbn zeta in Hdf, Hna. subst df'.
    split; [apply columns_set_column|]. split.
    + intros _. rewrite column_set_column_same by exact Hcol.
      apply coded_binary; [| |exact Hna].
      * apply List.Forall_forall. intros x Hx. apply List.in_map_iff in Hx.
        destruct Hx as (y & <- & _). apply fallback_code_plain.
      * apply List.Forall_forall. intros x Hx. apply List.in_map_iff in Hx.
        destruct Hx as (y & <- & _). apply fallback_code_number.
    + intros c Hc. left. apply column_set_column_other. exact Hc.
Qed.

Lemma encode_protected_binary gm attrs (df df' : DataFrame) :
  Main.encode_protected gm attrs df = Ok df' ->
  columns df' = columns df
  /\ (forall c, List.Forall binary (column df c) ->
        List.Forall binary (column df' c))
  /\ (forall a, In a attrs -> has_column a df = true ->
        List.Forall binary (column df' a)).
Proof.
  revert df. induction attrs as [|attr rest IH]; intros df H.
  - injection H as <-. split; [reflexivity|]. split; [auto|]. intros a [].
  - rewrite encode_protected_cons in H.
    destruct (Main.encode_step gm attr df) as [df1|e] eqn:Hstep; [|discriminate H].
    cbn [bind] in H.
    destruct (encode_step_spec _ _ _ _ Hstep) as (Hc1 & Hb1 & Ho1).
    destruct (IH _ H) as (Hc & Hkeep & Hin).
    assert (Hkeep1 : forall c, List.Forall binary (column df c) ->
                          has_column c df = true ->
                          List.Forall binary (column df1 c)).
    { intros c Hb Hcol. destruct (String.eqb_spec c attr) as [->|Hne].
      - apply Hb1. exact Hcol.
      - destruct (Ho1 c Hne) as [->|[mask ->]]; [exact Hb|].
        apply Forall_select. exact Hb. }
    split; [congruence|]. split.
    + intros c Hb. destruct (has_column c df) eqn:Hcol.
      * apply Hkeep. apply Hkeep1; assumption.
      * apply Hkeep. destruct (String.eqb_spec c attr) as [->|Hne].
        -- unfold Main.encode_step in Hstep. rewrite Hcol in Hstep.
           injection Hstep as <-. exact Hb.
        -- destruct (Ho1 c Hne) as [->|[mask ->]]; [exact Hb|].
           apply Forall_select. exact Hb.
    + intros a [<-|Ha] Hcol.
      * apply Hkeep. apply Hb1. exact Hcol.
      * apply Hin; [exact Ha|]. unfold has_column in *. rewrite Hc1.
        exact Hcol.
Qed.

End Normalizer.

(** ** The first two loops of [preprocess_data] *)

Section Conversion.
Context (lib : library).

Lemma astype_str_idem (s : Series) :
  Main.astype_str lib (Main.astype_str lib s) = Main.astype_str lib s.
Proof.
  unfold Main.astype_str. rewrite List.map_map. reflexivity.
Qed.

Lemma astype_str_is_str (s : Series) :
  List.Forall is_str (Main.astype_str lib s).
Proof.
  apply List.Forall_forall. intros x Hx. apply List.in_map_iff in Hx.
  destruct Hx as (y & <- & _). exact I.
Qed.

Lemma astype_str_strings (s : Series) :
  List.Forall is_str s -> Main.astype_str lib s = s.
Proof.
  induction 1 as [|x t Hx _ IH]; [reflexivity|].
  unfold Main.astype_str in *. simpl. rewrite IH.
  destruct x; [reflexivity|destruct Hx].
Qed.

Lemma columns_stringify attrs (df : DataFrame) :
  columns (Main.stringify_protected lib attrs df) = columns df.
Proof.
  revert df. induction attrs as [|a rest IH]; intros df; [reflexivity|].
  unfold Main.stringify_protected in *. simpl. rewrite IH.
  destruct (has_column a df); [apply columns_set_column|reflexivity].
Qed.

Lemma column_stringify_strings attrs (df : DataFrame) c :
  column df c = Main.astype_str lib (column df c) ->
  column (Main.stringify_protected lib attrs df) c = column df c.
Proof.
  revert df. induction attrs as [|a rest IH]; intros df Hs; [reflexivity|].
  unfold Main.stringify_protected in *. simpl.
  destruct (has_column a df) eqn:Ha.
  - destruct (String.eqb_spec c a) as [->|Hne].
    + rewrite IH; rewrite column_set_column_same by exact Ha.
      * symmetry. exact Hs.
      * symmetry. apply astype_str_idem.
    + rewrite IH; rewrite column_set_column_other by exact Hne;
        [reflexivity|exact Hs].
  - apply IH. exact Hs.
Qed.

Lemma column_stringify attrs (df : DataFrame) c :
  In c attrs -> has_column c df = true ->
  column (Main.stringify_protected lib attrs df) c
  = Main.astype_str lib (column df c).
Proof.
  revert df. induction attrs as [|a rest IH]; intros df Hin Hcol; [destruct Hin|].
  unfold Main.stringify_protected in *. simpl.
  destruct (String.eqb_spec c a) as [->|Hne].
  - rewrite Hcol.
    change (column (Main.stringify_protected lib rest
                      (set_column a (Main.astype_str lib (column df a)) df)) a
            = Main.astype_str lib (column df a)).
    rewrite column_stringify_strings;
      rewrite column_set_column_same by exact Hcol;
      [reflexivity|symmetry; apply astype_str_idem].
  - destruct Hin as [->|Hin]; [contradiction|].
    destruct (has_column a df) eqn:Ha.
    + rewrite IH; [|exact Hin|rewrite has_column_set_column; exact Hcol].
      rewrite column_set_column_other by exact Hne. reflexivity.
    + apply IH; assumption.
Qed.

Lemma columns_numeric_others attrs (df : DataFrame) :
  columns (Main.numeric_others lib attrs df) = columns df.
Proof.
  induction df as [|[n s] rest IH]; [reflexivity|].
  change (fst (if negb (List.existsb (String.eqb n) attrs)
               then (n, Main.to_numeric_or_encode lib s) else (n, s))
          :: columns (Main.numeric_others lib attrs rest)
          = n :: columns rest).
  rewrite IH. destruct (negb _); reflexivity.
Qed.

Lemma column_numeric_others_protected attrs (df : DataFrame) c :
  In c attrs -> column (Main.numeric_others lib attrs df) c = column df c.
Proof.
  intros Hin. induction df as [|[n s] rest IH]; [reflexivity|].
  change (column
            ((if negb (List.existsb (String.eqb n) attrs)
              then (n, Main.to_numeric_or_encode lib s) else (n, s))
             :: Main.numeric_others lib attrs rest) c
          = column ((n, s) :: rest) c).
  destruct (String.eqb c n) eqn:E.
  - apply String.eqb_eq in E. subst n.
    assert (Hex : List.existsb (String.eqb c) attrs = true).
    { apply List.existsb_exists. exists c. split; [exact Hin|].
      apply String.eqb_refl. }
    rewrite Hex. simpl. rewrite String.eqb_refl. reflexivity.
  - destruct (negb _); simpl; rewrite E; exact IH.
Qed.

Lemma columns_encode_categoricals exclude (df : DataFrame) :
  columns (Main.encode_categoricals lib df exclude) = columns df.
Proof.
  induction df as [|[n s] rest IH]; [reflexivity|].
  change (fst (if negb (List.existsb (String.eqb n) exclude)
                  && Main.is_object s
               then (n, Main.to_numeric_or_encode lib s) else (n, s))
          :: columns (Main.encode_categoricals lib rest exclude)
          = n :: columns rest).
  rewrite IH. destruct (_ && _); reflexivity.
Qed.

Lemma column_encode_categoricals_excluded exclude (df : DataFrame) c :
  In c exclude ->
  column (Main.encode_categoricals lib df exclude) c = column df c.
Proof.
  intros Hin. induction df as [|[n s] rest IH]; [reflexivity|].
  change (column
            ((if negb (List.existsb (String.eqb n) exclude)
                 && Main.is_object s
              then (n, Main.to_numeric_or_encode lib s) else (n, s))
             :: Main.encode_categoricals lib rest exclude) c
          = column ((n, s) :: rest) c).
  destruct (String.eqb c n) eqn:E.
  - apply String.eqb_eq in E. subst n.
    assert (Hex : List.existsb (String.eqb c) exclude = true).
    { apply List.existsb_exists. exists c. split; [exact Hin|].
      apply String.eqb_refl. }
    rewrite Hex. simpl. rewrite String.eqb_refl. reflexivity.
  - destruct (_ && _); simpl; rewrite E; exact IH.
Qed.

End Conversion.

(** ** Sorting str values *)

Section Sorting.

Lemma insert_sorted_strings x (l : list cell) :
  is_str x -> List.Forall is_str l ->
  exists l',
    insert_sorted x l = Ok l'
    /\ Permutation (x :: l) l'
    /\ List.Forall is_str l'.
Proof.
  intros Hx Hl. induction Hl as [|y t Hy Ht IH].
  - exists [x]. split; [reflexivity|]. split; [reflexivity|].
    constructor; [exact Hx|constructor].
  - destruct x as [sx|]; [|destruct Hx]. destruct y as [sy|]; [|destruct Hy].
    simpl. destruct (String.ltb sy sx).
    + destruct IH as (t' & -> & Hperm & Hstr). simpl.
      exists (CStr sy :: t'). split; [reflexivity|]. split.
      * rewrite <- Hperm. apply perm_swap.
      * constructor; [exact I|exact Hstr].
    + exists (CStr sx :: CStr sy :: t). split; [reflexivity|].
      split; [reflexivity|]. repeat constructor. exact Ht.
Qed.

Lemma sorted_strings (l : list cell) :
  List.Forall is_str l ->
  exists l',
    sorted l = Ok l' /\ Permutation l l' /\ List.Forall is_str l'.
Proof.
  induction 1 as [|x t Hx Ht IH].
  - exists []. split; [reflexivity|]. split; [reflexivity|constructor].
  - destruct IH as (t' & Ht' & Hperm & Hstr). simpl. rewrite Ht'. simpl.
    destruct (insert_sorted_strings x t' Hx Hstr) as (l' & Hl' & Hp' & Hs').
    exists l'. split; [exact Hl'|]. split; [|exact Hs'].
    rewrite <- Hp'. constructor. exact Hperm.
Qed.

Lemma insert_sorted_length x (l l' : list cell) :
  insert_sorted x l = Ok l' -> length l' = S (length l).
Proof.
  revert l'. induction l as [|y t IH]; intros l' H; simpl in H.
  - injection H as <-. reflexivity.
  - destruct (py_lt y x) as [b|e]; [|discriminate H]. simpl in H.
    destruct b.
    + destruct (insert_sorted x t) as [t'|e]; [|discriminate H]. simpl in H.
      injection H as <-. simpl. rewrite (IH t' eq_refl). reflexivity.
    + injection H as <-. reflexivity.
Qed.

Lemma sorted_length (l l' : list cell) :
  sorted l = Ok l' -> length l' = length l.
Proof.
  revert l'. induction l as [|x t IH]; intros l' H; simpl in H.
  - injection H as <-. reflexivity.
  - destruct (sorted t) as [t'|e]; [|discriminate H]. simpl in H.
    rewrite (insert_sorted_length _ _ _ H), (IH t' eq_refl). reflexivity.
Qed.

Lemma ltb_total_strict (a b : string) :
  a <> b -> String.ltb b a = false -> String.ltb a b = true.
Proof.
  unfold String.ltb. intros Hne H.
  rewrite (String.compare_antisym a b).
  destruct (String.compare b a) eqn:E; simpl.
  - apply String.compare_eq_iff in E. congruence.
  - discriminate H.
  - reflexivity.
Qed.

Lemma ltb_irrefl (a : string) : String.ltb a a = false.
Proof.
  unfold String.ltb. pose proof (String.compare_antisym a a) as E.
  destruct (String.compare a a); first [reflexivity|discriminate E].
Qed.

Lemma ltb_asym (a b : string) :
  String.ltb a b = true -> String.ltb b a = false.
Proof.
  unfold String.ltb. rewrite (String.compare_antisym a b).
  destruct (String.compare b a); simpl; intros H; first [discriminate H|reflexivity].
Qed.

End Sorting.

(** ** Preprocessing as a whole *)

Section Preprocessing.
Context (lib : library).

(** The frame the third loop of [preprocess_data] starts from. *)
Lemma converted_column attrs (df : DataFrame) attr :
  In attr attrs -> has_column attr df = true ->
  column (Main.numeric_others lib attrs
            (Main.stringify_protected lib attrs df)) attr
  = Main.astype_str lib (column df attr).
Proof.
  intros Hin Hcol. rewrite column_numeric_others_protected by exact Hin.
  apply column_stringify; assumption.
Qed.

Lemma converted_has_column attrs (df : DataFrame) c :
  has_column c (Main.numeric_others lib attrs
                  (Main.stringify_protected lib attrs df))
  = has_column c df.
Proof.
  unfold has_column. rewrite columns_numeric_others, columns_stringify.
  reflexivity.
Qed.

Lemma preprocess_rejects_more_than_two (df : DataFrame) attr rest
  (gm : option mappings) :
  has_column attr df = true ->
  Main.mapping_for gm attr = None ->
  (2 < length (unique (Main.astype_str lib (column df attr))))%nat ->
  exists values,
    Permutation (unique (Main.astype_str lib (column df attr))) values
    /\ Main.preprocess_data lib df (attr :: rest) gm
       = Err (HTTPException 400
                (Lit "Error preprocessing data: "
                 :: str (HTTPException 400
                           (Main.more_than_two_detail attr values)))).
Proof.
  intros Hcol Hmap Hlen.
  destruct (sorted_strings (unique (Main.astype_str lib (column df attr))))
    as (values & Hsorted & Hperm & _).
  { apply Forall_unique, astype_str_is_str. }
  exists values. split; [exact Hperm|].
  unfold Main.preprocess_data. cbn zeta.
  rewrite encode_protected_cons. unfold Main.encode_step.
  rewrite converted_has_column, Hcol, Hmap.
  unfold Main.encode_fallback.
  rewrite converted_column by (first [left; reflexivity|exact Hcol]).
  rewrite Hsorted. cbn [bind].
  assert (Hl : (2 <? length values)%nat = true).
  { apply Nat.ltb_lt. rewrite <- (Permutation_length Hperm). exact Hlen. }
  rewrite Hl. reflexivity.
Qed.

End Preprocessing.

(** ** The analysis request *)

Section Request.
Context (lib : library).

Lemma analyze_bias_dataset_error (request : Main.BiasAnalysisRequest) d :
  Main.data request <> [] ->
  Main.protected_attributes request <> [] ->
  Main.prepare_dataset lib (Main.data request)
    (Main.protected_attributes request) (Main.group_mappings request)
  = Err (HTTPException 400 d) ->
  Main.analyze_bias lib request
  = Err (HTTPException 400
           (Lit "Error creating dataset: " :: str (HTTPException 400 d))).
Proof.
  intros Hdata Hattrs Hprep. unfold Main.analyze_bias.
  destruct (Main.data request) as [|r0 rs] eqn:Ed; [congruence|].
  destruct (Main.protected_attributes request) as [|a0 as_] eqn:Ea;
    [congruence|].
  unfold Main.create_dataset. rewrite Hprep. reflexivity.
Qed.

(** C6: a request whose first protected attribute has more than two
    distinct values and no explicit mapping fails with status 400 and
    produces no result.  When the data has a label column and at least
    two columns, the detail of the failure ends in the message of the
    normalizer, which names the attribute and lists its distinct
    values. *)
Theorem analysis_rejects_more_than_two_values
  (request : Main.BiasAnalysisRequest) attr rest :
  Main.protected_attributes request = attr :: rest ->
  Main.mapping_for (Main.group_mappings request) attr = None ->
  has_column attr (DataFrame_of (Main.data request)) = true ->
  (2 < length (unique (Main.astype_str lib
                         (column (DataFrame_of (Main.data request)) attr))))%nat ->
  exists detail,
    Main.analyze_bias lib request = Err (HTTPException 400 detail)
    /\ ((2 <= length (columns (DataFrame_of (Main.data request))))%nat ->
        (exists label,
            Main.find_label_column (DataFrame_of (Main.data request))
            = Ok label) ->
        exists prefix values,
          Permutation
            (unique (Main.astype_str lib
                       (column (DataFrame_of (Main.data request)) attr)))
            values
          /\ detail = (prefix ++ Main.more_than_two_detail attr values)%list
          /\ In (FStr attr) detail
          /\ In (FCells values) detail).
Proof.
  intros Hattrs Hmap Hcol Hlen.
  assert (Hdata : Main.data request <> []).
  { intros E. rewrite E in Hcol. discriminate Hcol. }
  assert (Hne : Main.protected_attributes request <> [])
    by (rewrite Hattrs; discriminate).
  destruct (preprocess_rejects_more_than_two lib _ attr rest
              (Main.group_mappings request) Hcol Hmap Hlen)
    as (values & Hperm & Hpre).
  set (df := DataFrame_of (Main.data request)) in *.
  destruct (length (columns df) <? 2)%nat eqn:Hcols.
  { eexists. split.
    - apply analyze_bias_dataset_error; [exact Hdata|exact Hne|].
      unfold Main.prepare_dataset. fold df. rewrite Hcols. reflexivity.
    - intros Hge. apply Nat.ltb_lt in Hcols. lia. }
  destruct (Main.find_label_column df) as [label|e] eqn:Hlabel.
  2:{ eexists. split.
      - apply analyze_bias_dataset_error; [exact Hdata|exact Hne|].
        unfold Main.prepare_dataset. fold df. rewrite Hcols, Hlabel.
        reflexivity.
      - intros _ [label Hl]. discriminate Hl. }
  eexists. split.
  - apply analyze_bias_dataset_error; [exact Hdata|exact Hne|].
    unfold Main.prepare_dataset. fold df. rewrite Hcols, Hlabel, Hattrs, Hpre.
    reflexivity.
  - intros _ _.
    exists [Lit "Error creating dataset: "; FInt 400; Lit ": ";
            Lit "Error preprocessing data: "; FInt 400; Lit ": ";
            Lit "Error preprocessing data: "; FInt 400; Lit ": "], values.
    split; [exact Hperm|]. split; [reflexivity|].
    split; simpl; tauto.
Qed.

End Request.

(** ** The invariant of the protected column *)

Section Invariant.
Context (lib : library).
Open Scope float_scope.

Lemma preprocess_binary (df df' : DataFrame) attrs gm :
  Main.preprocess_data lib df attrs gm = Ok df' ->
  columns df' = columns df
  /\ forall attr, In attr attrs -> has_column attr df' = true ->
       List.Forall binary (column df' attr).
Proof.
  unfold Main.preprocess_data, try_except. cbn zeta.
  destruct (Main.encode_protected gm attrs _) as [df1|e] eqn:H;
    [|discriminate].
  intros E. injection E as <-.
  destruct (encode_protected_binary _ _ _ _ H) as (Hc & _ & Hin).
  rewrite columns_numeric_others, columns_stringify in Hc.
  split; [exact Hc|]. intros attr Ha Hcol. apply Hin; [exact Ha|].
  rewrite converted_has_column. unfold has_column in *. rewrite <- Hc.
  exact Hcol.
Qed.

Lemma verify_protected_ok attrs (df : DataFrame) g :
  Main.verify_protected attrs df = Ok g ->
  match first_present attrs df with
  | Some attr =>
      contains 1 (unique (column df attr)) = true
      /\ contains 0 (unique (column df attr)) = true
      /\ g = ([[1]], [[0]])
  | None => g = ([], [])
  end.
Proof.
  unfold first_present.
  induction attrs as [|a rest IH]; simpl; intros H.
  - injection H as <-. reflexivity.
  - destruct (has_column a df); [|apply IH; exact H].
    destruct (contains 1 (unique (column df a))),
      (contains 0 (unique (column df a))); simpl in H; try discriminate H.
    injection H as <-. repeat split.
Qed.

Lemma verify_protected_error attrs (df : DataFrame) e :
  Main.verify_protected attrs df = Err e ->
  exists d, e = HTTPException 400 d.
Proof.
  induction attrs as [|a rest IH]; simpl; intros H; [discriminate H|].
  destruct (has_column a df); [|apply IH; exact H].
  destruct (negb _ || negb _); simpl in H; [|discriminate H].
  injection H as <-. eexists. reflexivity.
Qed.

Lemma verify_protected_rejects attrs (df : DataFrame) attr :
  first_present attrs df = Some attr ->
  contains 1 (unique (column df attr))
  && contains 0 (unique (column df attr)) = false ->
  exists d, Main.verify_protected attrs df = Err (HTTPException 400 d).
Proof.
  unfold first_present.
  induction attrs as [|a rest IH]; simpl; intros Hf Hc; [discriminate Hf|].
  destruct (has_column a df); [|apply IH; assumption].
  injection Hf as ->.
  destruct (contains 1 (unique (column df attr))),
    (contains 0 (unique (column df attr))); simpl in *; try discriminate Hc;
    eexists; reflexivity.
Qed.

Lemma prepare_dataset_error data attrs gm e :
  Main.prepare_dataset lib data attrs gm = Err e ->
  exists d, e = HTTPException 400 d.
Proof.
  unfold Main.prepare_dataset.
  destruct (length (columns (DataFrame_of data)) <? 2)%nat.
  { intros H. injection H as <-. eexists. reflexivity. }
  destruct (Main.find_label_column (DataFrame_of data)) as [label|e0];
    cbn [try_except bind].
  2:{ intros H. injection H as <-. eexists. reflexivity. }
  destruct (Main.preprocess_data lib (DataFrame_of data) attrs gm)
    as [df|e0]; cbn [try_except bind].
  2:{ intros H. injection H as <-. eexists. reflexivity. }
  destruct (Main.verify_protected attrs _) as [g|e0] eqn:Hv; cbn [bind].
  - discriminate.
  - intros H. injection H as <-. eapply verify_protected_error. exact Hv.
Qed.

Lemma prepare_dataset_ok data attrs gm a :
  Main.prepare_dataset lib data attrs gm = Ok a ->
  (forall attr, In attr attrs -> has_column attr (Main.frame a) = true ->
     List.Forall binary (column (Main.frame a) attr))
  /\ (forall attr, first_present attrs (Main.frame a) = Some attr ->
        In (CNum 1) (column (Main.frame a) attr)
        /\ In (CNum 0) (column (Main.frame a) attr)
        /\ Main.privileged_protected_attributes a = [[1]]
        /\ Main.unprivileged_protected_attributes a = [[0]]).
Proof.
  unfold Main.prepare_dataset.
  destruct (length (columns (DataFrame_of data)) <? 2)%nat; [discriminate|].
  destruct (Main.find_label_column (DataFrame_of data)) as [label|e0];
    cbn [try_except bind]; [|discriminate].
  destruct (Main.preprocess_data lib (DataFrame_of data) attrs gm)
    as [df|e0] eqn:Hpre; cbn [try_except bind]; [|discriminate].
  destruct (Main.verify_protected attrs _) as [g|e0] eqn:Hv; cbn [bind];
    [|discriminate].
  intros H. injection H as <-. cbn [Main.frame
    Main.privileged_protected_attributes Main.unprivileged_protected_attributes].
  destruct (preprocess_binary _ _ _ _ Hpre) as (Hcols & Hbin).
  set (df2 := Main.encode_categoricals lib df (attrs ++ [label])%list) in *.
  assert (Hb : forall attr, In attr attrs -> has_column attr df2 = true ->
                 List.Forall binary (column df2 attr)).
  { intros attr Ha Hc. unfold df2.
    rewrite column_encode_categoricals_excluded
      by (apply List.in_or_app; left; exact Ha).
    apply Hbin; [exact Ha|]. unfold df2, has_column in Hc.
    rewrite columns_encode_categoricals in Hc. exact Hc. }
  split; [exact Hb|].
  intros attr Hf. apply verify_protected_ok in Hv. rewrite Hf in Hv.
  destruct Hv as (H1 & H0 & ->).
  assert (Hin : In attr attrs /\ has_column attr df2 = true).
  { unfold first_present in Hf. apply List.find_some in Hf. exact Hf. }
  destruct Hin as (Ha & Hc). specialize (Hb attr Ha Hc).
  assert (Hp : List.Forall plain (unique (column df2 attr))).
  { apply Forall_unique. eapply List.Forall_impl; [|exact Hb].
    intros x. apply binary_plain. }
  repeat split.
  - apply In_unique, contains_one_plain; assumption.
  - apply In_unique, contains_zero_plain; assumption.
Qed.

Lemma analyze_bias_ok_prepared (request : Main.BiasAnalysisRequest) response :
  Main.analyze_bias lib request = Ok response ->
  exists a,
    Main.prepare_dataset lib (Main.data request)
      (Main.protected_attributes request) (Main.group_mappings request)
    = Ok a.
Proof.
  unfold Main.analyze_bias.
  destruct (Main.data request) as [|r0 rs]; [discriminate|].
  destruct (Main.protected_attributes request) as [|a0 rest]; [discriminate|].
  unfold Main.create_dataset.
  destruct (Main.prepare_dataset lib (r0 :: rs) (a0 :: rest)
              (Main.group_mappings request)) as [a|e].
  - intros _. exists a. reflexivity.
  - destruct e; discriminate.
Qed.

Lemma analyze_bias_fails_when_unprepared (request : Main.BiasAnalysisRequest) e :
  Main.prepare_dataset lib (Main.data request)
    (Main.protected_attributes request) (Main.group_mappings request)
  = Err e ->
  exists d, Main.analyze_bias lib request = Err (HTTPException 400 d).
Proof.
  intros H. destruct (prepare_dataset_error _ _ _ _ H) as (d & ->).
  destruct (Main.data request) as [|r0 rs] eqn:Ed.
  { eexists. unfold Main.analyze_bias. rewrite Ed. reflexivity. }
  destruct (Main.protected_attributes request) as [|a0 rest] eqn:Ea.
  { eexists. unfold Main.analyze_bias. rewrite Ed, Ea. reflexivity. }
  eexists. apply analyze_bias_dataset_error.
  - rewrite Ed. discriminate.
  - rewrite Ea. discriminate.
  - rewrite Ed, Ea. exact H.
Qed.

Lemma prepare_dataset_columns data attrs gm a :
  Main.prepare_dataset lib data attrs gm = Ok a ->
  columns (Main.frame a) = columns (DataFrame_of data).
Proof.
  unfold Main.prepare_dataset.
  destruct (length (columns (DataFrame_of data)) <? 2)%nat; [discriminate|].
  destruct (Main.find_label_column (DataFrame_of data)) as [label|e0];
    cbn [try_except bind]; [|discriminate].
  destruct (Main.preprocess_data lib (DataFrame_of data) attrs gm)
    as [df|e0] eqn:Hpre; cbn [try_except bind]; [|discriminate].
  destruct (Main.verify_protected attrs _) as [g|e0]; cbn [bind];
    [|discriminate].
  intros H. injection H as <-. cbn [Main.frame].
  rewrite columns_encode_categoricals.
  exact (proj1 (preprocess_binary _ _ _ _ Hpre)).
Qed.

Lemma prepare_dataset_needs_preprocessing data attrs gm e :
  Main.preprocess_data lib (DataFrame_of data) attrs gm = Err e ->
  exists e', Main.prepare_dataset lib data attrs gm = Err e'.
Proof.
  intros Hpre. unfold Main.prepare_dataset.
  destruct (length (columns (DataFrame_of data)) <? 2)%nat;
    [eexists; reflexivity|].
  destruct (Main.find_label_column (DataFrame_of data)) as [label|e0];
    cbn [try_except bind]; [|eexists; reflexivity].
  rewrite Hpre. cbn [try_except bind]. eexists. reflexivity.
Qed.

(** An explicit mapping that leaves one of the two groups without a row
    is refused by [preprocess_data], with the attribute and the values
    found in the detail. *)
Lemma preprocess_rejects_empty_group (df : DataFrame) attr rest
  (gm : option mappings) (m : mapping) pv uv :
  has_column attr df = true ->
  Main.mapping_for gm attr = Some m ->
  m !! "privileged" = Some pv ->
  m !! "unprivileged" = Some uv ->
  let coded :=
    List.map (Main.explicit_code (Main.as_list pv) (Main.as_list uv))
      (Main.astype_str lib (column df attr)) in
  ~ (In (CNum 1) coded /\ In (CNum 0) coded) ->
  exists found,
    Main.preprocess_data lib df (attr :: rest) gm
    = Err (HTTPException 400
             [Lit "Error preprocessing data: "; FInt 400; Lit ": ";
              Lit "After mapping, both privileged (1.0) and unprivileged (0.0) values must exist in '";
              FStr attr; Lit "'. Found: "; FCells found]).
Proof.
  intros Hcol Hmap Hp Hu coded Hnot.
  unfold Main.preprocess_data. cbn zeta.
  rewrite encode_protected_cons. unfold Main.encode_step.
  rewrite converted_has_column, Hcol, Hmap.
  unfold Main.encode_with_mapping, getitem. rewrite Hp, Hu. cbn [bind].
  set (df0 := Main.numeric_others lib (attr :: rest)
                (Main.stringify_protected lib (attr :: rest) df)).
  assert (Hcol0 : has_column attr df0 = true)
    by (unfold df0; rewrite converted_has_column; exact Hcol).
  assert (Hc0 : column df0 attr = Main.astype_str lib (column df attr)).
  { unfold df0. apply converted_column; [left; reflexivity|exact Hcol]. }
  rewrite Hc0. fold coded.
  rewrite (column_set_column_same attr coded df0 Hcol0).
  assert (Hplain : List.Forall plain coded).
  { apply List.Forall_forall. intros x Hx. apply List.in_map_iff in Hx.
    destruct Hx as (y & <- & _). apply explicit_code_plain. }
  assert (Hfail : forall found : Series,
             List.Forall plain found ->
             (forall x, In x found -> In x coded) ->
             contains 1 (unique found) && contains 0 (unique found) = false).
  { intros found Hpf Hsub.
    destruct (contains 1 (unique found)) eqn:E1; [|reflexivity].
    destruct (contains 0 (unique found)) eqn:E0; [|reflexivity].
    exfalso. apply Hnot. split; apply Hsub, In_unique.
    - apply contains_one_plain; [apply Forall_unique; exact Hpf|exact E1].
    - apply contains_zero_plain; [apply Forall_unique; exact Hpf|exact E0]. }
  destruct (List.existsb isna coded); cbn [fst snd].
  - rewrite column_select_rows, (column_set_column_same attr coded df0 Hcol0).
    rewrite Hfail.
    + cbn [negb bind try_except]. eexists. reflexivity.
    + apply Forall_select. exact Hplain.
    + intros x Hx. rewrite select_map_filter in Hx.
      apply List.filter_In in Hx as [Hx _]. exact Hx.
  - rewrite Hfail; [|exact Hplain|auto].
    cbn [negb bind try_except]. eexists. reflexivity.
Qed.

(** C4: for every request, the frame that [create_dataset] hands to the
    data-set constructor has the columns of the request data and holds
    nothing but 1.0 and 0.0 in each protected column, and both values
    occur in the column of the first protected attribute, the one the
    metrics use.  Preprocessing establishes this for each protected
    column; [create_dataset] checks again that both values occur, and
    when one is missing, or preprocessing fails, the request ends in a
    failure with status 400.  So it does when an explicit mapping of
    the first protected attribute leaves one of the two groups without
    a row, with the attribute and the values found in the detail, and
    when that attribute has no mapping and not exactly two distinct
    values. *)
Theorem protected_column_is_binary (request : Main.BiasAnalysisRequest) :
  let attrs := Main.protected_attributes request in
  let df := DataFrame_of (Main.data request) in
  let gm := Main.group_mappings request in
  let prepared := Main.prepare_dataset lib (Main.data request) attrs gm in
  (forall a, prepared = Ok a ->
     (forall attr, In attr attrs -> has_column attr (Main.frame a) = true ->
        List.Forall binary (column (Main.frame a) attr))
     /\ (forall attr, first_present attrs (Main.frame a) = Some attr ->
           In (CNum 1) (column (Main.frame a) attr)
           /\ In (CNum 0) (column (Main.frame a) attr))
     /\ columns (Main.frame a) = columns df
     /\ (forall attr, In attr attrs -> has_column attr df = true ->
           has_column attr (Main.frame a) = true
           /\ List.Forall binary (column (Main.frame a) attr))
     /\ first_present attrs (Main.frame a) = first_present attrs df)
  /\ (forall response, Main.analyze_bias lib request = Ok response ->
        exists a, prepared = Ok a)
  /\ (forall e, prepared = Err e ->
        exists d, Main.analyze_bias lib request = Err (HTTPException 400 d))
  /\ (forall df0 df', Main.preprocess_data lib df0 attrs gm = Ok df' ->
        forall attr, In attr attrs -> has_column attr df' = true ->
          List.Forall binary (column df' attr))
  /\ (forall df0 attr, first_present attrs df0 = Some attr ->
        contains 1 (unique (column df0 attr))
        && contains 0 (unique (column df0 attr)) = false ->
        exists d, Main.verify_protected attrs df0 = Err (HTTPException 400 d))
  /\ (forall attr rest m pv uv,
        attrs = attr :: rest ->
        has_column attr df = true ->
        Main.mapping_for gm attr = Some m ->
        m !! "privileged" = Some pv ->
        m !! "unprivileged" = Some uv ->
        let coded :=
          List.map (Main.explicit_code (Main.as_list pv) (Main.as_list uv))
            (Main.astype_str lib (column df attr)) in
        ~ (In (CNum 1) coded /\ In (CNum 0) coded) ->
        (exists found,
           Main.preprocess_data lib df attrs gm
           = Err (HTTPException 400
                    [Lit "Error preprocessing data: "; FInt 400; Lit ": ";
                     Lit "After mapping, both privileged (1.0) and unprivileged (0.0) values must exist in '";
                     FStr attr; Lit "'. Found: "; FCells found]))
        /\ exists d,
             Main.analyze_bias lib request = Err (HTTPException 400 d))
  /\ (forall attr rest,
        attrs = attr :: rest ->
        has_column attr df = true ->
        Main.mapping_for gm attr = None ->
        length (unique (Main.astype_str lib (column df attr))) <> 2%nat ->
        exists d, Main.analyze_bias lib request = Err (HTTPException 400 d)).
Proof.
  cbn zeta. split; [|split; [|split; [|split; [|split; [|split]]]]].
  - intros a H. destruct (prepare_dataset_ok _ _ _ _ H) as (Hb & Hf).
    pose proof (prepare_dataset_columns _ _ _ _ H) as Hcols.
    assert (Hhas : forall c,
               has_column c (Main.frame a)
               = has_column c (DataFrame_of (Main.data request))).
    { intros c. unfold has_column. rewrite Hcols. reflexivity. }
    split; [exact Hb|]. split.
    { intros attr Ha. destruct (Hf attr Ha) as (H1 & H0 & _).
      split; assumption. }
    split; [exact Hcols|]. split.
    { intros attr Hin Hcol. rewrite <- Hhas in Hcol.
      split; [exact Hcol|]. apply Hb; assumption. }
    unfold first_present.
    generalize (Main.protected_attributes request) as l.
    intros l. induction l as [|c t IHl]; [reflexivity|].
    cbn [List.find]. rewrite Hhas, IHl. reflexivity.
  - apply analyze_bias_ok_prepared.
  - apply analyze_bias_fails_when_unprepared.
  - intros df0 df' H. apply (preprocess_binary _ _ _ _ H).
  - intros df0 attr. apply verify_protected_rejects.
  - intros attr rest m pv uv Hattrs Hcol Hmap Hp Hu Hnot.
    destruct (preprocess_rejects_empty_group _ attr rest _ m pv uv Hcol Hmap
                Hp Hu Hnot) as [found Hfound].
    rewrite Hattrs. split; [exists found; exact Hfound|].
    destruct (prepare_dataset_needs_preprocessing _ _ _ _ Hfound)
      as [e' He'].
    rewrite <- Hattrs in He'.
    exact (analyze_bias_fails_when_unprepared _ _ He').
  - intros attr rest Hattrs Hcol Hmap Hlen.
    destruct (Main.preprocess_data lib
                (DataFrame_of (Main.data request)) (attr :: rest)
                (Main.group_mappings request)) as [df'|e] eqn:Hpre.
    + exfalso. apply Hlen.
      unfold Main.preprocess_data, try_except in Hpre. cbn zeta in Hpre.
      rewrite encode_protected_cons in Hpre.
      destruct (Main.encode_step _ attr _) as [df2|e] eqn:Hstep;
        [|discriminate Hpre].
      unfold Main.encode_step in Hstep.
      rewrite converted_has_column, Hcol, Hmap in Hstep.
      assert (Hcol0 : has_column attr
                        (Main.numeric_others lib (attr :: rest)
                           (Main.stringify_protected lib (attr :: rest)
                              (DataFrame_of (Main.data request)))) = true)
        by (rewrite converted_has_column; exact Hcol).
      destruct (encode_fallback_inv _ _ _ Hcol0 Hstep)
        as (p & u & Hsorted & _).
      rewrite converted_column in Hsorted
        by (first [left; reflexivity|exact Hcol]).
      apply sorted_length in Hsorted. cbn [length] in Hsorted.
      symmetry. exact Hsorted.
    + destruct (prepare_dataset_needs_preprocessing _ _ _ _ Hpre)
        as [e' He'].
      rewrite <- Hattrs in He'.
      exact (analyze_bias_fails_when_unprepared _ _ He').
Qed.

End Invariant.

(** ** Row counts *)

Section Rows.
Context (lib : library).

Lemma heights_column (n : nat) (df : DataFrame) c :
  List.Forall (fun col => length (snd col) = n) df ->
  has_column c df = true ->
  length (column df c) = n.
Proof.
  induction df as [|[k s] rest IH]; intros Hr Hc; [discriminate Hc|].
  apply List.Forall_cons_iff in Hr as [Hs Hrest].
  unfold has_column in Hc. simpl in *.
  destruct (String.eqb c k); [exact Hs|]. apply IH; assumption.
Qed.

Lemma rectangular_column (df : DataFrame) c :
  rectangular df -> has_column c df = true ->
  length (column df c) = nrows df.
Proof. apply heights_column. Qed.

Lemma heights_set_column (n : nat) c s (df : DataFrame) :
  length s = n ->
  List.Forall (fun col => length (snd col) = n) df ->
  List.Forall (fun col => length (snd col) = n) (set_column c s df).
Proof.
  intros Hlen. induction df as [|[k old] rest IH]; intros Hr; [constructor|].
  apply List.Forall_cons_iff in Hr as [Hk Hrest]. simpl.
  destruct (String.eqb c k).
  - constructor; [exact Hlen|exact Hrest].
  - constructor; [exact Hk|]. apply IH. exact Hrest.
Qed.

Lemma rectangular_map (f : string * Series -> string * Series)
  (df : DataFrame) :
  (forall c, length (snd (f c)) = length (snd c)) ->
  rectangular df ->
  rectangular (List.map f df) /\ nrows (List.map f df) = nrows df.
Proof.
  intros Hf Hr.
  assert (Hn : nrows (List.map f df) = nrows df).
  { destruct df as [|[k s] rest]; [reflexivity|]. simpl.
    specialize (Hf (k, s)). destruct (f (k, s)). exact Hf. }
  split; [|exact Hn]. unfold rectangular in *. rewrite Hn.
  apply List.Forall_map. eapply List.Forall_impl; [|exact Hr].
  intros c Hc. cbn beta. rewrite Hf. exact Hc.
Qed.

Lemma rectangular_set_column c s (df : DataFrame) :
  rectangular df -> length s = nrows df ->
  rectangular (set_column c s df) /\ nrows (set_column c s df) = nrows df.
Proof.
  intros Hr Hs.
  assert (Hn : nrows (set_column c s df) = nrows df).
  { destruct df as [|[k old] rest]; [reflexivity|]. simpl.
    destruct (String.eqb c k); [exact Hs|reflexivity]. }
  split; [|exact Hn]. unfold rectangular in *. rewrite Hn.
  apply heights_set_column; assumption.
Qed.

Lemma to_numeric_or_encode_length (s : Series) :
  length (Main.to_numeric_or_encode lib s) = length s.
Proof.
  unfold Main.to_numeric_or_encode.
  destruct (to_numeric lib s) as [s'|] eqn:E.
  - apply (to_numeric_length lib). exact E.
  - rewrite label_encode_length. apply List.length_map.
Qed.

Lemma rectangular_numeric_others attrs (df : DataFrame) :
  rectangular df ->
  rectangular (Main.numeric_others lib attrs df)
  /\ nrows (Main.numeric_others lib attrs df) = nrows df.
Proof.
  apply rectangular_map. intros [k s].
  destruct (negb _); [apply to_numeric_or_encode_length|reflexivity].
Qed.

Lemma rectangular_stringify attrs (df : DataFrame) :
  rectangular df ->
  rectangular (Main.stringify_protected lib attrs df)
  /\ nrows (Main.stringify_protected lib attrs df) = nrows df.
Proof.
  revert df. induction attrs as [|a rest IH]; intros df Hr; [auto|].
  unfold Main.stringify_protected in *. simpl.
  destruct (has_column a df) eqn:Ha; [|apply IH; exact Hr].
  destruct (rectangular_set_column a (Main.astype_str lib (column df a)) df Hr)
    as (Hr' & Hn').
  { unfold Main.astype_str. rewrite List.length_map.
    apply rectangular_column; assumption. }
  destruct (IH _ Hr') as (Hr'' & Hn''). split; [exact Hr''|congruence].
Qed.

Lemma length_select_mask (p : cell -> bool) (l s : Series) :
  length s = length l ->
  length (select (List.map p l) s) = length (List.filter p l).
Proof.
  revert s. induction l as [|x t IH]; intros s Hs.
  - destruct s; reflexivity.
  - destruct s as [|y s']; [discriminate Hs|]. simpl.
    injection Hs as Hs. destruct (p x); simpl; rewrite IH; auto.
Qed.

Lemma rectangular_select_rows (p : cell -> bool) (l : Series)
  (df : DataFrame) :
  rectangular df -> length l = nrows df -> df <> [] ->
  rectangular (select_rows (List.map p l) df)
  /\ nrows (select_rows (List.map p l) df) = length (List.filter p l).
Proof.
  intros Hr Hl Hne.
  assert (Hn : nrows (select_rows (List.map p l) df)
               = length (List.filter p l)).
  { destruct df as [|[k s] rest]; [congruence|]. simpl.
    apply length_select_mask. simpl in Hl. congruence. }
  split; [|exact Hn]. unfold rectangular in *. rewrite Hn.
  unfold select_rows. apply List.Forall_map.
  eapply List.Forall_impl; [|exact Hr].
  intros [k s] Hs. simpl in *. apply length_select_mask. congruence.
Qed.

End Rows.

(** ** Explicit mappings *)

Section ExplicitMapping.
Context (lib : library).
Open Scope float_scope.

Lemma filter_map_commute (f : cell -> cell) (p : cell -> bool) (l : Series) :
  List.filter p (List.map f l) = List.map f (List.filter (fun x => p (f x)) l).
Proof.
  induction l as [|x t IH]; [reflexivity|]. simpl.
  destruct (p (f x)); simpl; rewrite IH; reflexivity.
Qed.

Lemma filter_all (p : cell -> bool) (l : Series) :
  List.existsb (fun x => negb (p x)) l = false -> List.filter p l = l.
Proof.
  induction l as [|x t IH]; [reflexivity|]. simpl.
  destruct (p x); simpl; [|discriminate]. intros H. rewrite IH; auto.
Qed.

Lemma existsb_isna_map (f : cell -> cell) (l : Series) :
  List.existsb isna (List.map f l)
  = List.existsb (fun x => negb (not_na (f x))) l.
Proof.
  induction l as [|x t IH]; [reflexivity|]. simpl. rewrite IH.
  unfold not_na. rewrite Bool.negb_involutive. reflexivity.
Qed.

Lemma existsb_not_not_na (l : Series) :
  List.existsb (fun x => negb (not_na x)) l = List.existsb isna l.
Proof.
  induction l as [|x t IH]; [reflexivity|]. simpl. rewrite IH.
  unfold not_na. rewrite Bool.negb_involutive. reflexivity.
Qed.

Lemma select_all (p : cell -> bool) (l s : Series) :
  List.existsb (fun x => negb (p x)) l = false ->
  (length s <= length l)%nat ->
  select (List.map p l) s = s.
Proof.
  revert s. induction l as [|x t IH]; intros s Hall Hlen.
  - destruct s; [reflexivity|simpl in Hlen; lia].
  - destruct s as [|y s']; [reflexivity|]. simpl in *.
    destruct (p x); simpl in Hall; [|discriminate Hall].
    rewrite IH; [reflexivity|exact Hall|lia].
Qed.

Lemma column_missing (df : DataFrame) c :
  has_column c df = false -> column df c = [].
Proof.
  unfold has_column. induction df as [|[k s] rest IH]; [reflexivity|].
  simpl. destruct (String.eqb c k); [discriminate|]. exact IH.
Qed.

Lemma explicit_mapping_outcome (df : DataFrame) attr (gm : option mappings)
  (m : mapping) pv uv :
  rectangular df ->
  has_column attr df = true ->
  Main.mapping_for gm attr = Some m ->
  m !! "privileged" = Some pv ->
  m !! "unprivileged" = Some uv ->
  List.Forall is_str (column df attr) ->
  let code := Main.explicit_code (Main.as_list pv) (Main.as_list uv) in
  let keep := fun x => not_na (code x) in
  In (CNum 1) (List.map code (column df attr)) ->
  In (CNum 0) (List.map code (column df attr)) ->
  exists df',
    Main.preprocess_data lib df [attr] gm = Ok df'
    /\ column df' attr = List.map code (List.filter keep (column df attr))
    /\ nrows df' = length (List.filter keep (column df attr))
    /\ rectangular df'
    /\ columns df' = columns df
    /\ forall c, c <> attr ->
         column df' c
         = select (List.map keep (column df attr))
             (column (Main.numeric_others lib [attr] df) c).
Proof.
  intros Hr Hcol Hmap Hpv Huv Hstr code keep H1 H0.
  set (col := column df attr) in *.
  set (df2 := Main.numeric_others lib [attr]
                (Main.stringify_protected lib [attr] df)).
  assert (Hcol2 : has_column attr df2 = true)
    by (unfold df2; rewrite converted_has_column; exact Hcol).
  assert (Hc2 : column df2 attr = col).
  { unfold df2. rewrite converted_column by (first [left; reflexivity|exact Hcol]).
    apply astype_str_strings. exact Hstr. }
  assert (Hother : forall c, c <> attr ->
             column df2 c = column (Main.numeric_others lib [attr] df) c).
  { intros c Hc. unfold df2, Main.stringify_protected. simpl. rewrite Hcol.
    clear -Hc. induction df as [|[k s] rest IH]; [reflexivity|]. simpl.
    destruct (String.eqb attr k) eqn:Ek; simpl.
    - apply String.eqb_eq in Ek. subst k.
      rewrite String.eqb_refl. simpl.
      destruct (String.eqb c attr) eqn:Ec; [|reflexivity].
      apply String.eqb_eq in Ec. contradiction.
    - destruct (negb (String.eqb k attr || false)); simpl;
        destruct (String.eqb c k); first [reflexivity|exact IH]. }
  destruct (rectangular_stringify lib [attr] df Hr) as (Hr1 & Hn1).
  destruct (rectangular_numeric_others lib [attr] _ Hr1) as (Hr2 & Hn2).
  fold df2 in Hr2, Hn2.
  assert (Hlen : length col = nrows df2).
  { rewrite <- Hc2. apply rectangular_column; assumption. }
  set (coded := List.map code col) in *.
  assert (Hp : List.Forall plain coded).
  { apply List.Forall_forall. intros x Hx. apply List.in_map_iff in Hx.
    destruct Hx as (y & <- & _). apply explicit_code_plain. }
  destruct (rectangular_set_column attr coded df2 Hr2) as (Hr3 & Hn3).
  { unfold coded. rewrite List.length_map. exact Hlen. }
  assert (Hstep : forall df',
             df' = (if List.existsb isna coded
                    then select_rows (List.map not_na coded)
                           (set_column attr coded df2)
                    else set_column attr coded df2) ->
             column df' attr = List.filter not_na coded ->
             Main.preprocess_data lib df [attr] gm = Ok df').
  { intros df' Hdf' Hcolumn. unfold Main.preprocess_data. cbn zeta. fold df2.
    rewrite encode_protected_cons. unfold Main.encode_step.
    rewrite Hcol2, Hmap. unfold Main.encode_with_mapping, getitem.
    rewrite Hpv, Huv. cbn [bind]. rewrite Hc2. fold code. fold coded.
    rewrite (column_set_column_same _ _ _ Hcol2). fold not_na.
    assert (Hu : forall v, PrimFloat.eqb v v = true ->
                   In (CNum v) coded -> not_na (CNum v) = true ->
                   contains v (unique (List.filter not_na coded)) = true).
    { intros v Hv Hin Hnn. apply contains_intro; [exact Hv|].
      apply In_unique_plain.
      - apply List.Forall_forall. intros x Hx.
        apply List.filter_In in Hx as [Hx _].
        rewrite List.Forall_forall in Hp. apply Hp. exact Hx.
      - apply List.filter_In. split; assumption. }
    destruct (List.existsb isna coded) eqn:Hna; cbn [fst snd].
    - rewrite <- Hdf', Hcolumn.
      rewrite (Hu 1), (Hu 0) by (first [reflexivity|assumption]).
      reflexivity.
    - rewrite <- Hdf'.
      assert (Hf : List.filter not_na coded = coded).
      { apply filter_all. rewrite existsb_not_not_na. exact Hna. }
      rewrite <- Hf.
      rewrite (Hu 1), (Hu 0) by (first [reflexivity|assumption]).
      reflexivity. }
  assert (Hfm : List.filter not_na coded = List.map code (List.filter keep col)).
  { exact (filter_map_commute code not_na col). }
  destruct (List.existsb isna coded) eqn:Hna.
  - exists (select_rows (List.map not_na coded) (set_column attr coded df2)).
    assert (Hcolumn : column (select_rows (List.map not_na coded)
                               (set_column attr coded df2)) attr
                      = List.filter not_na coded).
    { rewrite column_select_rows, column_set_column_same by exact Hcol2.
      apply select_map_filter. }
    destruct (rectangular_select_rows not_na coded
                (set_column attr coded df2) Hr3) as (Hr4 & Hn4).
    { rewrite Hn3. unfold coded. rewrite List.length_map. exact Hlen. }
    { intros E. apply (f_equal columns) in E.
      rewrite columns_set_column in E. unfold has_column in Hcol2.
      rewrite E in Hcol2. discriminate Hcol2. }
    split; [apply Hstep; [reflexivity|exact Hcolumn]|].
    split; [rewrite Hcolumn; exact Hfm|].
    split; [rewrite Hn4, Hfm; apply List.length_map|].
    split; [exact Hr4|]. split.
    + rewrite columns_select_rows, columns_set_column. unfold df2.
      rewrite columns_numeric_others, columns_stringify. reflexivity.
    + intros c Hc.
      rewrite column_select_rows, column_set_column_other by exact Hc.
      unfold coded. rewrite List.map_map. rewrite Hother by exact Hc.
      reflexivity.
  - exists (set_column attr coded df2).
    assert (Hall : List.existsb (fun x => negb (keep x)) col = false).
    { unfold keep. rewrite <- existsb_isna_map. exact Hna. }
    assert (Hf : List.filter not_na coded = coded).
    { rewrite Hfm. rewrite (filter_all keep col Hall). reflexivity. }
    assert (Hcolumn : column (set_column attr coded df2) attr
                      = List.filter not_na coded).
    { rewrite column_set_column_same by exact Hcol2. symmetry. exact Hf. }
    split; [apply Hstep; [reflexivity|exact Hcolumn]|].
    split; [rewrite Hcolumn; exact Hfm|].
    split; [rewrite Hn3, (filter_all keep col Hall); symmetry; exact Hlen|].
    split; [exact Hr3|]. split.
    + rewrite columns_set_column. unfold df2.
      rewrite columns_numeric_others, columns_stringify. reflexivity.
    + intros c Hc. rewrite column_set_column_other by exact Hc.
      rewrite <- Hother by exact Hc. symmetry.
      apply select_all; [exact Hall|].
      destruct (has_column c df2) eqn:Hhas.
      * rewrite (rectangular_column df2 c Hr2 Hhas). lia.
      * rewrite (column_missing df2 c Hhas). simpl. lia.
Qed.

Lemma filter_complement_length (p : cell -> bool) (l : Series) :
  length (List.filter (fun x => negb (p x)) l)
  = (length l - length (List.filter p l))%nat.
Proof.
  assert (H : (length (List.filter (fun x => negb (p x)) l)
               + length (List.filter p l) = length l)%nat).
  { induction l as [|x t IH]; [reflexivity|]. simpl.
    destruct (p x); simpl; lia. }
  lia.
Qed.

(** C5: with the mapping privileged ["A"], unprivileged ["B", "C"] and a
    protected column that holds the values A, B, C and D, preprocessing
    succeeds; the rows whose value is D are removed from every column,
    the protected column of the remaining rows holds 1.0 for A and 0.0
    for B and C and nothing else, and the frame has as many rows as
    before less the number of rows with D. *)
Theorem explicit_mapping_drops_unmapped_rows (df : DataFrame) attr
  (gm : option mappings) (m : mapping) :
  rectangular df ->
  has_column attr df = true ->
  Main.mapping_for gm attr = Some m ->
  m !! "privileged" = Some (Multiple ["A"]) ->
  m !! "unprivileged" = Some (Multiple ["B"; "C"]) ->
  List.Forall
    (fun x => x = CStr "A" \/ x = CStr "B" \/ x = CStr "C" \/ x = CStr "D")
    (column df attr) ->
  In (CStr "A") (column df attr) ->
  In (CStr "B") (column df attr) \/ In (CStr "C") (column df attr) ->
  let is_D := fun x => py_eq x (CStr "D") in
  let not_D := fun x => negb (is_D x) in
  exists df',
    Main.preprocess_data lib df [attr] gm = Ok df'
    /\ column df' attr
       = List.map (fun x => if py_eq x (CStr "A") then CNum 1 else CNum 0)
           (List.filter not_D (column df attr))
    /\ List.Forall binary (column df' attr)
    /\ nrows df' = (nrows df - length (List.filter is_D (column df attr)))%nat
    /\ rectangular df'
    /\ forall c, c <> attr ->
         column df' c
         = select (List.map not_D (column df attr))
             (column (Main.numeric_others lib [attr] df) c).
Proof.
  intros Hr Hcol Hmap Hpv Huv Hvals HA HBC is_D not_D.
  set (col := column df attr) in *.
  set (code := Main.explicit_code (Main.as_list (Multiple ["A"]))
                 (Main.as_list (Multiple ["B"; "C"]))).
  assert (Hpoint : forall x, In x col ->
             not_na (code x) = not_D x
             /\ code x = (if py_eq x (CStr "A") then CNum 1 else CNum 0)
                \/ not_D x = false).
  { intros x Hx. rewrite List.Forall_forall in Hvals.
    destruct (Hvals x Hx) as [ -> | [ -> | [ -> | -> ] ] ];
      first [left; split; reflexivity | right; reflexivity]. }
  assert (Hkeep : forall x, In x col -> not_na (code x) = not_D x).
  { intros x Hx. rewrite List.Forall_forall in Hvals.
    destruct (Hvals x Hx) as [ -> | [ -> | [ -> | -> ] ] ]; reflexivity. }
  assert (Hstr : List.Forall is_str col).
  { eapply List.Forall_impl; [|exact Hvals].
    intros x [ -> | [ -> | [ -> | -> ] ] ]; exact I. }
  destruct (explicit_mapping_outcome df attr gm m _ _ Hr Hcol Hmap Hpv Huv
              Hstr) as (df' & Hok & Hcolumn & Hn & Hrect & _ & Hothers).
  { apply List.in_map_iff. exists (CStr "A"). split; [reflexivity|exact HA]. }
  { apply List.in_map_iff. destruct HBC as [HB|HC].
    - exists (CStr "B"). split; [reflexivity|exact HB].
    - exists (CStr "C"). split; [reflexivity|exact HC]. }
  fold col code in Hcolumn, Hn, Hothers.
  assert (Hfilter : List.filter (fun x => not_na (code x)) col
                    = List.filter not_D col).
  { apply List.filter_ext_in. exact Hkeep. }
  rewrite Hfilter in Hcolumn, Hn.
  assert (Hcolumn' :
            column df' attr
            = List.map (fun x => if py_eq x (CStr "A") then CNum 1 else CNum 0)
                (List.filter not_D col)).
  { rewrite Hcolumn. apply List.map_ext_in. intros x Hx.
    apply List.filter_In in Hx as [Hx HnD].
    destruct (Hpoint x Hx) as [[_ E]|E]; [exact E|congruence]. }
  exists df'. split; [exact Hok|]. split; [exact Hcolumn'|]. split.
  { rewrite Hcolumn'. apply List.Forall_forall. intros y Hy.
    apply List.in_map_iff in Hy. destruct Hy as (x & <- & _).
    destruct (py_eq x (CStr "A")); [left|right]; reflexivity. }
  split.
  { rewrite Hn. unfold not_D. rewrite filter_complement_length.
    rewrite <- (rectangular_column df attr Hr Hcol). reflexivity. }
  split; [exact Hrect|].
  intros c Hc. rewrite (Hothers c Hc). f_equal.
  apply List.map_ext_in. exact Hkeep.
Qed.

End ExplicitMapping.

(** ** The fallback rule *)

Section Fallback.
Context (lib : library).
Open Scope float_scope.

Lemma is_str_plain x : is_str x -> plain x.
Proof. destruct x; simpl; tauto. Qed.

Lemma sorted_pair (a b : string) :
  sorted [CStr a; CStr b]
  = Ok (if String.ltb b a then [CStr b; CStr a] else [CStr a; CStr b]).
Proof. simpl. destruct (String.ltb b a); reflexivity. Qed.

Lemma fallback_code_two (p u : string) x :
  p <> u -> x = CStr p \/ x = CStr u ->
  Main.fallback_code (CStr p) (CStr u) x
  = if py_eq x (CStr p) then CNum 1 else CNum 0.
Proof.
  intros Hne [ -> | -> ]; unfold Main.fallback_code; simpl.
  - rewrite String.eqb_refl. reflexivity.
  - destruct (String.eqb u p) eqn:E.
    + apply String.eqb_eq in E. congruence.
    + rewrite String.eqb_refl. reflexivity.
Qed.

Lemma two_elements (P U : cell) (l : list cell) :
  List.NoDup l -> In P l -> In U l -> P <> U ->
  (forall x, In x l -> x = P \/ x = U) ->
  l = [P; U] \/ l = [U; P].
Proof.
  intros Hnd HP HU Hne Hall.
  destruct l as [|a [|b [|c l]]].
  - destruct HP.
  - destruct HP as [<-|[]]. destruct HU as [<-|[]]. congruence.
  - apply List.NoDup_cons_iff in Hnd as [Hab _].
    assert (a <> b) by (intros ->; apply Hab; left; reflexivity).
    destruct (Hall a (or_introl eq_refl)) as [ -> | -> ];
      destruct (Hall b (or_intror (or_introl eq_refl))) as [ -> | -> ];
      first [congruence | left; reflexivity | right; reflexivity].
  - exfalso.
    apply List.NoDup_cons_iff in Hnd as [Ha Hnd].
    apply List.NoDup_cons_iff in Hnd as [Hb _].
    assert (Hab : a <> b) by (intros ->; apply Ha; left; reflexivity).
    assert (Hac : a <> c) by (intros ->; apply Ha; right; left; reflexivity).
    assert (Hbc : b <> c) by (intros ->; apply Hb; left; reflexivity).
    destruct (Hall a (or_introl eq_refl)) as [ -> | -> ];
      destruct (Hall b (or_intror (or_introl eq_refl))) as [ -> | -> ];
      destruct (Hall c (or_intror (or_intror (or_introl eq_refl))))
        as [ -> | -> ]; congruence.
Qed.

Lemma no_na_in_codes (f : cell -> bool) (l : Series) :
  List.existsb isna
    (List.map (fun x => if f x then CNum 1 else CNum 0) l) = false.
Proof.
  induction l as [|x t IH]; [reflexivity|]. simpl. rewrite IH.
  destruct (f x); reflexivity.
Qed.

Lemma fallback_accepts_two (df : DataFrame) attr (gm : option mappings)
  (p u : string) :
  has_column attr df = true ->
  Main.mapping_for gm attr = None ->
  let values := Main.astype_str lib (column df attr) in
  String.ltb p u = true ->
  In (CStr p) values -> In (CStr u) values ->
  (forall x, In x values -> x = CStr p \/ x = CStr u) ->
  exists df',
    Main.preprocess_data lib df [attr] gm = Ok df'
    /\ column df' attr
       = List.map (fun x => if py_eq x (CStr p) then CNum 1 else CNum 0)
           values.
Proof.
  intros Hcol Hmap values Hlt Hp Hu Hall.
  set (df2 := Main.numeric_others lib [attr]
                (Main.stringify_protected lib [attr] df)).
  assert (Hcol2 : has_column attr df2 = true)
    by (unfold df2; rewrite converted_has_column; exact Hcol).
  assert (Hc2 : column df2 attr = values).
  { unfold df2. apply converted_column; [left; reflexivity|exact Hcol]. }
  assert (Hne : p <> u).
  { intros ->. rewrite ltb_irrefl in Hlt. discriminate Hlt. }
  assert (Hplain : List.Forall plain values).
  { eapply List.Forall_impl; [|apply astype_str_is_str]. apply is_str_plain. }
  assert (Hsorted : sorted (unique values) = Ok [CStr p; CStr u]).
  { destruct (two_elements (CStr p) (CStr u) (unique values)) as [E|E].
    - apply NoDup_unique_plain. exact Hplain.
    - apply In_unique_plain; assumption.
    - apply In_unique_plain; assumption.
    - congruence.
    - intros x Hx. apply Hall. apply In_unique. exact Hx.
    - rewrite E, sorted_pair, (ltb_asym _ _ Hlt). reflexivity.
    - rewrite E, sorted_pair, Hlt. reflexivity. }
  set (coded := List.map
                  (fun x => if py_eq x (CStr p) then CNum 1 else CNum 0)
                  values).
  assert (Hcoded : List.map (Main.fallback_code (CStr p) (CStr u)) values
                   = coded).
  { apply List.map_ext_in. intros x Hx.
    apply fallback_code_two; [exact Hne|apply Hall; exact Hx]. }
  assert (Hpc : List.Forall plain coded).
  { apply List.Forall_forall. intros y Hy. apply List.in_map_iff in Hy.
    destruct Hy as (x & <- & _). destruct (py_eq x (CStr p)); simpl; auto. }
  assert (H1 : contains 1 (unique coded) = true).
  { apply contains_intro; [reflexivity|]. apply In_unique_plain; [exact Hpc|].
    apply List.in_map_iff. exists (CStr p). split; [|exact Hp].
    simpl. rewrite String.eqb_refl. reflexivity. }
  assert (H0 : contains 0 (unique coded) = true).
  { apply contains_intro; [reflexivity|]. apply In_unique_plain; [exact Hpc|].
    apply List.in_map_iff. exists (CStr u). split; [|exact Hu].
    simpl. destruct (String.eqb u p) eqn:E; [|reflexivity].
    apply String.eqb_eq in E. congruence. }
  exists (set_column attr coded df2). split.
  - unfold Main.preprocess_data. cbn zeta. fold df2.
    rewrite encode_protected_cons. unfold Main.encode_step.
    rewrite Hcol2, Hmap. unfold Main.encode_fallback.
    rewrite Hc2, Hsorted. cbn [bind length Nat.ltb Nat.leb List.nth].
    rewrite Hcoded. rewrite (column_set_column_same _ _ _ Hcol2).
    unfold coded at 1. rewrite no_na_in_codes. rewrite H1, H0. reflexivity.
  - apply column_set_column_same. exact Hcol2.
Qed.

End Fallback.

(** ** Batches *)

Section Batch.
Context (lib : library).
Open Scope float_scope.

Lemma calculate_bias_metrics_names (ds : dataset lib) p u metrics :
  Main.calculate_bias_metrics lib ds p u = Ok metrics ->
  exists md di,
    metrics = [("statistical_disparity", md); ("disparate_impact", di)].
Proof.
  unfold Main.calculate_bias_metrics, try_except.
  destruct (protected_attribute_names lib ds) as [|a rest];
    cbn [bind]; [discriminate|].
  destruct (BinaryLabelDatasetMetric lib ds _ _) as [m|e];
    cbn [bind]; [|discriminate].
  destruct (mean_difference lib m) as [md|e]; cbn [bind]; [|discriminate].
  destruct (disparate_impact lib m) as [di|e]; cbn [bind]; [|discriminate].
  intros H. injection H as <-. exists md, di. reflexivity.
Qed.

Lemma format_two_metrics md di :
  Main.format_results_for_output
    [("statistical_disparity", md); ("disparate_impact", di)]
  = Ok [Main.format_result "statistical_disparity" md 0.1;
        Main.format_result "disparate_impact" di 0.8].
Proof.
  assert (H1 : getitem Main.thresholds "statistical_disparity" = Ok 0.1)
    by reflexivity.
  assert (H2 : getitem Main.thresholds "disparate_impact" = Ok 0.8)
    by reflexivity.
  cbn [Main.format_results_for_output]. rewrite H1, H2. reflexivity.
Qed.

Lemma analyze_bias_ok_results (request : Main.BiasAnalysisRequest) response :
  Main.analyze_bias lib request = Ok response ->
  exists md di,
    Main.results response
    = [Main.format_result "statistical_disparity" md 0.1;
       Main.format_result "disparate_impact" di 0.8].
Proof.
  unfold Main.analyze_bias.
  destruct (Main.data request) as [|r0 rs]; [discriminate|].
  destruct (Main.protected_attributes request) as [|a0 rest]; [discriminate|].
  destruct (Main.create_dataset lib _ _ _) as [ds|e];
    cbn [try_except bind try_except_reraise_http is_HTTPException];
    [|discriminate].
  match goal with
  | |- context [try_except ?m _] => destruct m as [groups|e]
  end; cbn [try_except bind try_except_reraise_http is_HTTPException];
    [|discriminate].
  destruct (Main.calculate_bias_metrics lib ds _ _) as [metrics|e] eqn:Hm;
    cbn [try_except bind try_except_reraise_http is_HTTPException];
    [|discriminate].
  destruct (calculate_bias_metrics_names _ _ _ _ Hm) as (md & di & ->).
  rewrite format_two_metrics.
  cbn [try_except bind try_except_reraise_http is_HTTPException].
  intros H. injection H as <-. exists md, di. reflexivity.
Qed.


(** C2 (what the code does): a data file that cannot be read ends the
    whole batch.  When the files before it gave their results and the
    reader raises [e] on it, the batch as a whole raises [e]: nothing is
    returned for any file, whatever follows in the archive. *)
Theorem batch_aborts_on_unreadable_file pa gm before fname content after e :
  Main.is_data_file fname = true ->
  Main.read_entry lib fname content = Err e ->
  (exists rs, Main.analyze_entries lib pa gm before = Ends (Ok rs)) ->
  Main.analyze_entries lib pa gm (before ++ (fname, content) :: after)%list
  = Ends (Err e).
Proof.
  intros Hdata Hread. induction before as [|[f c] rest IH]; intros [rs Hrs].
  - simpl. unfold Main.analyze_entry. rewrite Hdata, Hread. reflexivity.
  - simpl in *.
    destruct (Main.analyze_entry lib pa gm f c) as [[r1|e1]|];
      [|discriminate Hrs|discriminate Hrs].
    destruct (Main.analyze_entries lib pa gm rest) as [[r2|e2]|];
      [|discriminate Hrs|discriminate Hrs].
    rewrite IH by (eexists; reflexivity). reflexivity.
Qed.

End Batch.

(** * Worked instances *)

Section Instances.
Open Scope float_scope.

(** C3 (as stated, refuted): on a column that reads b, a, b the fallback
    of [simple_detect_groups] names "b" the privileged value, although
    "a" is the lexicographically smaller one. *)
Lemma group_detection_fallback_not_smallest :
  In [Lit "Using fallback mapping - Privileged: "; FCell (CStr "b");
      Lit ", Unprivileged: "; FCell (CStr "a")]
    (fst (Main.simple_detect_groups Sample.frame ["g"] None))
  /\ String.ltb "a" "b" = true.
Proof.
  split; [|reflexivity].
  right. right. left. reflexivity.
Qed.

(** Group detection on the column b, a, b. *)
Lemma simple_detect_groups_constant_witness :
  snd (Main.simple_detect_groups Sample.frame ["g"] None)
  = Ok ([{["g" := CNum 1]}], [{["g" := CNum 0]}])
  /\ (exists attr rest,
         ["g"] = attr :: rest
         /\ ([{["g" := CNum 1]}] : list group) = [{[attr := CNum 1]}]
         /\ ([{["g" := CNum 0]}] : list group) = [{[attr := CNum 0]}]).
Proof.
  assert (H : snd (Main.simple_detect_groups Sample.frame ["g"] None)
              = Ok ([{["g" := CNum 1]}], [{["g" := CNum 0]}]))
    by reflexivity.
  split; [exact H|].
  exact (proj1 (simple_detect_groups_constant Sample.lib Sample.frame ["g"]
                  None _ _ H)).
Defined.

(** The column A, D, B, C, D: two rows go, three stay. *)
Lemma explicit_mapping_drops_unmapped_rows_witness :
  rectangular Sample.frame_ABCD
  /\ has_column "g" Sample.frame_ABCD = true
  /\ Main.mapping_for Sample.mappings_ABC "g" = Some Sample.mapping_ABC
  /\ exists df',
       Main.preprocess_data Sample.lib Sample.frame_ABCD ["g"]
         Sample.mappings_ABC = Ok df'
       /\ column df' "g" = [CNum 1; CNum 0; CNum 0]
       /\ List.Forall binary (column df' "g")
       /\ nrows df' = (5 - 2)%nat
       /\ rectangular df'.
Proof.
  assert (Hr : rectangular Sample.frame_ABCD) by (repeat constructor).
  assert (Hcol : has_column "g" Sample.frame_ABCD = true) by reflexivity.
  assert (Hmap : Main.mapping_for Sample.mappings_ABC "g"
                 = Some Sample.mapping_ABC) by reflexivity.
  split; [exact Hr|]. split; [exact Hcol|]. split; [exact Hmap|].
  destruct (explicit_mapping_drops_unmapped_rows Sample.lib Sample.frame_ABCD
              "g" Sample.mappings_ABC Sample.mapping_ABC Hr Hcol Hmap)
    as (df' & Hok & Hcolumn & Hbin & Hn & Hrect & _).
  - reflexivity.
  - reflexivity.
  - repeat (apply List.Forall_cons; [auto 6|]). apply List.Forall_nil.
  - left. reflexivity.
  - left. right. right. left. reflexivity.
  - exists df'. split; [exact Hok|]. split; [exact Hcolumn|].
    split; [exact Hbin|]. split; [exact Hn|exact Hrect].
Defined.

(** A request over the values a, b, c. *)
Lemma analysis_rejects_more_than_two_values_witness :
  Main.protected_attributes Sample.request_abc = ["g"]
  /\ Main.mapping_for (Main.group_mappings Sample.request_abc) "g" = None
  /\ has_column "g" (DataFrame_of (Main.data Sample.request_abc)) = true
  /\ (2 < length (unique (Main.astype_str Sample.lib
                           (column (DataFrame_of
                                      (Main.data Sample.request_abc)) "g"))))%nat
  /\ exists detail,
       Main.analyze_bias Sample.lib Sample.request_abc
       = Err (HTTPException 400 detail)
       /\ In (FStr "g") detail.
Proof.
  assert (Ha : Main.protected_attributes Sample.request_abc = ["g"])
    by reflexivity.
  assert (Hm : Main.mapping_for (Main.group_mappings Sample.request_abc) "g"
               = None) by reflexivity.
  assert (Hc : has_column "g" (DataFrame_of (Main.data Sample.request_abc))
               = true) by reflexivity.
  assert (Hl : (2 < length (unique (Main.astype_str Sample.lib
                              (column (DataFrame_of
                                         (Main.data Sample.request_abc))
                                 "g"))))%nat) by (vm_compute; lia).
  split; [exact Ha|]. split; [exact Hm|]. split; [exact Hc|].
  split; [exact Hl|].
  destruct (analysis_rejects_more_than_two_values Sample.lib
              Sample.request_abc "g" [] Ha Hm Hc Hl) as (detail & Herr & Hmsg).
  exists detail. split; [exact Herr|].
  destruct Hmsg as (prefix & values & _ & _ & Hattr & _).
  - vm_compute. lia.
  - exists "label". reflexivity.
  - exact Hattr.
Defined.

(** An archive with an empty [a.csv] before a readable [b.csv]. *)
Lemma batch_aborts_on_unreadable_file_witness :
  Main.is_data_file "a.csv" = true
  /\ Main.read_entry Sample.lib "a.csv" EmptyString
     = Err (Exception "EmptyDataError" [Lit "No columns to parse from file"])
  /\ Main.analyze_entries Sample.lib "g" None [("input.zip", "PK")]
     = Ends (Ok [])
  /\ Main.analyze_entries Sample.lib "g" None
       [("input.zip", "PK"); ("a.csv", EmptyString); ("b.csv", "g,label")]
     = Ends (Err (Exception "EmptyDataError"
                    [Lit "No columns to parse from file"]))
  /\ Main.analyze_folder Sample.lib "batch.ZIP" "PK" "g" None
     = Ends (Err (Exception "EmptyDataError"
                    [Lit "No columns to parse from file"])).
Proof.
  assert (Hd : Main.is_data_file "a.csv" = true) by reflexivity.
  assert (Hr : Main.read_entry Sample.lib "a.csv" EmptyString
               = Err (Exception "EmptyDataError"
                        [Lit "No columns to parse from file"]))
    by reflexivity.
  assert (Hb : Main.analyze_entries Sample.lib "g" None [("input.zip", "PK")]
               = Ends (Ok [])) by reflexivity.
  split; [exact Hd|]. split; [exact Hr|]. split; [exact Hb|].
  assert (He : Main.analyze_entries Sample.lib "g" None
                 [("input.zip", "PK"); ("a.csv", EmptyString);
                  ("b.csv", "g,label")]
               = Ends (Err (Exception "EmptyDataError"
                              [Lit "No columns to parse from file"]))).
  { apply (batch_aborts_on_unreadable_file Sample.lib "g" None
             [("input.zip", "PK")] "a.csv" EmptyString [("b.csv", "g,label")]
             _ Hd Hr).
    exists []. exact Hb. }
  split; [exact He|]. exact He.
Defined.



(** A request that passes: the frame handed on has the columns of the
    request and a binary column.  A request whose mapping leaves the
    unprivileged group empty: status 400. *)
Lemma protected_column_is_binary_witness :
  (exists a,
     Main.prepare_dataset Sample.lib (Main.data Sample.request_ba) ["g"] None
     = Ok a
     /\ columns (Main.frame a) = ["g"; "label"]
     /\ List.Forall binary (column (Main.frame a) "g")
     /\ In (CNum 1) (column (Main.frame a) "g")
     /\ In (CNum 0) (column (Main.frame a) "g"))
  /\ exists d,
       Main.analyze_bias Sample.lib SampleMore.request_one_sided
       = Err (HTTPException 400 d).
Proof.
  split.
  - destruct (protected_column_is_binary Sample.lib Sample.request_ba)
      as (Hok & _).
    cbn zeta in Hok.
    destruct (Main.prepare_dataset Sample.lib (Main.data Sample.request_ba)
                (Main.protected_attributes Sample.request_ba)
                (Main.group_mappings Sample.request_ba)) as [a|e] eqn:Hprep.
    + destruct (Hok a eq_refl) as (Hbin & Hboth & Hcols & _).
      exists a. split; [exact Hprep|]. split; [exact Hcols|]. split.
      * apply Hbin; [left; reflexivity|].
        vm_compute in Hprep. injection Hprep as <-. reflexivity.
      * apply Hboth.
        vm_compute in Hprep. injection Hprep as <-. reflexivity.
    + vm_compute in Hprep. discriminate Hprep.
  - destruct (protected_column_is_binary Sample.lib
                SampleMore.request_one_sided)
      as (_ & _ & _ & _ & _ & Hempty & _).
    cbn zeta in Hempty.
    destruct (Hempty "g" [] (<["privileged" := Single "a"]>
                               (<["unprivileged" := Single "z"]> ∅))
                (Single "a") (Single "z") eq_refl eq_refl eq_refl eq_refl
                eq_refl) as (_ & Hfail).
    + intros [_ H0]. vm_compute in H0. intuition discriminate.
    + exact Hfail.
Defined.

(** A run over the sample feed: one record per category, from the
    recent entry. *)
Lemma scraper_skips_undated_entries_witness :
  snd (Scraper.scrape_model_updates (fun t : Z => Ok t) (fun s => s)
         Sample.feed Sample.overflow_text Sample.now Sample.conn 7 5)
  = Ok [Sample.scraped "security"; Sample.scraped "feature"]
  /\ forall r,
      In r [Sample.scraped "security"; Sample.scraped "feature"] ->
      exists url e t published,
        In e (Sample.feed url)
        /\ Scraper.published_parsed e = Some t
        /\ Ok t = Ok published
        /\ (Sample.now - 7 * Scraper.microseconds_per_day <= published)%Z
        /\ Scraper.update_date r = published
        /\ Scraper.link e = Some (Scraper.source_url r)
        /\ Scraper.title e = Some (Scraper.u_title r).
Proof.
  assert (H : snd (Scraper.scrape_model_updates (fun t : Z => Ok t)
                     (fun s => s) Sample.feed Sample.overflow_text Sample.now
                     Sample.conn 7 5)
              = Ok [Sample.scraped "security"; Sample.scraped "feature"])
    by reflexivity.
  split; [exact H|]. intros r Hin.
  exact (proj2 (scraper_skips_undated_entries (fun t : Z => Ok t)
                  (fun s => s) Sample.feed Sample.overflow_text Sample.now
                  Sample.conn 7 5) _ r H Hin).
Defined.

(** The whole pipeline on the sample request: two formatted metrics. *)
Example analyze_bias_sample :
  exists response,
    Main.analyze_bias Sample.lib Sample.request_ba = Ok response
    /\ Main.results response
       = [Main.format_result "statistical_disparity" 0 0.1;
          Main.format_result "disparate_impact" 1 0.8].
Proof. eexists. split; reflexivity. Qed.

End Instances.

(** * Further properties *)

(** ** Thresholds and statuses *)

Section Statuses.
Open Scope float_scope.

Lemma ltb_nan_right x : PrimFloat.ltb x nan = false.
Proof.
  rewrite FloatAxioms.ltb_spec. change (Prim2SF nan) with S754_nan.
  unfold SFltb. destruct (Prim2SF x); reflexivity.
Qed.

Lemma ltb_nan_left x : PrimFloat.ltb nan x = false.
Proof. rewrite FloatAxioms.ltb_spec. reflexivity. Qed.

Lemma leb_ltb_or_eqb x y :
  PrimFloat.leb x y = PrimFloat.ltb x y || PrimFloat.eqb x y.
Proof.
  rewrite FloatAxioms.leb_spec, FloatAxioms.ltb_spec, FloatAxioms.eqb_spec.
  unfold SFleb, SFltb, SFeqb.
  destruct (SFcompare (Prim2SF x) (Prim2SF y)) as [[]|]; reflexivity.
Qed.

(** Only 0.8 itself compares equal to 0.8. *)
Lemma eqb_point_eight value : PrimFloat.eqb 0.8 value = true -> value = 0.8.
Proof.
  rewrite FloatAxioms.eqb_spec. intros H. apply Prim2SF_inj.
  change (Prim2SF 0.8) with (S754_finite false 7205759403792794 (-53)) in *.
  unfold SFeqb, SFcompare in H.
  destruct (Prim2SF value) as [s|s| |s m e];
    [destruct s; discriminate H | destruct s; discriminate H
    | discriminate H | ].
  destruct s; [discriminate H|].
  destruct (Z.compare (-53) e) eqn:Ee; try discriminate H.
  apply Z.compare_eq in Ee. subst e.
  destruct (Pos.compare_cont Eq 7205759403792794 m) eqn:Em;
    try discriminate H.
  apply Pos.compare_eq in Em. subst m. reflexivity.
Qed.

Lemma main_thresholds_names name :
  is_Some (Main.thresholds !! name)
  <-> name = "statistical_disparity" \/ name = "disparate_impact"
      \/ name = "equal_opportunity".
Proof.
  unfold Main.thresholds. rewrite !lookup_insert, lookup_empty.
  repeat case_decide; subst; split; intros Hs;
    first [ tauto | eexists; reflexivity
          | destruct Hs as [x Hx]; discriminate Hx
          | destruct Hs as [ -> | [ -> | -> ] ]; congruence ].
Qed.

Lemma utils_threshold_other name :
  name <> "disparate_impact" ->
  default 0.1 (Utils.thresholds !! name) = 0.1.
Proof.
  intros Hne. unfold Utils.thresholds. rewrite !lookup_insert, lookup_empty.
  repeat case_decide; subst; first [reflexivity | congruence].
Qed.

Lemma formatter_known (metrics : list (string * float)) results :
  Main.format_results_for_output metrics = Ok results ->
  forall name score, In (name, score) metrics ->
    is_Some (Main.thresholds !! name).
Proof.
  revert results. induction metrics as [|[n s] rest IH]; intros results H;
    [intros ? ? []|].
  simpl in H. unfold getitem in H.
  destruct (Main.thresholds !! n) as [thr|] eqn:Hn; [|discriminate H].
  cbn [bind] in H.
  destruct (Main.format_results_for_output rest) as [rs|e]; [|discriminate H].
  intros name score [E|Hin].
  - injection E as <- <-. eexists. exact Hn.
  - exact (IH rs eq_refl name score Hin).
Qed.

(** X1: the formatter of the service returns exactly when every metric
    is named statistical_disparity, disparate_impact or
    equal_opportunity; otherwise it raises [KeyError] for the first
    metric with another name, and no entry is returned. *)
Theorem main_formatter_rejects_unknown_metric
  (metrics : list (string * float)) :
  ((exists results, Main.format_results_for_output metrics = Ok results)
   <-> forall name score, In (name, score) metrics ->
         name = "statistical_disparity" \/ name = "disparate_impact"
         \/ name = "equal_opportunity")
  /\ forall before name score after,
      metrics = (before ++ (name, score) :: after)%list ->
      (forall n s, In (n, s) before ->
         n = "statistical_disparity" \/ n = "disparate_impact"
         \/ n = "equal_opportunity") ->
      ~ (name = "statistical_disparity" \/ name = "disparate_impact"
         \/ name = "equal_opportunity") ->
      Main.format_results_for_output metrics = Err (KeyError name).
Proof.
  split.
  - split.
    + intros [results H] name score Hin.
      apply main_thresholds_names. exact (formatter_known _ _ H _ _ Hin).
    + intros Hall. apply main_formatter_returns. intros name score Hin.
      apply main_thresholds_names. exact (Hall _ _ Hin).
  - intros before name score after -> Hbefore Hname.
    induction before as [|[n s] rest IH].
    + simpl. unfold getitem.
      destruct (Main.thresholds !! name) as [thr|] eqn:E; [|reflexivity].
      exfalso. apply Hname. apply main_thresholds_names. eexists. exact E.
    + simpl. unfold getitem.
      destruct (proj2 (main_thresholds_names n)
                  (Hbefore n s (or_introl eq_refl))) as [thr ->].
      cbn [bind]. rewrite IH; [reflexivity|].
      intros n' s' Hin. apply (Hbefore n' s'). right. exact Hin.
Qed.

(** X2: a NaN score is rated "fail" by both formatters, for every
    metric name and every threshold, and the service reports it with the
    null score.  An infinite disparate impact is rated "pass" by the
    service, again with the null score, and "fail" by [Utils]. *)
Theorem nan_and_infinite_scores (name : string) (threshold : float) :
  Main.determine_metric_status nan threshold name = "fail"
  /\ Main.format_result name nan threshold !! "score" = Some JNull
  /\ Main.format_result name nan threshold !! "status" = Some (JStr "fail")
  /\ fst (Utils.determine_metric_status nan name) = "fail"
  /\ Main.format_result "disparate_impact" infinity 0.8 !! "score"
     = Some JNull
  /\ Main.format_result "disparate_impact" infinity 0.8 !! "status"
     = Some (JStr "pass")
  /\ fst (Utils.determine_metric_status infinity "disparate_impact") = "fail".
Proof.
  assert (Hmain : Main.determine_metric_status nan threshold name = "fail").
  { unfold Main.determine_metric_status.
    change (PrimFloat.abs nan) with nan.
    rewrite ltb_nan_right, ltb_nan_left. destruct (String.eqb _ _); reflexivity. }
  split; [exact Hmain|]. split; [apply format_result_score|]. split.
  { unfold Main.format_result.
    rewrite !lookup_insert_ne by discriminate.
    rewrite lookup_insert_eq, Hmain. reflexivity. }
  split.
  { unfold Utils.determine_metric_status. cbn [fst].
    change (PrimFloat.abs nan) with nan. rewrite ltb_nan_left.
    destruct (String.eqb _ _); reflexivity. }
  repeat split; reflexivity.
Qed.

(** X3: how the two disparate-impact rules differ.  For a value above
    0.8 the two formatters agree exactly when the value is at most 1.2;
    for any other value they agree exactly when the value is not equal
    to 0.8.  For every other metric name [Utils] uses the threshold 0.1
    and gives the status the service gives with that threshold. *)
Theorem formatter_variants_compared (value : float) :
  (PrimFloat.ltb 0.8 value = true ->
   (Main.determine_metric_status value 0.8 "disparate_impact"
    = fst (Utils.determine_metric_status value "disparate_impact")
    <-> PrimFloat.leb value 1.2 = true))
  /\ (PrimFloat.ltb 0.8 value = false ->
      (Main.determine_metric_status value 0.8 "disparate_impact"
       = fst (Utils.determine_metric_status value "disparate_impact")
       <-> PrimFloat.eqb 0.8 value = false))
  /\ forall name,
      name <> "disparate_impact" ->
      Utils.determine_metric_status value name
      = (Main.determine_metric_status value 0.1 name, 0.1).
Proof.
  split; [|split].
  - intros Hlt. unfold Main.determine_metric_status,
      Utils.determine_metric_status. cbn [fst String.eqb Ascii.eqb Bool.eqb].
    rewrite leb_ltb_or_eqb, Hlt. cbn [orb andb].
    destruct (PrimFloat.leb value 1.2); split; intros H;
      first [reflexivity | discriminate H].
  - intros Hlt. unfold Main.determine_metric_status,
      Utils.determine_metric_status. cbn [fst String.eqb Ascii.eqb Bool.eqb].
    rewrite leb_ltb_or_eqb, Hlt. cbn [orb].
    destruct (PrimFloat.eqb 0.8 value) eqn:Heq; cbn [andb].
    + rewrite (eqb_point_eight value Heq). split; discriminate.
    + split; reflexivity.
  - intros name Hne. unfold Main.determine_metric_status,
      Utils.determine_metric_status.
    rewrite (utils_threshold_other name Hne).
    destruct (String.eqb_spec name "disparate_impact"); [contradiction|].
    reflexivity.
Qed.

End Statuses.

(** ** Group detection and request validation *)

Section Validation.
Context (lib : library).

(** X4: [simple_detect_groups] fails with status 400 only, and it
    succeeds exactly when there is a first protected attribute, it is a
    column, and either its mapping has both keys or, without a mapping,
    the column has at least two distinct values.  Neither more than two
    distinct values nor a mapping whose values do not occur in the data
    make it fail. *)
Theorem simple_detect_groups_outcome (df : DataFrame) (attrs : list string)
  (gm : option mappings) :
  (forall e, snd (Main.simple_detect_groups df attrs gm) = Err e ->
     exists detail, e = HTTPException 400 detail)
  /\ ((exists groups, snd (Main.simple_detect_groups df attrs gm) = Ok groups)
      <-> exists attr rest,
            attrs = attr :: rest
            /\ has_column attr df = true
            /\ match Main.mapping_for gm attr with
               | Some m =>
                   is_Some (m !! "privileged") /\ is_Some (m !! "unprivileged")
               | None => (2 <= length (unique (column df attr)))%nat
               end).
Proof.
  unfold Main.simple_detect_groups.
  destruct attrs as [|attr rest].
  { split.
    - intros e H. injection H as <-. eexists. reflexivity.
    - split; [intros [g H]; discriminate H|].
      intros (a & r & H & _). discriminate H. }
  destruct (has_column attr df) eqn:Hcol; cbn [negb].
  2:{ split.
      - intros e H. injection H as <-. eexists. reflexivity.
      - split; [intros [g H]; discriminate H|].
        intros (a & r & H & Hc & _). injection H as <- <-. congruence. }
  destruct (Main.mapping_for gm attr) as [m|] eqn:Hmap.
  - destruct (m !! "privileged") as [pv|] eqn:Hp;
      [destruct (m !! "unprivileged") as [uv|] eqn:Hu|].
    + split; [intros e H; discriminate H|].
      split; [|intros _; eexists; reflexivity].
      intros _. exists attr, rest. rewrite Hmap, Hp, Hu.
      repeat split; eauto.
    + split; [intros e H; injection H as <-; eexists; reflexivity|].
      split; [intros [g H]; discriminate H|].
      intros (a & r & H & _ & Hm). injection H as <- <-.
      rewrite Hmap, Hu in Hm. destruct Hm as [_ [x Hx]]. discriminate Hx.
    + split; [intros e H; injection H as <-; eexists; reflexivity|].
      split; [intros [g H]; discriminate H|].
      intros (a & r & H & _ & Hm). injection H as <- <-.
      rewrite Hmap, Hp in Hm. destruct Hm as [[x Hx] _]. discriminate Hx.
  - destruct (length (unique (column df attr)) <? 2)%nat eqn:Hlen.
    + split; [intros e H; injection H as <-; eexists; reflexivity|].
      split; [intros [g H]; discriminate H|].
      intros (a & r & H & _ & Hm). injection H as <- <-.
      rewrite Hmap in Hm. apply Nat.ltb_lt in Hlen. lia.
    + split; [intros e H; discriminate H|].
      split; [|intros _; eexists; reflexivity].
      intros _. exists attr, rest. rewrite Hmap.
      apply Nat.ltb_ge in Hlen. repeat split; assumption.
Qed.

(** X5: what [analyze_bias] answers to a malformed request, before any
    library is called: no rows, no protected attribute, fewer than two
    columns, or none of the label columns. *)
Theorem analyze_bias_validation (request : Main.BiasAnalysisRequest) :
  (Main.data request = [] ->
   Main.analyze_bias lib request
   = Err (HTTPException 400 [Lit "Empty dataset provided"]))
  /\ (Main.data request <> [] ->
      Main.protected_attributes request = [] ->
      Main.analyze_bias lib request
      = Err (HTTPException 400 [Lit "No protected attributes specified"]))
  /\ (Main.data request <> [] ->
      Main.protected_attributes request <> [] ->
      (length (columns (DataFrame_of (Main.data request))) < 2)%nat ->
      Main.analyze_bias lib request
      = Err (HTTPException 400
               [Lit "Error creating dataset: "; FInt 400; Lit ": ";
                Lit "Dataset must contain at least two columns"]))
  /\ (Main.data request <> [] ->
      Main.protected_attributes request <> [] ->
      (2 <= length (columns (DataFrame_of (Main.data request))))%nat ->
      (forall c, In c Main.LABEL_CANDIDATES ->
         has_column c (DataFrame_of (Main.data request)) = false) ->
      Main.analyze_bias lib request
      = Err (HTTPException 400
               [Lit "Error creating dataset: "; FInt 400; Lit ": ";
                Lit "Error detecting label column: ";
                Lit "No label column found. Expected one of: ";
                FStrs ["label"; "true_label"; "target"]])).
Proof.
  split; [|split; [|split]].
  - intros Hd. unfold Main.analyze_bias. rewrite Hd. reflexivity.
  - intros Hd Ha. unfold Main.analyze_bias. rewrite Ha.
    destruct (Main.data request); [congruence|reflexivity].
  - intros Hd Ha Hlen.
    rewrite (analyze_bias_dataset_error lib request
               [Lit "Dataset must contain at least two columns"] Hd Ha);
      [reflexivity|].
    unfold Main.prepare_dataset.
    apply Nat.ltb_lt in Hlen. rewrite Hlen. reflexivity.
  - intros Hd Ha Hlen Hnone.
    rewrite (analyze_bias_dataset_error lib request
               [Lit "Error detecting label column: ";
                Lit "No label column found. Expected one of: ";
                FStrs ["label"; "true_label"; "target"]] Hd Ha);
      [reflexivity|].
    unfold Main.prepare_dataset.
    apply Nat.ltb_ge in Hlen. rewrite Hlen.
    unfold Main.find_label_column. simpl List.find.
    rewrite (Hnone "label"), (Hnone "true_label"), (Hnone "target")
      by (simpl; tauto).
    reflexivity.
Qed.

End Validation.

(** ** Rows and columns through the preparation *)

Section Preparation.
Context (lib : library).
Open Scope float_scope.

Lemma encode_step_rows gm attr (df df' : DataFrame) :
  rectangular df ->
  Main.encode_step gm attr df = Ok df' ->
  rectangular df'
  /\ (nrows df' <= nrows df)%nat
  /\ (Main.mapping_for gm attr = None -> nrows df' = nrows df).
Proof.
  intros Hr. unfold Main.encode_step.
  destruct (has_column attr df) eqn:Hcol.
  2:{ intros H. injection H as <-. auto. }
  destruct (Main.mapping_for gm attr) as [m|]; intros H.
  - destruct (encode_with_mapping_inv _ _ _ _ Hcol H)
      as (pv & uv & _ & _ & Hdf & _). cbn zeta in Hdf.
    set (coded := List.map _ (column df attr)) in *.
    assert (Hlen : length coded = nrows df).
    { unfold coded. rewrite List.length_map.
      apply rectangular_column; assumption. }
    destruct (rectangular_set_column attr coded df Hr Hlen) as (Hr1 & Hn1).
    destruct (List.existsb isna coded); subst df'.
    + destruct (rectangular_select_rows not_na coded
                  (set_column attr coded df) Hr1) as (Hr2 & Hn2).
      { congruence. }
      { intros E. apply (f_equal columns) in E.
        rewrite columns_set_column in E. unfold has_column in Hcol.
        rewrite E in Hcol. discriminate Hcol. }
      split; [exact Hr2|]. split; [|discriminate].
      rewrite Hn2, <- Hlen. apply List.filter_length_le.
    + split; [exact Hr1|]. split; [lia|discriminate].
  - destruct (encode_fallback_inv _ _ _ Hcol H) as (p & u & _ & Hdf & _).
    cbn zeta in Hdf. subst df'.
    destruct (rectangular_set_column attr
                (List.map (Main.fallback_code p u) (column df attr)) df Hr)
      as (Hr1 & Hn1).
    { rewrite List.length_map. apply rectangular_column; assumption. }
    split; [exact Hr1|]. split; [lia|]. intros _. exact Hn1.
Qed.

Lemma encode_protected_rows gm attrs (df df' : DataFrame) :
  rectangular df ->
  Main.encode_protected gm attrs df = Ok df' ->
  rectangular df'
  /\ (nrows df' <= nrows df)%nat
  /\ ((forall attr, In attr attrs -> Main.mapping_for gm attr = None) ->
      nrows df' = nrows df).
Proof.
  revert df. induction attrs as [|attr rest IH]; intros df Hr H.
  - injection H as <-. auto.
  - rewrite encode_protected_cons in H.
    destruct (Main.encode_step gm attr df) as [df1|e] eqn:Hstep;
      [|discriminate H].
    cbn [bind] in H.
    destruct (encode_step_rows _ _ _ _ Hr Hstep) as (Hr1 & Hle1 & Heq1).
    destruct (IH _ Hr1 H) as (Hr2 & Hle2 & Heq2).
    split; [exact Hr2|]. split; [lia|].
    intros Hnone. rewrite Heq2, Heq1.
    + reflexivity.
    + apply Hnone. left. reflexivity.
    + intros a Ha. apply Hnone. right. exact Ha.
Qed.

Lemma preprocess_rows (df df' : DataFrame) attrs gm :
  rectangular df ->
  Main.preprocess_data lib df attrs gm = Ok df' ->
  rectangular df'
  /\ (nrows df' <= nrows df)%nat
  /\ ((forall attr, In attr attrs -> Main.mapping_for gm attr = None) ->
      nrows df' = nrows df).
Proof.
  intros Hr. unfold Main.preprocess_data, try_except. cbn zeta.
  destruct (Main.encode_protected gm attrs _) as [df1|e] eqn:H;
    [|discriminate].
  intros E. injection E as <-.
  destruct (rectangular_stringify lib attrs df Hr) as (Hr1 & Hn1).
  destruct (rectangular_numeric_others lib attrs _ Hr1) as (Hr2 & Hn2).
  destruct (encode_protected_rows _ _ _ _ Hr2 H) as (Hr3 & Hle & Heq).
  split; [exact Hr3|]. split; [lia|].
  intros Hnone. rewrite (Heq Hnone). lia.
Qed.

(** The columns outside the protected attributes after the first two
    loops. *)
Lemma converted_other_column attrs (df : DataFrame) c :
  ~ In c attrs -> has_column c df = true ->
  column (Main.numeric_others lib attrs
            (Main.stringify_protected lib attrs df)) c
  = Main.to_numeric_or_encode lib (column df c).
Proof.
  intros Hnot Hcol.
  assert (Hs : forall d : DataFrame, has_column c d = true ->
             column (Main.numeric_others lib attrs d) c
             = Main.to_numeric_or_encode lib (column d c)).
  { clear Hcol. intros d. unfold has_column.
    induction d as [|[k s] rest IH]; [discriminate|]. intros Hc.
    change (column
              ((if negb (List.existsb (String.eqb k) attrs)
                then (k, Main.to_numeric_or_encode lib s) else (k, s))
               :: Main.numeric_others lib attrs rest) c
            = Main.to_numeric_or_encode lib (column ((k, s) :: rest) c)).
    simpl in Hc. simpl column at 2.
    destruct (String.eqb c k) eqn:E.
    - apply String.eqb_eq in E. subst k.
      assert (Hex : List.existsb (String.eqb c) attrs = false).
      { destruct (List.existsb (String.eqb c) attrs) eqn:Hex; [|reflexivity].
        apply List.existsb_exists in Hex. destruct Hex as (x & Hx & Ex).
        apply String.eqb_eq in Ex. subst x. contradiction. }
      rewrite Hex. simpl. rewrite String.eqb_refl. reflexivity.
    - destruct (negb _); simpl; rewrite E; apply IH; exact Hc. }
  rewrite Hs.
  - f_equal. clear Hs Hcol.
    revert df. induction attrs as [|a rest IH]; intros df; [reflexivity|].
    unfold Main.stringify_protected in *. simpl. rewrite IH.
    + destruct (has_column a df); [|reflexivity].
      apply column_set_column_other. intros ->. apply Hnot. left. reflexivity.
    + intros H. apply Hnot. right. exact H.
  - unfold has_column. rewrite columns_stringify. exact Hcol.
Qed.

Lemma encode_protected_other gm attrs (df df' : DataFrame) c :
  (forall attr, In attr attrs -> Main.mapping_for gm attr = None) ->
  ~ In c attrs ->
  Main.encode_protected gm attrs df = Ok df' ->
  column df' c = column df c.
Proof.
  revert df. induction attrs as [|attr rest IH]; intros df Hnone Hnot H.
  - injection H as <-. reflexivity.
  - rewrite encode_protected_cons in H.
    destruct (Main.encode_step gm attr df) as [df1|e] eqn:Hstep;
      [|discriminate H].
    cbn [bind] in H.
    assert (Hnone' : forall a, In a rest -> Main.mapping_for gm a = None)
      by (intros a Ha; apply Hnone; right; exact Ha).
    assert (Hnot' : ~ In c rest)
      by (intros Hc; apply Hnot; right; exact Hc).
    rewrite (IH df1 Hnone' Hnot' H).
    unfold Main.encode_step in Hstep.
    destruct (has_column attr df) eqn:Hcol.
    2:{ injection Hstep as <-. reflexivity. }
    rewrite (Hnone attr (or_introl eq_refl)) in Hstep.
    destruct (encode_fallback_inv _ _ _ Hcol Hstep) as (p & u & _ & Hdf & _).
    cbn zeta in Hdf. subst df1. apply column_set_column_other.
    intros ->. apply Hnot. left. reflexivity.
Qed.

(** X6: preprocessing keeps the columns and their order, keeps a
    rectangular frame rectangular and never adds a row.  When no
    protected attribute has an explicit mapping it drops no row either,
    and every other column is the numeric coercion of the original
    one. *)
Theorem preprocess_keeps_shape (df df' : DataFrame) (attrs : list string)
  (gm : option mappings) :
  Main.preprocess_data lib df attrs gm = Ok df' ->
  columns df' = columns df
  /\ (rectangular df ->
      rectangular df'
      /\ (nrows df' <= nrows df)%nat
      /\ ((forall attr, In attr attrs -> Main.mapping_for gm attr = None) ->
          nrows df' = nrows df))
  /\ ((forall attr, In attr attrs -> Main.mapping_for gm attr = None) ->
      forall c, ~ In c attrs -> has_column c df = true ->
        column df' c = Main.to_numeric_or_encode lib (column df c)).
Proof.
  intros H. split; [exact (proj1 (preprocess_binary lib _ _ _ _ H))|].
  split; [intros Hr; exact (preprocess_rows _ _ _ _ Hr H)|].
  intros Hnone c Hnot Hcol.
  unfold Main.preprocess_data, try_except in H. cbn zeta in H.
  destruct (Main.encode_protected gm attrs _) as [df1|e] eqn:He;
    [|discriminate H].
  injection H as <-.
  rewrite (encode_protected_other _ _ _ _ c Hnone Hnot He).
  apply converted_other_column; assumption.
Qed.

End Preparation.

(** ** The fallback rule *)

Section FallbackRule.
Context (lib : library).

Lemma encode_protected_app gm l1 l2 (df : DataFrame) :
  Main.encode_protected gm (l1 ++ l2)%list df
  = bind (Main.encode_protected gm l1 df) (Main.encode_protected gm l2).
Proof.
  revert df. induction l1 as [|a rest IH]; intros df; [reflexivity|].
  cbn [app]. rewrite !encode_protected_cons.
  destruct (Main.encode_step gm a df) as [df1|e]; cbn [bind];
    [apply IH|reflexivity].
Qed.

Lemma sorted_two_strings (values : Series) p0 u0 :
  List.Forall is_str values ->
  sorted (unique values) = Ok [p0; u0] ->
  exists p u,
    p0 = CStr p /\ u0 = CStr u
    /\ String.ltb p u = true
    /\ In (CStr p) values /\ In (CStr u) values
    /\ (forall x, In x values -> x = CStr p \/ x = CStr u).
Proof.
  intros Hstr Hsorted.
  assert (Hplain : List.Forall plain values).
  { eapply List.Forall_impl; [|exact Hstr]. apply is_str_plain. }
  pose proof (sorted_length _ _ Hsorted) as Hlen.
  pose proof (NoDup_unique_plain _ Hplain) as Hnd.
  pose proof (Forall_unique _ _ Hstr) as Hus.
  assert (Hmem : forall x, In x values -> In x (unique values))
    by (intros x; apply In_unique_plain; exact Hplain).
  destruct (unique values) as [|a [|b [|c l]]] eqn:Hu; try discriminate Hlen.
  apply List.Forall_cons_iff in Hus as [Ha Hus].
  apply List.Forall_cons_iff in Hus as [Hb _].
  destruct a as [sa|]; [|destruct Ha]. destruct b as [sb|]; [|destruct Hb].
  assert (Hne : sa <> sb).
  { intros ->. apply List.NoDup_cons_iff in Hnd as [Hnot _].
    apply Hnot. left. reflexivity. }
  assert (Hina : In (CStr sa) values)
    by (apply In_unique; rewrite Hu; left; reflexivity).
  assert (Hinb : In (CStr sb) values)
    by (apply In_unique; rewrite Hu; right; left; reflexivity).
  rewrite sorted_pair in Hsorted.
  destruct (String.ltb sb sa) eqn:Hlt; injection Hsorted as <- <-.
  - exists sb, sa. repeat split; try assumption; try reflexivity.
    intros x Hx. destruct (Hmem x Hx) as [<-|[<-|[]]]; auto.
  - exists sa, sb. split; [reflexivity|]. split; [reflexivity|].
    split; [apply ltb_total_strict; assumption|].
    split; [exact Hina|]. split; [exact Hinb|].
    intros x Hx. destruct (Hmem x Hx) as [<-|[<-|[]]]; auto.
Qed.

Lemma fallback_encodes_smaller (df df' : DataFrame) before attr after
  (gm : option mappings) :
  has_column attr df = true ->
  ~ In attr before -> ~ In attr after ->
  (forall a, In a (before ++ attr :: after)%list ->
     Main.mapping_for gm a = None) ->
  Main.preprocess_data lib df (before ++ attr :: after)%list gm = Ok df' ->
  let values := Main.astype_str lib (column df attr) in
  exists p u,
    String.ltb p u = true
    /\ In (CStr p) values /\ In (CStr u) values
    /\ (forall x, In x values -> x = CStr p \/ x = CStr u)
    /\ column df' attr
       = List.map (fun x => if py_eq x (CStr p) then CNum 1 else CNum 0)
           values.
Proof.
  intros Hcol Hbefore Hafter Hnone H values.
  unfold Main.preprocess_data, try_except in H. cbn zeta in H.
  set (attrs := (before ++ attr :: after)%list) in *.
  set (df0 := Main.numeric_others lib attrs
                (Main.stringify_protected lib attrs df)) in *.
  assert (Hin : In attr attrs)
    by (apply List.in_or_app; right; left; reflexivity).
  assert (Hcol0 : has_column attr df0 = true)
    by (unfold df0; rewrite converted_has_column; exact Hcol).
  assert (Hc0 : column df0 attr = values)
    by (unfold df0; apply converted_column; assumption).
  destruct (Main.encode_protected gm attrs df0) as [dfz|e] eqn:Hall;
    [|discriminate H].
  injection H as <-.
  unfold attrs in Hall. rewrite encode_protected_app in Hall.
  destruct (Main.encode_protected gm before df0) as [df1|e] eqn:H1;
    [|discriminate Hall].
  cbn [bind] in Hall. rewrite encode_protected_cons in Hall.
  destruct (Main.encode_step gm attr df1) as [df2|e] eqn:H2;
    [|discriminate Hall].
  cbn [bind] in Hall.
  assert (Hnone1 : forall a, In a before -> Main.mapping_for gm a = None)
    by (intros a Ha; apply Hnone; apply List.in_or_app; left; exact Ha).
  assert (Hnone3 : forall a, In a after -> Main.mapping_for gm a = None)
    by (intros a Ha; apply Hnone; apply List.in_or_app; right; right;
        exact Ha).
  assert (Hc1 : column df1 attr = values).
  { rewrite (encode_protected_other gm before df0 df1 attr Hnone1 Hbefore H1).
    exact Hc0. }
  assert (Hcol1 : has_column attr df1 = true).
  { unfold has_column.
    rewrite (proj1 (encode_protected_binary _ _ _ _ H1)). exact Hcol0. }
  unfold Main.encode_step in H2. rewrite Hcol1, (Hnone attr Hin) in H2.
  destruct (encode_fallback_inv _ _ _ Hcol1 H2)
    as (p0 & u0 & Hsorted & Hdf & _). cbn zeta in Hdf.
  rewrite Hc1 in Hsorted, Hdf.
  destruct (sorted_two_strings values p0 u0 (astype_str_is_str lib _) Hsorted)
    as (p & u & -> & -> & Hlt & Hp & Hu & Hvals).
  exists p, u. split; [exact Hlt|]. split; [exact Hp|]. split; [exact Hu|].
  split; [exact Hvals|].
  rewrite (encode_protected_other gm after df2 dfz attr Hnone3 Hafter Hall).
  subst df2. rewrite column_set_column_same by exact Hcol1.
  apply List.map_ext_in. intros x Hx.
  apply fallback_code_two; [|apply Hvals; exact Hx].
  intros ->. rewrite ltb_irrefl in Hlt. discriminate Hlt.
Qed.

(** C3 (amended): when the request gives no explicit mapping for its
    protected attributes and names the attribute once, [preprocess_data],
    which encodes the column, has, whenever it succeeds, found exactly
    two distinct values in the column and mapped the lexicographically
    smaller one to 1.0 (privileged) and the other to 0.0
    (unprivileged); with the attribute alone it succeeds whenever the
    column has exactly two distinct values.  [simple_detect_groups]
    takes as privileged and unprivileged the first two distinct values
    in order of appearance, the value of the first row first; it writes
    them to its log and returns the same groups whatever they are. *)
Theorem fallback_selection (df : DataFrame) attr (gm : option mappings) :
  has_column attr df = true ->
  Main.mapping_for gm attr = None ->
  let values := Main.astype_str lib (column df attr) in
  (forall before after df',
      ~ In attr before -> ~ In attr after ->
      (forall a, In a (before ++ after)%list ->
         Main.mapping_for gm a = None) ->
      Main.preprocess_data lib df (before ++ attr :: after)%list gm = Ok df' ->
      exists p u,
        String.ltb p u = true
        /\ In (CStr p) values /\ In (CStr u) values
        /\ (forall x, In x values -> x = CStr p \/ x = CStr u)
        /\ column df' attr
           = List.map (fun x => if py_eq x (CStr p) then CNum 1 else CNum 0)
               values)
  /\ (forall p u,
        String.ltb p u = true ->
        In (CStr p) values -> In (CStr u) values ->
        (forall x, In x values -> x = CStr p \/ x = CStr u) ->
        exists df',
          Main.preprocess_data lib df [attr] gm = Ok df'
          /\ column df' attr
             = List.map
                 (fun x => if py_eq x (CStr p) then CNum 1 else CNum 0)
                 values)
  /\ (forall rest first others,
        column df attr = first :: others ->
        (2 <= length (unique (column df attr)))%nat ->
        List.nth 0 (unique (column df attr)) (CNum nan) = first
        /\ Main.simple_detect_groups df (attr :: rest) gm
           = ([[Lit "Detecting groups for protected attribute: "; FStr attr];
               [Lit "Unique values in "; FStr attr; Lit ": ";
                FCells (unique (column df attr))];
               [Lit "Using fallback mapping - Privileged: "; FCell first;
                Lit ", Unprivileged: ";
                FCell (List.nth 1 (unique (column df attr)) (CNum nan))];
               [Lit "Created groups - Privileged: ";
                FGroups [{[attr := CNum 1]}]; Lit ", Unprivileged: ";
                FGroups [{[attr := CNum 0]}]]],
              Ok ([{[attr := CNum 1]}], [{[attr := CNum 0]}]))).
Proof.
  intros Hcol Hmap values. split; [|split].
  - intros before after df' Hbefore Hafter Hnone H.
    apply (fallback_encodes_smaller df df' before attr after gm Hcol Hbefore
             Hafter); [|exact H].
    intros a Ha. apply List.in_app_or in Ha as [Ha|[<-|Ha]];
      [|exact Hmap|]; apply Hnone; apply List.in_or_app; auto.
  - intros p u. exact (fallback_accepts_two lib df attr gm p u Hcol Hmap).
  - intros rest first others Hfirst Hlen.
    assert (Hnth : List.nth 0 (unique (column df attr)) (CNum nan) = first)
      by (rewrite Hfirst; reflexivity).
    split; [exact Hnth|].
    unfold Main.simple_detect_groups. rewrite Hcol, Hmap. cbn [negb].
    destruct (length (unique (column df attr)) <? 2)%nat eqn:E.
    { apply Nat.ltb_lt in E. lia. }
    rewrite Hnth. reflexivity.
Qed.

End FallbackRule.

(** ** Failures of the normalizer and of the request *)

Section Failures.
Context (lib : library).
Open Scope float_scope.

Lemma sorted_short (l : list cell) :
  (length l < 2)%nat -> sorted l = Ok l.
Proof.
  destruct l as [|x [|y t]]; simpl; intros H; first [reflexivity|lia].
Qed.

(** X7: a protected attribute with fewer than two distinct values and no
    explicit mapping makes preprocessing fail with status 400; the
    detail names the attribute and lists the values found. *)
Theorem preprocess_rejects_single_value (df : DataFrame) attr rest
  (gm : option mappings) :
  has_column attr df = true ->
  Main.mapping_for gm attr = None ->
  (length (unique (Main.astype_str lib (column df attr))) < 2)%nat ->
  Main.preprocess_data lib df (attr :: rest) gm
  = Err (HTTPException 400
           [Lit "Error preprocessing data: "; FInt 400; Lit ": ";
            Lit "Not enough unique values for protected attribute '";
            FStr attr; Lit "'. Found: ";
            FCells (unique (Main.astype_str lib (column df attr)))]).
Proof.
  intros Hcol Hmap Hlen.
  unfold Main.preprocess_data. cbn zeta.
  rewrite encode_protected_cons. unfold Main.encode_step.
  rewrite converted_has_column, Hcol, Hmap.
  unfold Main.encode_fallback.
  rewrite converted_column by (first [left; reflexivity|exact Hcol]).
  rewrite (sorted_short _ Hlen). cbn [bind].
  assert (H2 : (2 <? length (unique (Main.astype_str lib (column df attr))))%nat
               = false) by (apply Nat.ltb_ge; lia).
  assert (H1 : (length (unique (Main.astype_str lib (column df attr))) <? 2)%nat
               = true) by (apply Nat.ltb_lt; exact Hlen).
  rewrite H2, H1. reflexivity.
Qed.

(** X8: an explicit mapping that lacks the key [privileged], or has it
    and lacks [unprivileged], makes preprocessing fail with status 400
    and the bare [KeyError] text, the name of the key in quotes;
    [simple_detect_groups] answers the same mapping with its own
    message. *)
Theorem preprocess_rejects_incomplete_mapping (df : DataFrame) attr rest
  (gm : option mappings) (m : mapping) (key : string) :
  has_column attr df = true ->
  Main.mapping_for gm attr = Some m ->
  (key = "privileged" /\ m !! "privileged" = None)
  \/ (key = "unprivileged" /\ is_Some (m !! "privileged")
      /\ m !! "unprivileged" = None) ->
  Main.preprocess_data lib df (attr :: rest) gm
  = Err (HTTPException 400
           [Lit "Error preprocessing data: "; Lit "'"; FStr key; Lit "'"])
  /\ snd (Main.simple_detect_groups df (attr :: rest) gm)
     = Err (HTTPException 400
              [Lit "Invalid group mapping for "; FStr attr;
               Lit ". Must specify both 'privileged' and 'unprivileged' values."]).
Proof.
  intros Hcol Hmap Hkey. split.
  - unfold Main.preprocess_data. cbn zeta.
    rewrite encode_protected_cons. unfold Main.encode_step.
    rewrite converted_has_column, Hcol, Hmap.
    unfold Main.encode_with_mapping, getitem.
    destruct Hkey as [(-> & Hp)|(-> & [pv Hp] & Hu)].
    + rewrite Hp. reflexivity.
    + rewrite Hp, Hu. reflexivity.
  - unfold Main.simple_detect_groups. rewrite Hcol, Hmap. cbn [negb].
    destruct Hkey as [(-> & Hp)|(-> & [pv Hp] & Hu)].
    + rewrite Hp. reflexivity.
    + rewrite Hp, Hu. reflexivity.
Qed.

Lemma create_dataset_error data attrs gm e :
  Main.create_dataset lib data attrs gm = Err e ->
  exists d, e = HTTPException 400 d.
Proof.
  unfold Main.create_dataset.
  destruct (Main.prepare_dataset lib data attrs gm) as [a|e0] eqn:Hprep.
  - cbn [bind].
    destruct (BinaryLabelDataset lib _ _ _ _ _) as [ds|e1];
      cbn [try_except try_except_reraise_http is_HTTPException];
      [discriminate|].
    intros H. injection H as <-. eexists. reflexivity.
  - destruct (prepare_dataset_error lib _ _ _ _ Hprep) as (d & ->).
    cbn [bind try_except_reraise_http is_HTTPException].
    intros H. injection H as <-. eexists. reflexivity.
Qed.

Lemma calculate_bias_metrics_error (ds : dataset lib) p u e :
  Main.calculate_bias_metrics lib ds p u = Err e ->
  exists d, e = HTTPException 400 (Lit "Error calculating metrics: " :: d).
Proof.
  unfold Main.calculate_bias_metrics, try_except.
  match goal with
  | |- match ?m with _ => _ end = _ -> _ => destruct m as [x|e0]
  end; [discriminate|].
  intros H. injection H as <-. eexists. reflexivity.
Qed.

(** X9: a request fails with status 400 or 500 and nothing else.
    [create_dataset] fails with 400 only.  Status 500 is the answer
    exactly when the data set was built, the groups were settled and the
    metric computation raised: its failure, turned into a 400 by
    [calculate_bias_metrics], is re-raised by the request as a 500 with
    the text of that 400 in its detail. *)
Theorem analyze_bias_failure_status (request : Main.BiasAnalysisRequest) :
  (forall e,
     Main.analyze_bias lib request = Err e ->
     (exists d, e = HTTPException 400 d)
     \/ (exists d ds p u e',
           e = HTTPException 500
                 (Lit "Error calculating metrics: " :: FInt 400 :: Lit ": "
                  :: Lit "Error calculating metrics: " :: d)
           /\ Main.create_dataset lib (Main.data request)
                (Main.protected_attributes request)
                (Main.group_mappings request) = Ok ds
           /\ Main.calculate_bias_metrics lib ds p u = Err e'))
  /\ (forall ds groups p u e',
        Main.data request <> [] ->
        Main.protected_attributes request <> [] ->
        Main.create_dataset lib (Main.data request)
          (Main.protected_attributes request)
          (Main.group_mappings request) = Ok ds ->
        match Main.privileged_groups request,
              Main.unprivileged_groups request with
        | Some p0, Some u0 => Ok (p0, u0)
        | _, _ =>
            snd (Main.simple_detect_groups (DataFrame_of (Main.data request))
                   (Main.protected_attributes request)
                   (Main.group_mappings request))
        end = Ok groups ->
        Main.calculate_bias_metrics lib ds p u = Err e' ->
        exists d,
          e' = HTTPException 400 (Lit "Error calculating metrics: " :: d)
          /\ Main.analyze_bias lib request
             = Err (HTTPException 500
                      (Lit "Error calculating metrics: " :: FInt 400
                       :: Lit ": " :: Lit "Error calculating metrics: "
                       :: d))).
Proof.
  split.
  - intros e. unfold Main.analyze_bias.
    destruct (Main.data request) as [|r0 rs];
      [intros H; injection H as <-; left; eexists; reflexivity|].
    destruct (Main.protected_attributes request) as [|a0 rest];
      [intros H; injection H as <-; left; eexists; reflexivity|].
    destruct (Main.create_dataset lib _ _ _) as [ds|e0] eqn:Hds;
      cbn [try_except bind try_except_reraise_http is_HTTPException].
    2:{ intros H. injection H as <-. left. eexists. reflexivity. }
    match goal with
    | |- context [try_except ?m _] => destruct m as [groups|e0]
    end; cbn [try_except bind try_except_reraise_http is_HTTPException].
    2:{ intros H. injection H as <-. left. eexists. reflexivity. }
    destruct (Main.calculate_bias_metrics lib ds _ _) as [metrics|e0] eqn:Hm;
      cbn [try_except bind try_except_reraise_http is_HTTPException].
    + destruct (calculate_bias_metrics_names _ _ _ _ _ Hm) as (md & di & ->).
      rewrite format_two_metrics.
      cbn [try_except bind try_except_reraise_http is_HTTPException].
      discriminate.
    + intros H. injection H as <-. right.
      destruct (calculate_bias_metrics_error _ _ _ _ Hm) as (d & ->).
      exists d, ds, (fst groups), (snd groups). eexists.
      split; [reflexivity|]. split; [reflexivity|exact Hm].
  - intros ds groups p u e' Hdata Hattrs Hds Hgroups Hm.
    destruct (calculate_bias_metrics_error _ _ _ _ Hm) as (d & ->).
    exists d. split; [reflexivity|].
    unfold Main.analyze_bias.
    destruct (Main.data request) as [|r0 rs]; [congruence|].
    destruct (Main.protected_attributes request) as [|a0 rest]; [congruence|].
    rewrite Hds, Hgroups.
    cbn [try_except bind try_except_reraise_http is_HTTPException].
    change (Main.calculate_bias_metrics lib ds (fst groups) (snd groups))
      with (Main.calculate_bias_metrics lib ds p u).
    rewrite Hm. reflexivity.
Qed.

(** X10: the values of the groups a request supplies are never used;
    supplying both only skips group detection.  Two requests that differ
    only in the groups they supply get the same answer, and when group
    detection succeeds on the data that is also the answer to the
    request without groups. *)
Theorem supplied_groups_are_ignored (request : Main.BiasAnalysisRequest)
  (p u p' u' : list group) :
  Main.analyze_bias lib (with_groups request (Some p) (Some u))
  = Main.analyze_bias lib (with_groups request (Some p') (Some u'))
  /\ ((exists groups,
         snd (Main.simple_detect_groups (DataFrame_of (Main.data request))
                (Main.protected_attributes request)
                (Main.group_mappings request)) = Ok groups) ->
      Main.analyze_bias lib (with_groups request (Some p) (Some u))
      = Main.analyze_bias lib (with_groups request None None)).
Proof.
  split.
  - unfold Main.analyze_bias, with_groups.
    cbn [Main.data Main.protected_attributes Main.privileged_groups
         Main.unprivileged_groups Main.group_mappings].
    destruct (Main.data request) as [|r0 rs]; [reflexivity|].
    destruct (Main.protected_attributes request) as [|a0 rest]; [reflexivity|].
    destruct (Main.create_dataset lib _ _ _) as [ds|e0]; reflexivity.
  - intros [groups Hg].
    unfold Main.analyze_bias, with_groups.
    cbn [Main.data Main.protected_attributes Main.privileged_groups
         Main.unprivileged_groups Main.group_mappings].
    destruct (Main.data request) as [|r0 rs]; [reflexivity|].
    destruct (Main.protected_attributes request) as [|a0 rest]; [reflexivity|].
    destruct (Main.create_dataset lib _ _ _) as [ds|e0]; [|reflexivity].
    rewrite Hg. reflexivity.
Qed.

End Failures.

(** ** Records of a frame, and the analysis of a frame *)

Section Records.
Open Scope float_scope.

Lemma filter_swap {A} (p q : A -> bool) (l : list A) :
  List.filter p (List.filter q l) = List.filter q (List.filter p l).
Proof.
  induction l as [|y u IH]; [reflexivity|].
  cbn [List.filter].
  destruct (p y) eqn:Hy, (q y) eqn:Hq; cbn [List.filter];
    rewrite ?Hy, ?Hq, ?IH; reflexivity.
Qed.

Lemma filter_absorb {A} (p q : A -> bool) (l : list A) :
  (forall y, p y = true -> q y = true) ->
  List.filter p (List.filter q l) = List.filter p l.
Proof.
  intros Hpq. induction l as [|y u IH]; [reflexivity|].
  cbn [List.filter].
  destruct (p y) eqn:Hy.
  - rewrite (Hpq y Hy). cbn [List.filter]. rewrite Hy, IH. reflexivity.
  - destruct (q y); cbn [List.filter]; rewrite ?Hy; exact IH.
Qed.

Lemma filter_dedup (p : string -> bool) (l : list string) :
  List.filter p (dedup l) = dedup (List.filter p l).
Proof.
  induction l as [|x t IH]; [reflexivity|].
  cbn [dedup List.filter]. destruct (p x) eqn:Hp.
  - cbn [dedup]. f_equal. rewrite <- IH. apply filter_swap.
  - rewrite <- IH. apply filter_absorb.
    intros y Hy. destruct (String.eqb x y) eqn:Hxy; [|reflexivity].
    apply String.eqb_eq in Hxy. subst y. congruence.
Qed.

Lemma filter_other_absent (x : string) (l : list string) :
  ~ In x l -> List.filter (fun y => negb (String.eqb x y)) l = l.
Proof.
  induction l as [|y t IH]; intros Hx; [reflexivity|].
  cbn [List.filter].
  destruct (String.eqb x y) eqn:Hxy.
  - apply String.eqb_eq in Hxy. subst y. exfalso. apply Hx. left. reflexivity.
  - cbn [negb]. f_equal. apply IH. intros Hin. apply Hx. right. exact Hin.
Qed.

Lemma dedup_app_known (l m : list string) :
  List.NoDup l -> (forall x, In x m -> In x l) -> dedup (l ++ m)%list = l.
Proof.
  revert m. induction l as [|x t IH]; intros m Hnd Hin.
  - destruct m as [|y u]; [reflexivity|]. destruct (Hin y). left. reflexivity.
  - apply List.NoDup_cons_iff in Hnd as [Hx Ht].
    cbn [app dedup]. f_equal.
    rewrite filter_dedup, List.filter_app, (filter_other_absent x t Hx).
    apply IH; [exact Ht|].
    intros y Hy. apply List.filter_In in Hy as [Hy Hne].
    destruct (Hin y Hy) as [->|Hyt]; [|exact Hyt].
    rewrite String.eqb_refl in Hne. discriminate.
Qed.

Lemma dedup_repeated (l : list string) (n : nat) :
  List.NoDup l -> dedup (List.concat (List.repeat l (S n))) = l.
Proof.
  intros Hnd. cbn [List.repeat List.concat].
  apply dedup_app_known; [exact Hnd|].
  intros x Hx. apply List.in_concat in Hx as (l' & Hl' & Hx).
  apply List.repeat_spec in Hl'. subst l'. exact Hx.
Qed.

Lemma records_keys (n : nat) (df : DataFrame) :
  List.map (List.map fst) (to_dict_records_aux n df)
  = List.repeat (columns df) n.
Proof.
  revert df. induction n as [|n IH]; intros df; [reflexivity|].
  cbn [to_dict_records_aux List.map List.repeat]. f_equal.
  - unfold columns. rewrite List.map_map. apply List.map_ext.
    intros [c s]. reflexivity.
  - rewrite IH. f_equal. unfold columns. rewrite List.map_map.
    apply List.map_ext. intros [c s]. reflexivity.
Qed.

Lemma lookup_field_present (r : row) c v :
  List.NoDup (List.map fst r) -> In (c, v) r -> lookup_field c r = Some v.
Proof.
  induction r as [|[k w] rest IH]; intros Hnd Hin; [destruct Hin|].
  cbn [List.map fst] in Hnd.
  apply List.NoDup_cons_iff in Hnd as [Hk Hrest].
  cbn [lookup_field]. destruct Hin as [Heq|Hin].
  - injection Heq as -> ->. rewrite String.eqb_refl. reflexivity.
  - destruct (String.eqb c k) eqn:Hck; [|apply IH; assumption].
    apply String.eqb_eq in Hck. subst k. exfalso. apply Hk.
    apply List.in_map_iff. exists (c, v). split; [reflexivity|exact Hin].
Qed.

Lemma records_column (n : nat) (df : DataFrame) c (s : Series) :
  List.NoDup (columns df) -> In (c, s) df -> length s = n ->
  List.map (fun r => default (CNum nan) (lookup_field c r))
    (to_dict_records_aux n df) = s.
Proof.
  revert df s. induction n as [|n IH]; intros df s Hnd Hin Hlen.
  - destruct s; [reflexivity|discriminate].
  - destruct s as [|h t]; [discriminate|].
    cbn [to_dict_records_aux List.map]. f_equal.
    + rewrite (lookup_field_present _ c h); [reflexivity| |].
      * rewrite List.map_map.
        erewrite List.map_ext; [exact Hnd|]. intros [k w]. reflexivity.
      * apply List.in_map_iff. exists (c, h :: t). split; [reflexivity|exact Hin].
    + apply IH.
      * unfold columns. rewrite List.map_map.
        erewrite List.map_ext; [exact Hnd|]. intros [k w]. reflexivity.
      * apply List.in_map_iff. exists (c, h :: t). split; [reflexivity|exact Hin].
      * simpl in Hlen. lia.
Qed.

(** X11: a frame with rows, distinct column names and columns of one
    length is got back from its records: [pd.DataFrame] undoes
    [to_dict(orient="records")], so the file and folder end points
    analyse the frame they read. *)
Theorem records_round_trip (df : DataFrame) :
  List.NoDup (columns df) -> rectangular df -> (0 < nrows df)%nat ->
  DataFrame_of (to_dict_records df) = df.
Proof.
  intros Hnd Hrect Hrows.
  unfold DataFrame_of, to_dict_records.
  rewrite records_keys.
  destruct (nrows df) as [|n] eqn:Hn; [lia|].
  rewrite (dedup_repeated _ n Hnd).
  unfold columns. rewrite List.map_map.
  transitivity (List.map (fun c : string * Series => c) df);
    [|apply List.map_id].
  apply List.map_ext_in. intros [c s] Hin. cbn [fst]. f_equal.
  rewrite <- Hn. apply records_column; [exact Hnd|exact Hin|].
  unfold rectangular in Hrect. rewrite List.Forall_forall in Hrect.
  exact (Hrect (c, s) Hin).
Qed.

(** X12: called with no event loop running, the analysis of a frame
    never raises: it returns either the two metric rows, statistical
    disparity then disparate impact, or one row that holds the text of
    the error, and for a frame without rows the error row of the empty
    data set.  Called inside a running event loop it never returns. *)
Theorem run_bias_analysis_rows (lib : library) (df : DataFrame)
  (protected_attribute : string) (gm : option mappings) :
  ((exists m : message,
      Main.run_bias_analysis lib false df protected_attribute gm
      = Ends (Ok [{["error" := JMsg m]}]))
   \/ (exists md di,
         Main.run_bias_analysis lib false df protected_attribute gm
         = Ends (Ok [Main.format_result "statistical_disparity" md 0.1;
                     Main.format_result "disparate_impact" di 0.8])))
  /\ (nrows df = 0%nat ->
      Main.run_bias_analysis lib false df protected_attribute gm
      = Ends (Ok [{["error" :=
                      JMsg [FInt 400; Lit ": ";
                            Lit "Empty dataset provided"]]}]))
  /\ Main.run_bias_analysis lib true df protected_attribute gm = Hangs.
Proof.
  split; [|split; [|reflexivity]].
  - unfold Main.run_bias_analysis. cbn zeta.
    destruct (Main.analyze_bias lib _) as [response|e] eqn:H.
    + right. destruct (analyze_bias_ok_results lib _ _ H) as (md & di & ->).
      exists md, di. reflexivity.
    + left. eexists. reflexivity.
  - intros Hn. unfold Main.run_bias_analysis, to_dict_records.
    rewrite Hn. reflexivity.
Qed.

End Records.

(** ** The folder and the file end points *)

Section Folder.
Context (lib : library).
Open Scope float_scope.

Lemma analyze_entry_other pa gm fname content :
  Main.is_data_file fname = false ->
  Main.analyze_entry lib pa gm fname content = Ends (Ok []).
Proof. intros H. unfold Main.analyze_entry. rewrite H. reflexivity. Qed.

Lemma analyze_entries_other pa gm (entries : list (string * string)) :
  List.Forall (fun en => Main.is_data_file (fst en) = false) entries ->
  Main.analyze_entries lib pa gm entries = Ends (Ok []).
Proof.
  induction 1 as [|[f c] rest Hf _ IH]; [reflexivity|].
  cbn [Main.analyze_entries]. cbn [fst] in Hf.
  rewrite (analyze_entry_other _ _ _ _ Hf), IH. reflexivity.
Qed.


(** X14: entries of the archive that are not named [.csv], [.xlsx] or
    [.xls] have no part in the result: the batch is the batch of the
    data files alone. *)
Theorem analyze_entries_skips_other_files pa gm
  (entries : list (string * string)) :
  Main.analyze_entries lib pa gm entries
  = Main.analyze_entries lib pa gm
      (List.filter (fun en => Main.is_data_file (fst en)) entries).
Proof.
  induction entries as [|[f c] rest IH]; [reflexivity|].
  cbn [List.filter fst]. destruct (Main.is_data_file f) eqn:Hdata.
  - cbn [Main.analyze_entries]. rewrite IH. reflexivity.
  - cbn [Main.analyze_entries].
    rewrite analyze_entry_other by exact Hdata.
    rewrite <- IH.
    destruct (Main.analyze_entries lib pa gm rest) as [[rs|e]|]; reflexivity.
Qed.


End Folder.

Section SingleFile.
Context (lib : library).
Context {parsed : Type}.
Context (json_loads : string -> option parsed).
Context (validate : parsed -> result (option mappings)).
Open Scope float_scope.


End SingleFile.

(** ** The helpers on lists and the encoders *)

Section ListHelpers.
Import Helpers.

Lemma flatten_all_lists (ls : list (list pyvalue)) :
  flatten_all (List.map VList ls) = Ok (List.concat ls).
Proof.
  induction ls as [|l rest IH]; [reflexivity|].
  cbn [List.map flatten_all items bind]. rewrite IH. reflexivity.
Qed.

Lemma splice_lists (ls : list (list pyvalue)) :
  splice (List.map VList ls) = List.concat ls.
Proof.
  induction ls as [|l rest IH]; [reflexivity|].
  cbn [List.map splice List.concat]. rewrite IH. reflexivity.
Qed.

Lemma splice_strs (lst : list pyvalue) :
  List.Forall is_VStr lst -> splice lst = lst.
Proof.
  induction lst as [|v rest IH]; intros H; [reflexivity|].
  apply List.Forall_cons_iff in H as [Hv Hrest].
  destruct v as [s|l|c]; try destruct Hv.
  cbn [splice]. rewrite (IH Hrest). reflexivity.
Qed.

Lemma flatten_all_other (before after : list pyvalue) type_name :
  List.Forall (fun v => forall t, v <> VOther t) before ->
  flatten_all (before ++ VOther type_name :: after)%list
  = Err (Exception "TypeError"
           [Lit "'"; FStr type_name; Lit "' object is not iterable"]).
Proof.
  induction 1 as [|v rest Hv _ IH]; [reflexivity|].
  cbn [app flatten_all]. rewrite IH.
  destruct v as [s|l|t]; [reflexivity|reflexivity|].
  exfalso. exact (Hv t eq_refl).
Qed.

Lemma splice_keeps_other (lst : list pyvalue) type_name :
  In (VOther type_name) lst -> In (VOther type_name) (splice lst).
Proof.
  induction lst as [|v rest IH]; intros Hin; [destruct Hin|].
  destruct Hin as [->|Hin].
  - left. reflexivity.
  - destruct v; cbn [splice];
      first [right; exact (IH Hin)
            |apply List.in_or_app; right; exact (IH Hin)].
Qed.

(** X17: on a list of lists both flatteners give the concatenation, and
    on a list of strs both give the list as it is.  They part on a list
    that starts with a list and goes on otherwise: [flatten_list] cuts a
    later str into its characters, and raises the [TypeError] of the
    first value that cannot be iterated, where [robust_flatten] keeps
    both as they are. *)
Theorem flatteners_compared :
  (forall ls : list (list pyvalue),
     flatten_list (List.map VList ls) = Ok (List.concat ls)
     /\ robust_flatten (VList (List.map VList ls)) = List.concat ls)
  /\ (forall lst, List.Forall is_VStr lst ->
        flatten_list lst = Ok lst /\ robust_flatten (VList lst) = lst)
  /\ (forall l s,
        flatten_list [VList l; VStr s] = Ok (l ++ chars s)%list
        /\ robust_flatten (VList [VList l; VStr s]) = (l ++ [VStr s])%list)
  /\ (forall l before after type_name,
        List.Forall (fun v => forall t, v <> VOther t) before ->
        flatten_list (VList l :: before ++ VOther type_name :: after)%list
        = Err (Exception "TypeError"
                 [Lit "'"; FStr type_name; Lit "' object is not iterable"])
        /\ In (VOther type_name)
             (robust_flatten
                (VList (VList l :: before ++ VOther type_name :: after)%list))).
Proof.
  split; [|split; [|split]].
  - intros ls. split; [|apply splice_lists].
    destruct ls as [|l rest]; [reflexivity|].
    exact (flatten_all_lists (l :: rest)).
  - intros lst H. split; [|apply splice_strs; exact H].
    destruct lst as [|v rest]; [reflexivity|].
    apply List.Forall_cons_iff in H as [Hv _].
    destruct v; try destruct Hv. reflexivity.
  - intros l s. split.
    + cbn [flatten_list flatten_all items bind]. rewrite List.app_nil_r.
      reflexivity.
    + reflexivity.
  - intros l before after type_name Hbefore. split.
    + cbn [flatten_list].
      apply (flatten_all_other (VList l :: before) after type_name).
      constructor; [discriminate|exact Hbefore].
    + cbn [robust_flatten]. apply splice_keeps_other.
      right. apply List.in_or_app. right. left. reflexivity.
Qed.

End ListHelpers.

Section Encoders.
Context (lib : library).

Lemma encode_protected_attributes_cons (df : DataFrame) a rest :
  Encoding.encode_protected_attributes lib df (a :: rest)
  = Encoding.encode_protected_attributes lib
      (if has_column a df
       then set_column a
              (label_encode lib (Main.astype_str lib (column df a))) df
       else df) rest.
Proof. reflexivity. Qed.

Lemma encode_protected_attributes_columns (df : DataFrame) attrs :
  columns (Encoding.encode_protected_attributes lib df attrs) = columns df.
Proof.
  revert df. induction attrs as [|a rest IH]; intros df; [reflexivity|].
  rewrite encode_protected_attributes_cons, IH.
  destruct (has_column a df); [apply columns_set_column|reflexivity].
Qed.

Lemma encode_protected_attributes_other (df : DataFrame) attrs c :
  ~ In c attrs ->
  column (Encoding.encode_protected_attributes lib df attrs) c = column df c.
Proof.
  revert df. induction attrs as [|a rest IH]; intros df Hc; [reflexivity|].
  rewrite encode_protected_attributes_cons.
  rewrite IH by (intros Hin; apply Hc; right; exact Hin).
  destruct (has_column a df); [|reflexivity].
  apply column_set_column_other. intros ->. apply Hc. left. reflexivity.
Qed.

(** X18: [encode_protected_attributes] keeps the column names, the
    number of rows and every column that is not a protected attribute.
    When the attributes are pairwise distinct, each one that is a column
    holds the label encoding of its str form. *)
Theorem encode_protected_attributes_shape (df : DataFrame)
  (attrs : list string) :
  let df' := Encoding.encode_protected_attributes lib df attrs in
  columns df' = columns df
  /\ (rectangular df -> rectangular df' /\ nrows df' = nrows df)
  /\ (forall c, ~ In c attrs -> column df' c = column df c)
  /\ (List.NoDup attrs ->
      forall attr, In attr attrs -> has_column attr df = true ->
        column df' attr
        = label_encode lib (Main.astype_str lib (column df attr))).
Proof.
  cbn zeta. split; [apply encode_protected_attributes_columns|].
  split; [|split; [intros c; apply encode_protected_attributes_other|]].
  - revert df. induction attrs as [|a rest IH]; intros df Hr; [auto|].
    rewrite encode_protected_attributes_cons.
    destruct (has_column a df) eqn:Ha; [|apply IH; exact Hr].
    destruct (rectangular_set_column a
                (label_encode lib (Main.astype_str lib (column df a))) df Hr)
      as (Hr' & Hn').
    { rewrite label_encode_length. unfold Main.astype_str.
      rewrite List.length_map. apply rectangular_column; assumption. }
    destruct (IH _ Hr') as (Hr'' & Hn''). split; [exact Hr''|congruence].
  - revert df. induction attrs as [|a rest IH]; intros df Hnd attr Hin Hcol;
      [destruct Hin|].
    apply List.NoDup_cons_iff in Hnd as [Ha Hnd].
    rewrite encode_protected_attributes_cons.
    destruct Hin as [->|Hin].
    + rewrite encode_protected_attributes_other by exact Ha.
      rewrite Hcol. apply column_set_column_same. exact Hcol.
    + assert (Hne : attr <> a) by (intros ->; contradiction).
      destruct (has_column a df) eqn:Hac.
      * rewrite (IH _ Hnd attr Hin)
          by (rewrite has_column_set_column; exact Hcol).
        rewrite column_set_column_other by exact Hne. reflexivity.
      * apply IH; assumption.
Qed.

Lemma DataFrame_of_rectangular (data : list row) :
  rectangular (DataFrame_of data)
  /\ (columns (DataFrame_of data) <> [] ->
      nrows (DataFrame_of data) = length data).
Proof.
  unfold DataFrame_of.
  set (keys := dedup _). clearbody keys.
  assert (Hn : keys <> [] ->
               nrows (List.map
                        (fun c => (c, List.map
                                        (fun r => default (CNum nan)
                                                    (lookup_field c r)) data))
                        keys) = length data).
  { destruct keys as [|k rest]; [congruence|]. intros _.
    cbn [List.map nrows]. apply List.length_map. }
  split.
  - destruct keys as [|k rest]; [constructor|].
    unfold rectangular. rewrite Hn by discriminate.
    apply List.Forall_map. apply List.Forall_forall. intros c _.
    cbn [snd]. apply List.length_map.
  - intros Hc. apply Hn. intros ->. apply Hc. reflexivity.
Qed.

Lemma find_label_column_priority (df : DataFrame) label :
  Main.find_label_column df = Ok label ->
  has_column label df = true
  /\ (label = "label"
      \/ (label = "true_label" /\ has_column "label" df = false)
      \/ (label = "target" /\ has_column "label" df = false
          /\ has_column "true_label" df = false)).
Proof.
  unfold Main.find_label_column, Main.LABEL_CANDIDATES. cbn [List.find].
  destruct (has_column "label" df) eqn:H1.
  { intros H. injection H as <-. auto. }
  destruct (has_column "true_label" df) eqn:H2.
  { intros H. injection H as <-. auto. }
  destruct (has_column "target" df) eqn:H3; [|discriminate].
  intros H. injection H as <-. auto 6.
Qed.

(** X19: what [create_dataset] hands to [BinaryLabelDataset]: a frame
    with the column names of the request data, with columns of one
    length and no more rows than the request has; the protected
    attributes as the request names them; and one label column, the
    first of [label], [true_label], [target] that the data has. *)
Theorem prepare_dataset_shape (data : list row) (attrs : list string)
  (gm : option mappings) (a : Main.dataset_args) :
  Main.prepare_dataset lib data attrs gm = Ok a ->
  columns (Main.frame a) = columns (DataFrame_of data)
  /\ rectangular (Main.frame a)
  /\ (nrows (Main.frame a) <= length data)%nat
  /\ Main.protected_names a = attrs
  /\ exists label,
       Main.label_names a = [label]
       /\ has_column label (Main.frame a) = true
       /\ (label = "label"
           \/ (label = "true_label"
               /\ has_column "label" (Main.frame a) = false)
           \/ (label = "target"
               /\ has_column "label" (Main.frame a) = false
               /\ has_column "true_label" (Main.frame a) = false)).
Proof.
  unfold Main.prepare_dataset.
  destruct (length (columns (DataFrame_of data)) <? 2)%nat eqn:Hlen;
    [discriminate|].
  destruct (Main.find_label_column (DataFrame_of data)) as [label|e0] eqn:Hl;
    cbn [try_except bind]; [|discriminate].
  destruct (Main.preprocess_data lib (DataFrame_of data) attrs gm)
    as [df|e0] eqn:Hpre; cbn [try_except bind]; [|discriminate].
  destruct (Main.verify_protected attrs _) as [g|e0]; cbn [bind];
    [|discriminate].
  intros H. injection H as <-.
  cbn [Main.frame Main.label_names Main.protected_names].
  destruct (preprocess_binary lib _ _ _ _ Hpre) as (Hcols & _).
  destruct (DataFrame_of_rectangular data) as (Hrect & Hrows).
  destruct (preprocess_rows lib _ _ _ _ Hrect Hpre) as (Hr1 & Hn1 & _).
  assert (Hcols2 : columns (Main.encode_categoricals lib df (attrs ++ [label])%list)
                   = columns (DataFrame_of data)).
  { rewrite columns_encode_categoricals. exact Hcols. }
  assert (Hmap : rectangular (Main.encode_categoricals lib df (attrs ++ [label])%list)
                 /\ nrows (Main.encode_categoricals lib df (attrs ++ [label])%list)
                    = nrows df).
  { apply rectangular_map; [|exact Hr1]. intros [k s].
    destruct (_ && _); [apply to_numeric_or_encode_length|reflexivity]. }
  destruct Hmap as (Hr2 & Hn2).
  assert (Hhas : forall c,
             has_column c (Main.encode_categoricals lib df (attrs ++ [label])%list)
             = has_column c (DataFrame_of data)).
  { intros c. unfold has_column. rewrite Hcols2. reflexivity. }
  split; [exact Hcols2|]. split; [exact Hr2|]. split.
  { rewrite Hn2. rewrite Hrows in Hn1; [exact Hn1|].
    intros Hnil. rewrite Hnil in Hlen. discriminate. }
  split; [reflexivity|]. exists label. split; [reflexivity|].
  rewrite !Hhas. apply find_label_column_priority. exact Hl.
Qed.

End Encoders.

(** ** The scraper: the cap, the origin of a record, failures *)

Section Feeds.
Import Scraper.
Context {struct_time : Type}.
Context (moment : struct_time -> result Z).
Context (quote_plus : string -> string).
Context (parse : string -> list (entry struct_time)).
Context (overflow_text : Z -> Z -> message).

Lemma scan_entries_cap cutoff max_results model_id ty
  (entries : list (entry struct_time)) count results :
  scan_entries moment cutoff max_results model_id ty entries count
  = Ok results ->
  (Z.of_nat (length results) <= Z.max 1 (max_results - count))%Z.
Proof.
  revert count results.
  induction entries as [|e rest IH]; intros count results H; simpl in H.
  - injection H as <-. simpl. lia.
  - destruct (published_parsed e) as [t|]; [|exact (IH _ _ H)].
    destruct (moment t) as [published|err]; cbn [bind] in H;
      [|discriminate H].
    destruct (published <? cutoff)%Z; [exact (IH _ _ H)|].
    destruct (attribute "title" (title e)) as [ti|err]; simpl in H;
      [|discriminate H].
    destruct (attribute "link" (link e)) as [li|err]; simpl in H;
      [|discriminate H].
    destruct (max_results <=? count + 1)%Z eqn:Hcap.
    + injection H as <-. simpl. lia.
    + destruct (scan_entries moment cutoff max_results model_id ty rest
                  (count + 1)) as [rs|err] eqn:Hrs; simpl in H;
        [|discriminate H].
      injection H as <-. apply IH in Hrs. apply Z.leb_gt in Hcap.
      cbn [length]. lia.
Qed.

Lemma scrape_categories_cap cutoff max_results model cats results :
  scrape_categories moment quote_plus parse cutoff max_results model cats
  = Ok results ->
  (Z.of_nat (length results)
   <= Z.of_nat (length cats) * Z.max 1 max_results)%Z.
Proof.
  revert results. induction cats as [|[ty phrase] rest IH]; intros results H.
  - injection H as <-. simpl. lia.
  - destruct model as [[model_id model_name] provider]. simpl in H.
    destruct (scan_entries moment cutoff max_results model_id ty _ 0)
      as [rs|err] eqn:Hs; simpl in H; [|discriminate H].
    destruct (scrape_categories moment quote_plus parse cutoff max_results
                (model_id, model_name, provider) rest)
      as [rs'|err] eqn:Hc; simpl in H; [|discriminate H].
    injection H as <-. apply scan_entries_cap in Hs.
    specialize (IH _ eq_refl). rewrite List.length_app.
    rewrite Z.sub_0_r in Hs. cbn [length]. lia.
Qed.

Lemma scrape_models_cap cutoff max_results models results :
  scrape_models moment quote_plus parse cutoff max_results models
  = Ok results ->
  (Z.of_nat (length results)
   <= 2 * Z.of_nat (length models) * Z.max 1 max_results)%Z.
Proof.
  revert results. induction models as [|model rest IH]; intros results H.
  - injection H as <-. simpl. lia.
  - cbn [scrape_models] in H.
    destruct (scrape_categories moment quote_plus parse cutoff max_results
                model categories) as [rs|err] eqn:Hc; cbn [bind] in H;
      [|discriminate H].
    destruct (scrape_models moment quote_plus parse cutoff max_results rest)
      as [rs'|err] eqn:Hm; cbn [bind] in H; [|discriminate H].
    injection H as <-. apply scrape_categories_cap in Hc.
    specialize (IH _ eq_refl). rewrite List.length_app.
    change (length categories) with 2%nat in Hc. cbn [length]. lia.
Qed.

(** X20: a run collects at most [max(1, max_results)] records per feed,
    two feeds per tracked model.  The cap is tested after a record has
    been added, so a cap of zero or less still lets one record of each
    feed through. *)
Theorem scrape_respects_cap (now : Z) (conn : connection)
  (days max_results : Z) (results : list update) :
  snd (scrape_model_updates moment quote_plus parse overflow_text now conn
         days max_results)
  = Ok results ->
  (exists models,
     frontier_models conn = Ok models
     /\ (Z.of_nat (length results)
         <= 2 * Z.of_nat (length models) * Z.max 1 max_results)%Z)
  /\ forall cutoff model_id ty (e : entry struct_time) rest t published ti li,
       (max_results <= 1)%Z ->
       published_parsed e = Some t -> moment t = Ok published ->
       (cutoff <= published)%Z ->
       title e = Some ti -> link e = Some li ->
       exists r,
         scan_entries moment cutoff max_results model_id ty (e :: rest) 0
         = Ok [r].
Proof.
  intros H. split.
  - destruct (scrape_model_updates_returned _ _ _ _ _ _ _ _ _ H)
      as (models & Hmodels & _ & Hm).
    exists models. split; [exact Hmodels|].
    exact (scrape_models_cap _ _ _ _ Hm).
  - intros cutoff model_id ty e rest t published ti li Hmax Hp Hm Hrecent
      Hti Hli.
    cbn [scan_entries]. rewrite Hp, Hm. cbn [bind].
    assert (Hlt : (published <? cutoff)%Z = false) by (apply Z.ltb_ge; lia).
    rewrite Hlt, Hti, Hli. cbn [attribute bind].
    assert (Hcap : (max_results <=? 0 + 1)%Z = true) by (apply Z.leb_le; lia).
    rewrite Hcap. eexists. reflexivity.
Qed.

Lemma scan_entries_origin cutoff max_results model_id ty
  (entries : list (entry struct_time)) count results r :
  scan_entries moment cutoff max_results model_id ty entries count
  = Ok results ->
  In r results ->
  frontier_model_id r = model_id
  /\ update_type r = ty
  /\ exists e,
       In e entries
       /\ link e = Some (source_url r)
       /\ title e = Some (u_title r)
       /\ u_description r = clean_summary (summary_or_description e).
Proof.
  revert count results.
  induction entries as [|e rest IH]; intros count results H Hin; simpl in H.
  - injection H as <-. destruct Hin.
  - assert (Hrest : forall count results,
              scan_entries moment cutoff max_results model_id ty rest count
              = Ok results -> In r results ->
              frontier_model_id r = model_id
              /\ update_type r = ty
              /\ exists e0,
                   In e0 (e :: rest)
                   /\ link e0 = Some (source_url r)
                   /\ title e0 = Some (u_title r)
                   /\ u_description r
                      = clean_summary (summary_or_description e0)).
    { intros count' results' H' Hin'.
      destruct (IH _ _ H' Hin') as (Hid & Hty & e0 & He0 & Hrest).
      split; [exact Hid|]. split; [exact Hty|].
      exists e0. split; [right; exact He0|exact Hrest]. }
    destruct (published_parsed e) as [t|]; [|exact (Hrest _ _ H Hin)].
    destruct (moment t) as [published|err]; cbn [bind] in H;
      [|discriminate H].
    destruct (published <? cutoff)%Z; [exact (Hrest _ _ H Hin)|].
    destruct (title e) as [ti|] eqn:Hti; simpl in H; [|discriminate H].
    destruct (link e) as [li|] eqn:Hli; simpl in H; [|discriminate H].
    assert (Hhere : forall r0,
              r0 = {| frontier_model_id := model_id;
                      u_title := ti;
                      u_description := clean_summary (summary_or_description e);
                      update_type := ty;
                      source_url := li;
                      update_date := published |} ->
              frontier_model_id r0 = model_id
              /\ update_type r0 = ty
              /\ exists e0,
                   In e0 (e :: rest)
                   /\ link e0 = Some (source_url r0)
                   /\ title e0 = Some (u_title r0)
                   /\ u_description r0
                      = clean_summary (summary_or_description e0)).
    { intros r0 ->. split; [reflexivity|]. split; [reflexivity|].
      exists e. split; [left; reflexivity|]. cbn.
      split; [exact Hli|]. split; [exact Hti|reflexivity]. }
    destruct (max_results <=? count + 1)%Z.
    + injection H as <-. destruct Hin as [<-|[]]. apply Hhere. reflexivity.
    + destruct (scan_entries moment cutoff max_results model_id ty rest
                  (count + 1)) as [rs|err] eqn:Hrs; simpl in H;
        [|discriminate H].
      injection H as <-. destruct Hin as [<-|Hin].
      * apply Hhere. reflexivity.
      * exact (Hrest _ _ Hrs Hin).
Qed.

(** X21: every record of a run comes from the feed of one tracked model
    and one of the two categories: it has the id of that model and the
    name of that category, and the feed found at the search URL built
    from the model's name, its provider and the category's phrase holds
    an entry with the record's link and title whose summary, cleaned, is
    the record's description. *)
Theorem scraped_record_origin (now : Z) (conn : connection)
  (days max_results : Z) (results : list update) (r : update) :
  snd (scrape_model_updates moment quote_plus parse overflow_text now conn
         days max_results)
  = Ok results ->
  In r results ->
  exists models model_id model_name provider phrase e,
    frontier_models conn = Ok models
    /\ In (model_id, model_name, provider) models
    /\ In (update_type r, phrase) categories
    /\ frontier_model_id r = model_id
    /\ In e (parse (rss_url quote_plus model_name provider phrase))
    /\ link e = Some (source_url r)
    /\ title e = Some (u_title r)
    /\ u_description r = clean_summary (summary_or_description e).
Proof.
  intros H.
  destruct (scrape_model_updates_returned _ _ _ _ _ _ _ _ _ H)
    as (models & Hmodels & _ & Hm).
  clear H. intros Hin. exists models.
  enough (Hgoal : exists model_id model_name provider phrase e,
             In (model_id, model_name, provider) models
             /\ In (update_type r, phrase) categories
             /\ frontier_model_id r = model_id
             /\ In e (parse (rss_url quote_plus model_name provider phrase))
             /\ link e = Some (source_url r)
             /\ title e = Some (u_title r)
             /\ u_description r = clean_summary (summary_or_description e)).
  { destruct Hgoal as (model_id & model_name & provider & phrase & e & Hrest).
    exists model_id, model_name, provider, phrase, e.
    split; [exact Hmodels|exact Hrest]. }
  clear Hmodels. revert Hm Hin.
  generalize (now - days * microseconds_per_day)%Z as cutoff.
  intros cutoff. revert results.
  induction models as [|model rest IH]; intros results H Hin.
  - injection H as <-. destruct Hin.
  - cbn [scrape_models] in H.
    destruct (scrape_categories moment quote_plus parse cutoff max_results
                model categories) as [rs|err] eqn:Hc; cbn [bind] in H;
      [|discriminate H].
    destruct (scrape_models moment quote_plus parse cutoff max_results rest)
      as [rs'|err] eqn:Hm; cbn [bind] in H; [|discriminate H].
    injection H as <-. apply List.in_app_or in Hin as [Hin|Hin].
    + destruct model as [[model_id model_name] provider].
      assert (Hcats : forall cats rs,
                scrape_categories moment quote_plus parse cutoff max_results
                  (model_id, model_name, provider) cats = Ok rs ->
                In r rs ->
                exists phrase e,
                  In (update_type r, phrase) cats
                  /\ frontier_model_id r = model_id
                  /\ In e (parse (rss_url quote_plus model_name provider phrase))
                  /\ link e = Some (source_url r)
                  /\ title e = Some (u_title r)
                  /\ u_description r
                     = clean_summary (summary_or_description e)).
      { clear. induction cats as [|[ty phrase] cats IHc]; intros rs H Hin.
        - injection H as <-. destruct Hin.
        - simpl in H.
          destruct (scan_entries moment cutoff max_results model_id ty _ 0)
            as [rs0|err] eqn:Hs; simpl in H; [|discriminate H].
          destruct (scrape_categories moment quote_plus parse cutoff
                      max_results (model_id, model_name, provider) cats)
            as [rs1|err] eqn:Hc; simpl in H; [|discriminate H].
          injection H as <-. apply List.in_app_or in Hin as [Hin|Hin].
          + destruct (scan_entries_origin _ _ _ _ _ _ _ _ Hs Hin)
              as (Hid & Hty & e & He & Hrest).
            exists phrase, e. split; [left; rewrite Hty; reflexivity|].
            split; [exact Hid|]. split; [exact He|exact Hrest].
          + destruct (IHc _ eq_refl Hin) as (ph & e & Hph & Hrest).
            exists ph, e. split; [right; exact Hph|exact Hrest]. }
      destruct (Hcats _ _ Hc Hin) as (phrase & e & Hph & Hid & Hrest).
      exists model_id, model_name, provider, phrase, e.
      split; [left; reflexivity|]. split; [exact Hph|].
      split; [exact Hid|exact Hrest].
    + destruct (IH _ eq_refl Hin)
        as (model_id & model_name & provider & phrase & e & Hmodel & Hrest).
      exists model_id, model_name, provider, phrase, e.
      split; [right; exact Hmodel|exact Hrest].
Qed.



End Feeds.

(** ** The scraper: the table, the summary, the script *)

Section Table.
Import Scraper.
Context (refusal : message).

Lemma merged_again (o : option update) r :
  merged (Some (merged o r)) r = merged o r.
Proof. destruct o as [o|]; [reflexivity|]. destruct r. reflexivity. Qed.

Lemma upsert_rows_twice (rs : list update) (t : gmap string update) :
  List.NoDup (List.map source_url rs) ->
  List.fold_left upsert_row rs (List.fold_left upsert_row rs t)
  = List.fold_left upsert_row rs t.
Proof.
  intros Hnd. apply map_eq. intros url.
  destruct (List.in_dec String.string_dec url (List.map source_url rs))
    as [Hin|Hout].
  - apply List.in_map_iff in Hin as (r & <- & Hr).
    rewrite !(upsert_rows_same rs _ r Hnd Hr).
    rewrite merged_again. reflexivity.
  - rewrite upsert_rows_other by exact Hout. reflexivity.
Qed.

(** X23: storing a batch of records with pairwise distinct URLs a second
    time leaves the committed table as the first time left it; the
    records are counted again. *)
Theorem insert_into_db_again (conn : connection) (records : list update) :
  List.NoDup (List.map source_url records) ->
  let first := insert_into_db refusal conn records in
  let second := insert_into_db refusal (fst first) records in
  committed (fst second) = committed (fst first)
  /\ snd second = snd first
  /\ snd first = Ok (length records).
Proof.
  intros Hnd. cbn zeta. destruct records as [|r0 rs];
    [repeat split; reflexivity|].
  pose proof (distinct_accepted _ Hnd) as Hacc.
  rewrite (insert_into_db_accepted refusal conn r0 rs Hacc). cbn [fst snd].
  rewrite (insert_into_db_accepted refusal _ r0 rs Hacc).
  cbn [fst snd committed working].
  split; [|split; reflexivity].
  exact (upsert_rows_twice (r0 :: rs) (working conn) Hnd).
Qed.






End Table.

Section Summary.
Import Scraper.

Lemma match_tag_plain (s : string) :
  Endpoints.has_char lt_char s = false -> match_tag s = None.
Proof.
  destruct s as [|c1 [|c2 t]]; try reflexivity.
  cbn [Endpoints.has_char match_tag]. intros H.
  apply orb_false_iff in H as [H1 _]. rewrite H1. reflexivity.
Qed.

Lemma strip_tags_fuel_plain (fuel : nat) (s : string) :
  Endpoints.has_char lt_char s = false -> strip_tags_fuel fuel s = s.
Proof.
  revert s. induction fuel as [|fuel IH]; intros s H; [reflexivity|].
  destruct s as [|c t]; [reflexivity|].
  cbn [strip_tags_fuel]. rewrite (match_tag_plain _ H).
  cbn [Endpoints.has_char] in H. apply orb_false_iff in H as [_ Ht].
  rewrite (IH t Ht). reflexivity.
Qed.

Lemma first_sentence_whole (s : string) :
  has_break s = false -> first_sentence s = s.
Proof.
  induction s as [|c t IH]; [reflexivity|].
  cbn [has_break first_sentence]. destruct t as [|c' t']; [reflexivity|].
  intros H. apply orb_false_iff in H as [H1 H2]. rewrite H1.
  rewrite (IH H2). reflexivity.
Qed.

Lemma first_sentence_break (p rest : string) :
  has_break p = false -> first_sentence (p ++ ". " ++ rest) = p.
Proof.
  induction p as [|c t IH]; [reflexivity|].
  intros H. destruct t as [|c' t'].
  - change (first_sentence (String c EmptyString ++ ". " ++ rest))
      with (if Ascii.eqb c "."%char && Ascii.eqb "."%char " "%char
            then EmptyString
            else String c (first_sentence (". " ++ rest))).
    change (Ascii.eqb "."%char " "%char) with false.
    rewrite Bool.andb_false_r. reflexivity.
  - cbn [has_break] in H. apply orb_false_iff in H as [H1 H2].
    change (first_sentence (String c (String c' t') ++ ". " ++ rest))
      with (if Ascii.eqb c "."%char && Ascii.eqb c' " "%char
            then EmptyString
            else String c (first_sentence (String c' t' ++ ". " ++ rest))).
    rewrite H1, (IH H2). reflexivity.
Qed.

(** X25: a text without "<" has no tag to strip.  With [text] the input
    without its tags: when [text], trimmed, has a first sentence, that
    is a text [p] that is not empty and is followed by a full stop and a
    space, the result is [p] and a full stop; when the trimmed text is
    not empty and has no full stop followed by a space, the result is
    the trimmed text and a full stop, also when it ends in one already;
    when the trimmed text is empty or starts with a full stop and a
    space, the result is [text], not trimmed. *)
Theorem clean_summary_sentences (html_text : string) :
  let text := strip_tags html_text in
  (Endpoints.has_char lt_char html_text = false -> text = html_text)
  /\ (forall p rest,
        strip text = p ++ ". " ++ rest -> has_break p = false ->
        p <> EmptyString -> clean_summary html_text = p ++ ".")
  /\ (has_break (strip text) = false -> strip text <> EmptyString ->
      clean_summary html_text = strip text ++ ".")
  /\ (strip text = EmptyString
      \/ (exists rest, strip text = ". " ++ rest) ->
      clean_summary html_text = text).
Proof.
  cbn zeta. split; [|split; [|split]].
  - apply strip_tags_fuel_plain.
  - intros p rest Hs Hp Hne. unfold clean_summary. cbn zeta.
    rewrite Hs, (first_sentence_break p rest Hp).
    destruct p; [congruence|reflexivity].
  - intros Hb Hne. unfold clean_summary. cbn zeta.
    rewrite (first_sentence_whole _ Hb).
    destruct (strip (strip_tags html_text)); [congruence|reflexivity].
  - intros [Hs|[rest Hs]]; unfold clean_summary; cbn zeta; rewrite Hs;
      reflexivity.
Qed.

End Summary.

Section Script.
Import Scraper.
Context {struct_time : Type}.
Context (moment : struct_time -> result Z).
Context (quote_plus : string -> string).
Context (parse : string -> list (entry struct_time)).
Context (overflow_text : Z -> Z -> message).
Context (refusal : message).
Context (connect : string -> result connection).

(** X26: the script, run with a database URL.  When the connection
    cannot be made the error is raised.  Otherwise the script always
    leaves the connection closed, with the tracked models as they were.  When the
    scrape fails or finds nothing, nothing is written and the committed
    table is as it was: the failure is raised, or the line about no new
    records printed.  Otherwise the records are handed to the writer.
    When no page of them repeats a URL they are stored and committed,
    and the line printed gives their number; when one does, as when a
    link is found in both feeds of a model, the script raises the
    refusal of the server and the committed table is as it was. *)
Theorem main_outcome (url : string) (now days max_results : Z) :
  url <> EmptyString ->
  let run :=
    Collector.main moment quote_plus parse overflow_text refusal connect
      (Some url) now days max_results in
  (forall e, connect url = Err e -> run = (None, Collector.Raised e))
  /\ forall conn, connect url = Ok conn ->
  exists conn',
    fst run = Some conn'
    /\ working conn' = committed conn'
    /\ frontier_models conn' = frontier_models conn
    /\ match
         snd (scrape_model_updates moment quote_plus parse overflow_text now
                conn days max_results)
       with
       | Err e =>
           snd run = Collector.Raised e
           /\ committed conn' = committed conn
           /\ (forall c, In c (calls conn') ->
                 In c (calls conn) \/ c = Cursor
                 \/ c = Execute select_models_sql \/ c = CloseCursor)
       | Ok [] =>
           snd run = Collector.Printed [Lit "No new records to insert."]
           /\ committed conn' = committed conn
           /\ calls conn'
              = (calls conn
                 ++ [Cursor; Execute select_models_sql; CloseCursor])%list
       | Ok records =>
           if accepted records
           then
             snd run
             = Collector.Printed
                 [Lit "Inserted/Updated ";
                  FInt (Z.of_nat (length records)); Lit " records."]
             /\ committed conn'
                = List.fold_left upsert_row records (working conn)
             /\ calls conn'
                = (calls conn
                   ++ [Cursor; Execute select_models_sql; CloseCursor;
                       Cursor; ExecuteValues upsert_sql records; Commit;
                       CloseCursor])%list
           else
             snd run
             = Collector.Raised (Exception "CardinalityViolation" refusal)
             /\ committed conn' = committed conn
             /\ calls conn'
                = (calls conn
                   ++ [Cursor; Execute select_models_sql; CloseCursor;
                       Cursor; ExecuteValues upsert_sql records])%list
       end.
Proof.
  intros Hurl. cbn zeta. unfold Collector.main.
  apply String.eqb_neq in Hurl. rewrite Hurl.
  split; [intros e ->; reflexivity|]. intros conn ->.
  unfold scrape_model_updates, get_models_from_db.
  destruct (frontier_models conn) as [models|e0] eqn:Hmodels;
    cbn [fst snd bind].
  2:{ eexists. split; [reflexivity|].
      cbn [Collector.close record_calls working committed frontier_models
           calls].
      split; [reflexivity|]. split; [first [exact Hmodels|symmetry; exact Hmodels|reflexivity]|].
      split; [reflexivity|]. split; [reflexivity|].
      intros c Hc. apply List.in_app_or in Hc as [Hc|[<-|[<-|[]]]]; auto. }
  destruct (cutoff_of overflow_text now days) as [cutoff|e0]; cbn [bind].
  2:{ eexists. split; [reflexivity|].
      cbn [Collector.close record_calls working committed frontier_models
           calls].
      split; [reflexivity|]. split; [first [exact Hmodels|symmetry; exact Hmodels|reflexivity]|].
      split; [reflexivity|]. split; [reflexivity|].
      intros c Hc. apply List.in_app_or in Hc as [Hc|[<-|[<-|[<-|[]]]]]; auto. }
  destruct (scrape_models moment quote_plus parse cutoff max_results models)
    as [[|r0 rs]|e].
  - eexists. split; [reflexivity|].
    cbn [Collector.close record_calls working committed frontier_models
         calls].
    split; [reflexivity|]. split; [first [exact Hmodels|symmetry; exact Hmodels|reflexivity]|].
    repeat split.
  - destruct (accepted (r0 :: rs)) eqn:Hacc.
    + rewrite (insert_into_db_accepted refusal _ r0 rs Hacc). cbn [fst snd].
      eexists. split; [reflexivity|].
      cbn [Collector.close record_calls working committed frontier_models
           calls].
      split; [reflexivity|]. split; [first [exact Hmodels|symmetry; exact Hmodels|reflexivity]|].
      split; [reflexivity|]. split; [reflexivity|].
      rewrite <- !List.app_assoc. reflexivity.
    + rewrite (insert_into_db_refused refusal _ r0 rs Hacc). cbn [fst snd].
      eexists. split; [reflexivity|].
      cbn [Collector.close record_calls working committed frontier_models
           calls].
      split; [reflexivity|]. split; [first [exact Hmodels|symmetry; exact Hmodels|reflexivity]|].
      split; [reflexivity|]. split; [reflexivity|].
      rewrite <- !List.app_assoc. reflexivity.
  - eexists. split; [reflexivity|].
    cbn [Collector.close record_calls working committed frontier_models
         calls].
    split; [reflexivity|]. split; [first [exact Hmodels|symmetry; exact Hmodels|reflexivity]|].
    split; [reflexivity|]. split; [reflexivity|].
    intros c Hc. apply List.in_app_or in Hc as [Hc|[<-|[<-|[<-|[]]]]]; auto.
Qed.

End Script.

(** ** Group detection after the data set *)

Section Detection.
Context (lib : library).

Lemma create_dataset_preprocessed data attrs gm (ds : dataset lib) :
  Main.create_dataset lib data attrs gm = Ok ds ->
  exists df1,
    Main.preprocess_data lib (DataFrame_of data) attrs gm = Ok df1.
Proof.
  unfold Main.create_dataset.
  destruct (Main.prepare_dataset lib data attrs gm) as [a|e] eqn:Hprep.
  2:{ cbn [bind try_except_reraise_http]. destruct (is_HTTPException e);
        discriminate. }
  intros _. unfold Main.prepare_dataset in Hprep.
  destruct (length (columns (DataFrame_of data)) <? 2)%nat;
    [discriminate Hprep|].
  destruct (Main.find_label_column (DataFrame_of data)) as [label|e0];
    cbn [try_except bind] in Hprep; [|discriminate Hprep].
  destruct (Main.preprocess_data lib (DataFrame_of data) attrs gm)
    as [df|e0]; [|discriminate Hprep].
  exists df. reflexivity.
Qed.

(** X27: once the data set of a request has been created, group
    detection on the first protected attribute cannot fail, when that
    attribute is a column with an explicit mapping, or a column of strs:
    it gives the groups of 1.0 and of 0.0.  (Detection reads the data as
    sent, the data set holds them as preprocessed.) *)
Theorem detection_follows_dataset (data : list row) attr rest
  (gm : option mappings) (ds : dataset lib) :
  has_column attr (DataFrame_of data) = true ->
  (Main.mapping_for gm attr = None ->
   List.Forall is_str (column (DataFrame_of data) attr)) ->
  Main.create_dataset lib data (attr :: rest) gm = Ok ds ->
  snd (Main.simple_detect_groups (DataFrame_of data) (attr :: rest) gm)
  = Ok ([{[attr := CNum 1]}], [{[attr := CNum 0]}]).
Proof.
  intros Hcol Hstr Hds.
  destruct (create_dataset_preprocessed _ _ _ _ Hds) as (df1 & Hpre).
  unfold Main.preprocess_data, try_except in Hpre. cbn zeta in Hpre.
  rewrite encode_protected_cons in Hpre.
  destruct (Main.encode_step gm attr _) as [df2|e] eqn:Hstep;
    [|discriminate Hpre].
  clear Hpre. unfold Main.encode_step in Hstep.
  rewrite converted_has_column, Hcol in Hstep.
  assert (Hcol0 : has_column attr
                    (Main.numeric_others lib (attr :: rest)
                       (Main.stringify_protected lib (attr :: rest)
                          (DataFrame_of data))) = true)
    by (rewrite converted_has_column; exact Hcol).
  unfold Main.simple_detect_groups. rewrite Hcol. cbn [negb].
  destruct (Main.mapping_for gm attr) as [m|] eqn:Hmap.
  - destruct (encode_with_mapping_inv _ _ _ _ Hcol0 Hstep)
      as (pv & uv & Hp & Hu & _).
    rewrite Hp, Hu. reflexivity.
  - destruct (encode_fallback_inv _ _ _ Hcol0 Hstep) as (p & u & Hsorted & _).
    rewrite converted_column in Hsorted by (first [left; reflexivity|exact Hcol]).
    rewrite (astype_str_strings lib _ (Hstr eq_refl)) in Hsorted.
    apply sorted_length in Hsorted. cbn [length] in Hsorted.
    rewrite <- Hsorted. reflexivity.
Qed.

End Detection.

(** * Further worked instances *)

Section MoreInstances.
Open Scope float_scope.

(** The column b, a, b without mappings: three rows in, three rows out. *)
Lemma preprocess_keeps_shape_witness :
  exists df',
    Main.preprocess_data Sample.lib Sample.frame ["g"] None = Ok df'
    /\ columns df' = ["g"; "label"]
    /\ nrows df' = 3%nat
    /\ column df' "label" = [CNum 1; CNum 0; CNum 1].
Proof.
  assert (H : Main.preprocess_data Sample.lib Sample.frame ["g"] None
              = Ok [("g", [CNum 0; CNum 1; CNum 0]);
                    ("label", [CNum 1; CNum 0; CNum 1])]) by reflexivity.
  destruct (preprocess_keeps_shape Sample.lib _ _ _ _ H) as (Hc & Hr & Ho).
  eexists. split; [exact H|]. split; [exact Hc|]. split.
  - destruct Hr as (_ & _ & Hn); [repeat constructor|].
    apply Hn. intros attr _. reflexivity.
  - rewrite (Ho (fun attr _ => eq_refl) "label"); [reflexivity| |reflexivity].
    intros [Heq|[]]. discriminate Heq.
Defined.

(** A protected column that reads a, a. *)
Lemma preprocess_rejects_single_value_witness :
  Main.preprocess_data Sample.lib SampleMore.frame_constant ["g"] None
  = Err (HTTPException 400
           [Lit "Error preprocessing data: "; FInt 400; Lit ": ";
            Lit "Not enough unique values for protected attribute '";
            FStr "g"; Lit "'. Found: "; FCells [CStr "a"]]).
Proof.
  assert (Hl : (length (unique (Main.astype_str Sample.lib
                                  (column SampleMore.frame_constant "g")))
                < 2)%nat) by (vm_compute; lia).
  exact (preprocess_rejects_single_value Sample.lib SampleMore.frame_constant
           "g" [] None eq_refl eq_refl Hl).
Defined.

(** A mapping for g that names the unprivileged value only. *)
Lemma preprocess_rejects_incomplete_mapping_witness :
  Main.preprocess_data Sample.lib Sample.frame ["g"] SampleMore.mappings_half
  = Err (HTTPException 400
           [Lit "Error preprocessing data: "; Lit "'"; FStr "privileged";
            Lit "'"]).
Proof.
  exact (proj1 (preprocess_rejects_incomplete_mapping Sample.lib Sample.frame
                  "g" [] SampleMore.mappings_half
                  (<["unprivileged" := Single "a"]> ∅) "privileged"
                  eq_refl eq_refl (or_introl (conj eq_refl eq_refl)))).
Defined.

(** The sample request with a metric library that divides by zero. *)
Lemma analyze_bias_failure_status_witness :
  exists d,
    Main.analyze_bias SampleMore.lib_without_metric Sample.request_ba
    = Err (HTTPException 500
             (Lit "Error calculating metrics: " :: FInt 400 :: Lit ": "
              :: Lit "Error calculating metrics: " :: d)).
Proof.
  assert (H : Main.analyze_bias SampleMore.lib_without_metric Sample.request_ba
              = Err (HTTPException 500
                       [Lit "Error calculating metrics: "; FInt 400; Lit ": ";
                        Lit "Error calculating metrics: ";
                        Lit "division by zero"])) by reflexivity.
  destruct (proj1 (analyze_bias_failure_status SampleMore.lib_without_metric
                     Sample.request_ba) _ H)
    as [(d & Hd)|(d & ds & p & u & e' & Hd & _)].
  - discriminate Hd.
  - exists d. rewrite H, Hd. reflexivity.
Defined.

(** The sample frame and its records. *)
Lemma records_round_trip_witness :
  DataFrame_of (to_dict_records Sample.frame) = Sample.frame.
Proof.
  apply (records_round_trip Sample.frame).
  - constructor; [intros [H|[]]; discriminate H|].
    constructor; [intros []|constructor].
  - repeat constructor.
  - simpl. lia.
Defined.



(** What the sample request hands to the data set constructor. *)
Lemma prepare_dataset_shape_witness :
  exists a,
    Main.prepare_dataset Sample.lib (to_dict_records Sample.frame) ["g"] None
    = Ok a
    /\ columns (Main.frame a) = ["g"; "label"]
    /\ Main.label_names a = ["label"]
    /\ (nrows (Main.frame a) <= 3)%nat.
Proof.
  assert (H : Main.prepare_dataset Sample.lib (to_dict_records Sample.frame)
                ["g"] None
              = Ok {| Main.frame :=
                        [("g", [CNum 0; CNum 1; CNum 0]);
                         ("label", [CNum 1; CNum 0; CNum 1])];
                      Main.label_names := ["label"];
                      Main.protected_names := ["g"];
                      Main.privileged_protected_attributes := [[1]];
                      Main.unprivileged_protected_attributes := [[0]] |})
    by reflexivity.
  destruct (prepare_dataset_shape Sample.lib _ _ _ _ H)
    as (Hc & _ & Hn & _ & label & Hl & _).
  eexists. split; [exact H|]. split; [exact Hc|].
  split; [reflexivity|exact Hn].
Defined.

(** The sample run: two records, under a cap of five per feed. *)
Lemma scrape_respects_cap_witness :
  exists models,
    Scraper.frontier_models Sample.conn = Ok models
    /\ (Z.of_nat (length [Sample.scraped "security"; Sample.scraped "feature"])
        <= 2 * Z.of_nat (length models) * Z.max 1 5)%Z.
Proof.
  assert (H : snd (Scraper.scrape_model_updates (fun t : Z => Ok t)
                     (fun s => s) Sample.feed Sample.overflow_text Sample.now
                     Sample.conn 7 5)
              = Ok [Sample.scraped "security"; Sample.scraped "feature"])
    by reflexivity.
  exact (proj1 (scrape_respects_cap (fun t : Z => Ok t) (fun s => s)
                  Sample.feed Sample.overflow_text Sample.now Sample.conn 7 5
                  _ H)).
Defined.

(** The security record of the sample run. *)
Lemma scraped_record_origin_witness :
  exists models model_id model_name provider phrase e,
    Scraper.frontier_models Sample.conn = Ok models
    /\ In (model_id, model_name, provider) models
    /\ In ("security", phrase) Scraper.categories
    /\ Scraper.frontier_model_id (Sample.scraped "security") = model_id
    /\ In e (Sample.feed (Scraper.rss_url (fun s => s) model_name provider
                            phrase))
    /\ Scraper.link e = Some "https://example.org/recent"
    /\ Scraper.title e = Some "recent"
    /\ "Fresh news."
       = Scraper.clean_summary (Scraper.summary_or_description e).
Proof.
  assert (H : snd (Scraper.scrape_model_updates (fun t : Z => Ok t)
                     (fun s => s) Sample.feed Sample.overflow_text Sample.now
                     Sample.conn 7 5)
              = Ok [Sample.scraped "security"; Sample.scraped "feature"])
    by reflexivity.
  exact (scraped_record_origin (fun t : Z => Ok t) (fun s => s) Sample.feed
           Sample.overflow_text Sample.now Sample.conn 7 5 _
           (Sample.scraped "security") H (or_introl eq_refl)).
Defined.

(** The sample batch, stored twice. *)
Lemma insert_into_db_again_witness :
  Scraper.committed
    (fst (Scraper.insert_into_db Sample.refusal
            (fst (Scraper.insert_into_db Sample.refusal Sample.conn
                    Sample.batch))
            Sample.batch))
  = Scraper.committed
      (fst (Scraper.insert_into_db Sample.refusal Sample.conn Sample.batch)).
Proof.
  assert (Hnd : List.NoDup (List.map Scraper.source_url Sample.batch)).
  { repeat constructor; simpl; intuition discriminate. }
  exact (proj1 (insert_into_db_again Sample.refusal Sample.conn Sample.batch
                  Hnd)).
Defined.


(** A run of the script on feeds that share no link, and on the sample
    table. *)
Lemma main_outcome_witness :
  exists conn',
    fst (Collector.main (fun t : Z => Ok t) (fun s => s) SampleMore.feed
           Sample.overflow_text Sample.refusal (fun _ => Ok Sample.conn)
           (Some "postgres://db") Sample.now 7 5)
    = Some conn'
    /\ Scraper.working conn' = Scraper.committed conn'
    /\ snd (Collector.main (fun t : Z => Ok t) (fun s => s) SampleMore.feed
              Sample.overflow_text Sample.refusal (fun _ => Ok Sample.conn)
              (Some "postgres://db") Sample.now 7 5)
       = Collector.Printed
           [Lit "Inserted/Updated "; FInt 2; Lit " records."].
Proof.
  assert (Hurl : "postgres://db" <> EmptyString) by discriminate.
  destruct (proj2 (main_outcome (fun t : Z => Ok t) (fun s => s)
                     SampleMore.feed Sample.overflow_text Sample.refusal
                     (fun _ => Ok Sample.conn) "postgres://db" Sample.now 7 5
                     Hurl) Sample.conn eq_refl)
    as (conn' & Hrun & Hclosed & _ & Hend).
  exists conn'. split; [exact Hrun|]. split; [exact Hclosed|].
  exact (proj1 Hend).
Defined.

(** The same run on the sample feeds, where both searches find the same
    link: the script raises the refusal of the server. *)
Example main_on_shared_link :
  snd (Collector.main (fun t : Z => Ok t) (fun s => s) Sample.feed
         Sample.overflow_text Sample.refusal (fun _ => Ok Sample.conn)
         (Some "postgres://db") Sample.now 7 5)
  = Collector.Raised (Exception "CardinalityViolation" Sample.refusal).
Proof. reflexivity. Qed.

(** The sample request: a column of strs, no mapping. *)
Lemma detection_follows_dataset_witness :
  snd (Main.simple_detect_groups (DataFrame_of (to_dict_records Sample.frame))
         ["g"] None)
  = Ok ([{["g" := CNum 1]}], [{["g" := CNum 0]}]).
Proof.
  assert (Hds : Main.create_dataset Sample.lib (to_dict_records Sample.frame)
                  ["g"] None
                = Ok ([("g", [CNum 0; CNum 1; CNum 0]);
                       ("label", [CNum 1; CNum 0; CNum 1])], ["g"]))
    by reflexivity.
  refine (detection_follows_dataset Sample.lib (to_dict_records Sample.frame)
            "g" [] None _ eq_refl _ Hds).
  intros _. repeat constructor.
Defined.

(** The column b, a, b: "a" is encoded 1.0 by [preprocess_data], also
    when another attribute is named with it, and "b" comes first for
    [simple_detect_groups]. *)
Lemma fallback_selection_witness :
  has_column "g" Sample.frame = true
  /\ Main.mapping_for None "g" = None
  /\ (exists df',
         Main.preprocess_data Sample.lib Sample.frame ["g"] None = Ok df'
         /\ column df' "g" = [CNum 0; CNum 1; CNum 0])
  /\ (exists p u,
         String.ltb p u = true
         /\ [CNum 0; CNum 1; CNum 0]
            = List.map (fun x => if py_eq x (CStr p) then CNum 1 else CNum 0)
                (Main.astype_str Sample.lib (column Sample.frame "g")))
  /\ List.nth 0 (unique (column Sample.frame "g")) (CNum nan) = CStr "b".
Proof.
  assert (Hcol : has_column "g" Sample.frame = true) by reflexivity.
  assert (Hmap : Main.mapping_for None "g" = None) by reflexivity.
  destruct (fallback_selection Sample.lib Sample.frame "g" None Hcol Hmap)
    as (Hsound & Haccept & Hdetect).
  split; [exact Hcol|]. split; [exact Hmap|]. split; [|split].
  - destruct (Haccept "a" "b") as (df' & Hok & Hcolumn).
    + reflexivity.
    + right. left. reflexivity.
    + left. reflexivity.
    + intros x [<-|[<-|[<-|[]]]]; auto.
    + exists df'. split; [exact Hok|]. rewrite Hcolumn. reflexivity.
  - destruct (Hsound ["h"] []
                [("g", [CNum 0; CNum 1; CNum 0]);
                 ("label", [CNum 1; CNum 0; CNum 1])])
      as (p & u & Hlt & _ & _ & _ & Hcolumn).
    + intros [H|[]]. discriminate H.
    + intros [].
    + intros a _. reflexivity.
    + reflexivity.
    + exists p, u. split; [exact Hlt|exact Hcolumn].
  - destruct (Hdetect [] (CStr "b") [CStr "a"; CStr "b"]) as (Hnth & _).
    + reflexivity.
    + vm_compute. lia.
    + exact Hnth.
Defined.

(** Why the attribute has to be named once: named twice it is encoded
    twice, and the second pass, over 0.0 and 1.0, swaps the codes. *)
Example attribute_named_twice_swaps :
  exists df',
    Main.preprocess_data Sample.lib Sample.frame ["g"; "g"] None = Ok df'
    /\ column df' "g" = [CNum 1; CNum 0; CNum 1].
Proof. eexists. split; reflexivity. Qed.

End MoreInstances.
